(** * ai-knowledge-assistant: access control, retrieval filtering and the
      resilient inference client

    A shallow embedding of
      - [backend/app/core/rbac.py]            (roles, project and document access),
      - [backend/app/services/vector_service.py] (the RBAC retrieval filter),
      - [backend/app/services/ai_service.py]  (circuit breaker, rate limiter,
                                               citations, confidence, fallback),
    followed by the properties stated about them.

    Conventions.
      - Python [int] is [Z]; [Optional[int]] is [option Z].
      - Python [str] is [string], one [ascii] per character, so the model
        covers text whose code points are below 256; [str.lower] and
        [str.strip] follow CPython on that range.
      - A Python [float] is the rational [Q] it denotes; the arithmetic of
        [_calculate_confidence] rounds every result to binary64
        ([PyFloat.round]); infinities and NaN are left out.
      - [datetime] values are microseconds on the UTC time line, as [Z];
        [timedelta(seconds=n)] is [n * 1000000].
      - SQLAlchemy tables are finite maps keyed by primary key. *)

From Stdlib Require Import ZArith QArith Qminmax Qround Qpower Qabs.
From Stdlib Require Import String Ascii List Bool Lia Lqa.
From stdpp Require Import base gmap sets list strings pretty.
From stdpp Require Import sorting.

Local Close Scope Q_scope.
Local Open Scope Z_scope.

(** ** Python strings *)

Module PyStr.

(** [c.lower()] for one character. *)
Definition lower_char (c : ascii) : ascii :=
  let n := N_of_ascii c in
  if ((65 <=? n) && (n <=? 90))%N
     || ((192 <=? n) && (n <=? 222) && negb (n =? 215))%N
  then ascii_of_N (n + 32)
  else c.

(** [s.lower()] *)
Fixpoint lower (s : string) : string :=
  match s with
  | EmptyString => EmptyString
  | String c r => String (lower_char c) (lower r)
  end.

(** [c.isspace()] *)
Definition isspace (c : ascii) : bool :=
  let n := N_of_ascii c in
  (((9 <=? n) && (n <=? 13)) || ((28 <=? n) && (n <=? 32))
   || (n =? 133) || (n =? 160))%N.

Fixpoint lstrip (s : string) : string :=
  match s with
  | EmptyString => EmptyString
  | String c r => if isspace c then lstrip r else s
  end.

Fixpoint rstrip (s : string) : string :=
  match s with
  | EmptyString => EmptyString
  | String c r =>
      match rstrip r with
      | EmptyString => if isspace c then EmptyString else String c EmptyString
      | r' => String c r'
      end
  end.

(** [s.strip()] *)
Definition strip (s : string) : string := rstrip (lstrip s).

(** [needle in hay] *)
Fixpoint contains (needle hay : string) : bool :=
  String.prefix needle hay
  || match hay with
     | EmptyString => false
     | String _ r => contains needle r
     end.

(** truthiness of a string: [if s:] *)
Definition truthy (s : string) : bool :=
  match s with EmptyString => false | _ => true end.

(** [s[:n]] *)
Definition take (n : nat) (s : string) : string := substring 0 n s.

(** [sep.join(parts)] *)
Fixpoint join (sep : string) (parts : list string) : string :=
  match parts with
  | [] => EmptyString
  | [p] => p
  | p :: rest => p +:+ sep +:+ join sep rest
  end.

(** [x] occurs in [s] as a contiguous piece. *)
Definition infix (x s : string) : Prop :=
  exists pre post, s = pre +:+ x +:+ post.

(** [s.split()]: the maximal runs of characters that are not white
    space, in order. *)
Fixpoint split (s : string) : list string :=
  match s with
  | EmptyString => []
  | String c r =>
      if isspace c then split r
      else
        match r with
        | EmptyString => [String c EmptyString]
        | String c' _ =>
            if isspace c' then String c EmptyString :: split r
            else
              match split r with
              | word :: words => String c word :: words
              | [] => [String c EmptyString]
              end
        end
  end.

End PyStr.


(** ** Python floats *)

(** A [float] is the rational it denotes (infinities and NaN are left
    out), and every arithmetic operation returns its exact result rounded
    to binary64: 53 significant bits, round to nearest, ties to even. *)
Module PyFloat.

(** [floor(log2 x)] for a positive [x]. *)
Definition ilog2 (x : Q) : Z :=
  let k := Z.log2 (Qnum x) - Z.log2 (Z.pos (Qden x)) in
  if Qle_bool (2 ^ k) x then k else k - 1.

(** The exponent of the last place of the binary64 numbers of the size of
    [x]: 52 below that of [x], and never below that of the subnormal
    numbers. *)
Definition ulp_exponent (x : Q) : Z := Z.max (ilog2 (Qabs x) - 52) (-1074).

(** The integer nearest to [q], the even one of the two when [q] lies
    half-way. *)
Definition nearest_even (q : Q) : Z :=
  let f := Qfloor q in
  match (q - inject_Z f ?= 1 # 2)%Q with
  | Lt => f
  | Gt => f + 1
  | Eq => if Z.even f then f else f + 1
  end.

(** The binary64 number an operation returns when its exact result is
    [x].  It is also the value of a decimal literal: [0.7] is
    [round (7 # 10)]. *)
Definition round (x : Q) : Q :=
  let e := ulp_exponent x in
  (inject_Z (nearest_even (x / 2 ^ e)) * 2 ^ e)%Q.

End PyFloat.

(** ** rbac.py *)

Inductive UserRole := SUPER_ADMIN | ADMIN | USER | GUEST.

Inductive AccessScope := ORGANIZATION | PROJECT | PERSONAL.

Module Enum.

Definition role_value (r : UserRole) : string :=
  match r with
  | SUPER_ADMIN => "super_admin"
  | ADMIN => "admin"
  | USER => "user"
  | GUEST => "guest"
  end.

Definition scope_value (s : AccessScope) : string :=
  match s with
  | ORGANIZATION => "organization"
  | PROJECT => "project"
  | PERSONAL => "personal"
  end.

Definition all_roles : list UserRole := [SUPER_ADMIN; ADMIN; USER; GUEST].

(** [UserRole(name)]: the member whose value is [name]; [None] stands for
    the [ValueError] Python raises. *)
Definition role_of_value (name : string) : option UserRole :=
  List.find (fun r => String.eqb (role_value r) name) all_roles.

End Enum.

#[global] Instance UserRole_eq_dec : EqDecision UserRole.
Proof. solve_decision. Defined.

Module Role.
Record t := mk { name : string }.
End Role.

Module User.
Record t := mk { id : Z; role : option Role.t }.
End User.

Module Project.
(** A row of [projects]; its [id] is the key it is stored under. *)
Record t := mk {
  is_active : bool;
  is_private : bool;
  created_by_id : Z
}.
End Project.

Module Document.
(** A row of [documents]; its [id] is the key it is stored under. *)
Record t := mk {
  access_scope : string;
  project_id : Z;
  uploaded_by_id : Z
}.
End Document.

(** The part of the database session the access functions read.
    [user_projects] is the association table, keyed by
    [(user_id, project_id)], holding [role_in_project]. *)
Record Session := mkSession {
  projects : gmap Z Project.t;
  documents : gmap Z Document.t;
  user_projects : gmap (Z * Z) string
}.

Definition ROLE_PERMISSIONS (r : UserRole) : gset string :=
  match r with
  | SUPER_ADMIN => {[ "all" ]}
  | ADMIN =>
      {[ "manage_users"; "manage_projects"; "manage_documents";
         "upload_documents"; "delete_project_documents"; "chat";
         "view_all"; "view_analytics"; "view_audit"; "admin_access" ]}
  | USER =>
      {[ "upload_documents"; "delete_own_documents"; "chat";
         "view_assigned"; "manage_personal" ]}
  | GUEST => {[ "chat_limited"; "view_assigned" ]}
  end.

Definition get_user_role (user : User.t) : UserRole :=
  match User.role user with
  | None => GUEST
  | Some role =>
      let role_name := PyStr.lower (Role.name role) in
      match Enum.role_of_value role_name with
      | Some r => r
      | None => USER
      end
  end.

Definition get_user_permissions (user : User.t) : gset string :=
  ROLE_PERMISSIONS (get_user_role user).

Definition has_permission (user : User.t) (permission : string) : bool :=
  let permissions := get_user_permissions user in
  if bool_decide ("all" ∈ permissions) then true
  else bool_decide (permission ∈ permissions).

Definition is_super_admin (user : User.t) : bool :=
  bool_decide (get_user_role user = SUPER_ADMIN).

Definition is_admin (user : User.t) : bool :=
  let role := get_user_role user in
  bool_decide (role ∈ [SUPER_ADMIN; ADMIN]).

(** [user in project.users] *)
Definition is_member (db : Session) (user : User.t) (project_id : Z) : bool :=
  bool_decide (is_Some (user_projects db !! (User.id user, project_id))).

Definition check_project_access
    (project_id : Z) (user : User.t) (db : Session) (require_admin : bool) : bool :=
  if is_super_admin user then true
  else if is_admin user && negb require_admin then true
  else
    match projects db !! project_id with
    | None => false
    | Some project =>
        if Project.created_by_id project =? User.id user then true
        else if is_member db user project_id then
          if require_admin then
            match user_projects db !! (User.id user, project_id) with
            | Some r => String.eqb r "admin"
            | None => false
            end
          else true
        else if negb (Project.is_private project) then negb require_admin
        else false
    end.

(** [[p.id for p in db.query(Project.id).filter(cond).all()]] *)
Definition query_project_ids (db : Session) (cond : Project.t -> bool) : list Z :=
  (map_to_list (filter (fun kp => cond kp.2 = true) (projects db))).*1.

(** [user.projects], as the ids of the active ones. *)
Definition active_member_project_ids (db : Session) (user : User.t) : list Z :=
  (map_to_list
     (filter (fun kp => is_member db user kp.1 = true
                        /\ Project.is_active kp.2 = true)
        (projects db))).*1.

Definition get_accessible_project_ids (user : User.t) (db : Session) : list Z :=
  if is_super_admin user || is_admin user then
    query_project_ids db Project.is_active
  else
    let project_ids := active_member_project_ids db user in
    let created_projects :=
      query_project_ids db
        (fun p => (Project.created_by_id p =? User.id user) && Project.is_active p) in
    let project_ids := project_ids ++ created_projects in
    let public_projects :=
      query_project_ids db
        (fun p => negb (Project.is_private p) && Project.is_active p) in
    let project_ids := project_ids ++ public_projects in
    elements (list_to_set project_ids : gset Z).

Definition check_document_access
    (document_id : Z) (user : User.t) (db : Session) (action : string) : bool :=
  if is_super_admin user then true
  else
    match documents db !! document_id with
    | None => false
    | Some document =>
        let access_scope := Document.access_scope document in
        if Document.uploaded_by_id document =? User.id user then true
        else if is_admin user
                && negb (String.eqb access_scope (Enum.scope_value PERSONAL))
        then true
        else if String.eqb access_scope (Enum.scope_value ORGANIZATION) then
          bool_decide (action ∈ ["view"])
        else if String.eqb access_scope (Enum.scope_value PROJECT) then
          if negb (check_project_access (Document.project_id document) user db false)
          then false
          else if bool_decide (action ∈ ["edit"; "delete"]) then
            check_project_access (Document.project_id document) user db true
          else true
        else if String.eqb access_scope (Enum.scope_value PERSONAL) then
          Document.uploaded_by_id document =? User.id user
        else false
    end.

Definition can_delete_document (document_id : Z) (user : User.t) (db : Session) : bool :=
  if is_super_admin user then true
  else
    match documents db !! document_id with
    | None => false
    | Some document =>
        if Document.uploaded_by_id document =? User.id user then true
        else if is_admin user then true
        else if check_project_access (Document.project_id document) user db true
        then true
        else false
    end.


(** [HTTPException(status_code, detail)] *)
Record HTTPException := mkHTTPException { status_code : Z; detail : string }.

(** The dict [get_document_filter_for_user] builds; a key that is not set
    is [None]. *)
Record DocumentFilter := mkDocumentFilter {
  filter_project_id : option Z;
  filter_project_ids : option (list Z);
  exclude_personal_not_owned : option Z;
  filter_user_id : option Z;
  access_scope_filter : option bool
}.

(** Truthiness of an [Optional[int]]: [if project_id:] *)
Definition truthy_id (project_id : option Z) : option Z :=
  match project_id with
  | Some p => if p =? 0 then None else Some p
  | None => None
  end.

Definition get_document_filter_for_user
    (user : User.t) (db : Session) (project_id : option Z)
  : HTTPException + DocumentFilter :=
  if is_super_admin user then
    inr (mkDocumentFilter (truthy_id project_id) None None None None)
  else if is_admin user then
    inr (mkDocumentFilter (truthy_id project_id) None (Some (User.id user)) None None)
  else
    let accessible_projects := get_accessible_project_ids user db in
    match truthy_id project_id with
    | Some p =>
        if negb (bool_decide (p ∈ accessible_projects)) then
          inl (mkHTTPException 403 "No access to this project")
        else
          inr (mkDocumentFilter (Some p) None None (Some (User.id user)) (Some true))
    | None =>
        inr (mkDocumentFilter None (Some accessible_projects) None
               (Some (User.id user)) (Some true))
    end.

(** The dict [get_rbac_context] returns, with the [super_admin_user_id] key
    the chat endpoint adds when a super-admin account exists. *)
Record RbacContext := mkRbacContext {
  ctx_user_id : Z;
  ctx_role : string;
  ctx_permissions : gset string;
  accessible_project_ids : list Z;
  ctx_is_super_admin : bool;
  ctx_is_admin : bool;
  current_project_id : option Z;
  has_project_access : option bool;
  super_admin_user_id : option Z
}.

Definition get_rbac_context (user : User.t) (db : Session) (project_id : option Z)
  : RbacContext :=
  let role := get_user_role user in
  let permissions := get_user_permissions user in
  let accessible_projects := get_accessible_project_ids user db in
  {| ctx_user_id := User.id user;
     ctx_role := Enum.role_value role;
     ctx_permissions := permissions;
     accessible_project_ids := accessible_projects;
     ctx_is_super_admin := is_super_admin user;
     ctx_is_admin := is_admin user;
     current_project_id := project_id;
     has_project_access :=
       match truthy_id project_id with
       | Some p => Some (bool_decide (p ∈ accessible_projects))
       | None => None
       end;
     super_admin_user_id := None |}.

(** [rbac_context["super_admin_user_id"] = super_admin_user.id]: what the
    chat endpoint adds to the context when a super-admin account exists. *)
Definition with_super_admin_user_id (super_admin : option Z) (ctx : RbacContext)
  : RbacContext :=
  {| ctx_user_id := ctx_user_id ctx;
     ctx_role := ctx_role ctx;
     ctx_permissions := ctx_permissions ctx;
     accessible_project_ids := accessible_project_ids ctx;
     ctx_is_super_admin := ctx_is_super_admin ctx;
     ctx_is_admin := ctx_is_admin ctx;
     current_project_id := current_project_id ctx;
     has_project_access := has_project_access ctx;
     super_admin_user_id := super_admin |}.

(** [PermissionChecker(required_permissions)], called for the user that
    [get_current_user] has authenticated: the user is returned, or the
    403 is raised. *)
Definition PermissionChecker (required_permissions : list string) (user : User.t)
  : HTTPException + User.t :=
  let user_permissions := get_user_permissions user in
  if bool_decide ("all" ∈ user_permissions) then inr user
  else if negb (existsb (fun perm => bool_decide (perm ∈ user_permissions))
                  required_permissions)
  then inl (mkHTTPException 403 "Not enough permissions")
  else inr user.

Definition require_manage_users := PermissionChecker ["manage_users"].
Definition require_manage_projects := PermissionChecker ["manage_projects"].
Definition require_upload_documents := PermissionChecker ["upload_documents"].
Definition require_chat_access := PermissionChecker ["chat"; "chat_limited"].
Definition require_admin_access := PermissionChecker ["admin_access"; "view_analytics"].
Definition require_audit_access := PermissionChecker ["view_audit"].

(** ** vector_service.py *)

(** The payload stored with every chunk by [add_document_chunks]. *)
Module Payload.
Record t := mk {
  document_id : Z;
  chunk_index : Z;
  content : string;
  token_count : Z;
  page_number : option Z;
  section_title : option string;
  filename : option string;
  project_id : option Z;
  user_id : option Z;
  access_scope : string
}.
End Payload.

(** The filter expressions of the vector store's client library, as far as
    [search_similar] builds them. *)
Inductive Value := IntValue (n : Z) | StrValue (s : string).

#[global] Instance Value_eq_dec : EqDecision Value.
Proof. solve_decision. Defined.

Inductive Match := MatchValue (value : Value) | MatchAny (any : list Value).

Inductive Condition :=
| FieldCondition (key : string) (match_ : Match)
| Nested (f : Filter)
with Filter :=
| MkFilter (must : list Condition) (should : list Condition) (min_should : option Z).

(** [Filter(must=conds)] *)
Definition Filter_must (conds : list Condition) : Filter := MkFilter conds [] None.

(** The payload field a condition key names; a null field is [None]. *)
Definition payload_field (key : string) (p : Payload.t) : option Value :=
  if String.eqb key "document_id" then Some (IntValue (Payload.document_id p))
  else if String.eqb key "chunk_index" then Some (IntValue (Payload.chunk_index p))
  else if String.eqb key "content" then Some (StrValue (Payload.content p))
  else if String.eqb key "token_count" then Some (IntValue (Payload.token_count p))
  else if String.eqb key "page_number" then IntValue <$> Payload.page_number p
  else if String.eqb key "section_title" then StrValue <$> Payload.section_title p
  else if String.eqb key "filename" then StrValue <$> Payload.filename p
  else if String.eqb key "project_id" then IntValue <$> Payload.project_id p
  else if String.eqb key "user_id" then IntValue <$> Payload.user_id p
  else if String.eqb key "access_scope" then Some (StrValue (Payload.access_scope p))
  else None.

Definition match_holds (m : Match) (field : option Value) : bool :=
  match field with
  | None => false
  | Some v =>
      match m with
      | MatchValue value => bool_decide (v = value)
      | MatchAny any => bool_decide (v ∈ any)
      end
  end.

(** How the vector store applies a filter to a stored payload: every [must]
    condition holds, and when [should] conditions are given at least one of
    them holds (at least [min_should] of them when that is set). *)
Fixpoint admits (f : Filter) (p : Payload.t) {struct f} : bool :=
  match f with
  | MkFilter must should min_should =>
      forallb (fun c => holds c p) must
      && match should with
         | [] => true
         | _ =>
             Z.of_nat (length (List.filter (fun c => holds c p) should))
             >=? match min_should with Some n => Z.max n 1 | None => 1 end
         end
  end
with holds (c : Condition) (p : Payload.t) {struct c} : bool :=
  match c with
  | FieldCondition key m => match_holds m (payload_field key p)
  | Nested g => admits g p
  end.

(** [core/config.py]: the settings the modelled code reads. *)
Module Settings.
Record t := mk {
  LLM_MODEL_NAME : string;
  MAX_RETRIEVAL_DOCS : Z;
  MIN_SIMILARITY_SCORE : Q;
  RATE_LIMIT_REQUESTS_PER_MINUTE : Z;
  CIRCUIT_BREAKER_THRESHOLD : Z;
  CIRCUIT_BREAKER_TIMEOUT : Z
}.

(** The values [Settings] takes when the environment sets nothing. *)
Definition defaults : t :=
  {| LLM_MODEL_NAME := "mistralai/Mistral-7B-Instruct-v0.2";
     MAX_RETRIEVAL_DOCS := 5;
     MIN_SIMILARITY_SCORE := (1 # 2)%Q;
     RATE_LIMIT_REQUESTS_PER_MINUTE := 30;
     CIRCUIT_BREAKER_THRESHOLD := 5;
     CIRCUIT_BREAKER_TIMEOUT := 60 |}.
End Settings.

(** A stored vector: [{"id", "embedding", "payload"}]. *)
Module Point.
Record t := mk { id : string; embedding : list Q; payload : Payload.t }.
End Point.

(** The ["metadata"] dict of a search result. *)
Module Metadata.
Record t := mk {
  document_id : Z;
  filename : option string;
  page_number : option Z;
  section_title : option string;
  chunk_index : Z;
  access_scope : string;
  project_id : option Z
}.
End Metadata.

(** One entry of ["results"]: a retrieved chunk.  These are the
    [context_docs] the AI service receives; every key is present, so the
    defaults of [dict.get] for a missing key do not arise, [None] values do. *)
Module Chunk.
Record t := mk {
  content : string;
  metadata : Metadata.t;
  similarity_score : Q;
  document_id : Z;
  chunk_index : Z
}.
End Chunk.

(** The dict [search_similar] returns; a key that is not set is [None]. *)
Module SearchResult.
Record t := mk {
  query : string;
  results : list Chunk.t;
  total_results : Z;
  rbac_applied : option bool;
  error : option string
}.
End SearchResult.

(** The vector store behind [_qdrant_client]: the points of the collection,
    and the message of the exception the client raises when it cannot
    serve the request. *)
Module QdrantClient.
Record t := mk { collection : list Point.t; fault : option string }.
End QdrantClient.

Module VectorService.
Record t := mk {
  _mock_mode : bool;
  _mock_storage : list Point.t;
  _qdrant_client : QdrantClient.t
}.
End VectorService.

(** [l[:n]] *)
Definition slice_to {A} (n : Z) (l : list A) : list A :=
  if 0 <=? n then take (Z.to_nat n) l
  else take (length l - Z.to_nat (- n))%nat l.

(** [results.sort(key=score, reverse=True)]: stable, best first. *)
Fixpoint insert_by_score {A} (score : A -> Q) (x : A) (l : list A) : list A :=
  match l with
  | [] => [x]
  | y :: l' =>
      if Qle_bool (score y) (score x) then x :: y :: l'
      else y :: insert_by_score score x l'
  end.

Definition sort_by_score_desc {A} (score : A -> Q) (l : list A) : list A :=
  foldr (insert_by_score score) [] l.

Definition format_hit (payload : Payload.t) (score : Q) : Chunk.t :=
  {| Chunk.content := Payload.content payload;
     Chunk.metadata :=
       {| Metadata.document_id := Payload.document_id payload;
          Metadata.filename := Payload.filename payload;
          Metadata.page_number := Payload.page_number payload;
          Metadata.section_title := Payload.section_title payload;
          Metadata.chunk_index := Payload.chunk_index payload;
          Metadata.access_scope := Payload.access_scope payload;
          Metadata.project_id := Payload.project_id payload |};
     Chunk.similarity_score := score;
     Chunk.document_id := Payload.document_id payload;
     Chunk.chunk_index := Payload.chunk_index payload |}.

Definition int_values (ids : list Z) : list Value := IntValue <$> ids.

(** The scope conditions of [search_similar]: organization scope, project
    scope, the caller's own uploads, the super admin's uploads. *)
Definition scope_should_conditions
    (user_id super_admin_user_id : option Z) : list Condition :=
  let should_conditions :=
    [ Nested (Filter_must
                [FieldCondition "access_scope" (MatchValue (StrValue "organization"))]);
      Nested (Filter_must
                [FieldCondition "access_scope" (MatchValue (StrValue "project"))]) ] in
  let should_conditions :=
    match user_id with
    | Some u =>
        should_conditions
        ++ [Nested (Filter_must [FieldCondition "user_id" (MatchValue (IntValue u))])]
    | None => should_conditions
    end in
  match super_admin_user_id with
  | Some sa =>
      should_conditions
      ++ [Nested (Filter_must [FieldCondition "user_id" (MatchValue (IntValue sa))])]
  | None => should_conditions
  end.

(** [str(e)] of the [ValidationError] below.  Its wording is that of the
    validation library and changes with its version; the statements use
    it by name only. *)
Definition min_should_error : string :=
  "1 validation error for Filter"
  +:+ String "010"
        ("min_should"
         +:+ String "010"
               "  Input should be a valid dictionary or instance of MinShould").

(** [Filter(must=..., should=..., min_should=...)].  The client library
    checks the arguments when the object is built: [min_should] has to be
    a [MinShould] object (conditions with a count), so an integer given
    for it is refused and the call raises a [ValidationError]. *)
Definition new_Filter
    (must should : list Condition) (min_should : option Z) : string + Filter :=
  match min_should with
  | Some _ => inl min_should_error
  | None => inr (MkFilter must should None)
  end.

(** The RBAC block of [search_similar] for a call without explicit
    document ids: the [filter_conditions] and the [should_conditions] it
    compiles, or [None] for the early return that refuses a project the
    caller may not search. *)
Definition rbac_conditions
    (project_id user_id : option Z) (rbac_context : option RbacContext)
  : option (list Condition * list Condition) :=
  let is_super_admin := from_option ctx_is_super_admin false rbac_context in
  let is_admin := from_option ctx_is_admin false rbac_context in
  let accessible_projects := from_option accessible_project_ids [] rbac_context in
  let super_admin_user_id := rbac_context ≫= super_admin_user_id in
  let project_condition :=
    match project_id with
    | Some p => [FieldCondition "project_id" (MatchValue (IntValue p))]
    | None => []
    end in
  if is_super_admin then Some (project_condition, [])
  else if is_admin then
    Some (project_condition, scope_should_conditions user_id super_admin_user_id)
  else
    match project_id with
    | Some p =>
        if negb (bool_decide (p ∈ accessible_projects)) then None
        else
          Some (project_condition,
                scope_should_conditions user_id super_admin_user_id)
    | None =>
        let filter_conditions :=
          match accessible_projects with
          | [] => []
          | _ => [FieldCondition "project_id"
                    (MatchAny (int_values accessible_projects))]
          end in
        Some (filter_conditions,
              scope_should_conditions user_id super_admin_user_id)
    end.

(** The block "build final filter" of [search_similar]: no filter when
    there is no condition, [Filter(must, should, min_should=1)] when there
    are [should_conditions], [Filter(must)] otherwise; [inl] is the message
    of the exception the construction raises. *)
Definition final_filter
    (filter_conditions should_conditions : list Condition) : string + option Filter :=
  match filter_conditions, should_conditions with
  | [], [] => inr None
  | _, _ :: _ =>
      match new_Filter filter_conditions should_conditions (Some 1) with
      | inr search_filter => inr (Some search_filter)
      | inl message => inl message
      end
  | _ :: _, [] => inr (Some (Filter_must filter_conditions))
  end.

(** The outcome of the filter-building block of [search_similar]: the
    early return for a project the caller may not search, the
    [search_filter] handed to the vector store ([None]: no filter), or the
    exception raised while the filter is built, with [str(e)]. *)
Inductive FilterOutcome :=
| AccessDenied
| SearchFilter (search_filter : option Filter)
| Raised (message : string).

Definition build_search_filter
    (project_id user_id : option Z) (rbac_context : option RbacContext)
    (document_ids : option (list Z)) : FilterOutcome :=
  match document_ids with
  | Some (d :: ds) =>
      SearchFilter
        (Some (Filter_must
                 [FieldCondition "document_id" (MatchAny (int_values (d :: ds)))]))
  | _ =>
      match rbac_conditions project_id user_id rbac_context with
      | None => AccessDenied
      | Some (filter_conditions, should_conditions) =>
          match final_filter filter_conditions should_conditions with
          | inr search_filter => SearchFilter search_filter
          | inl message => Raised message
          end
      end
  end.

Section VectorSearch.

Variable settings : Settings.t.

(** [generate_embedding] (the embedding model, or a vector derived from an
    MD5 digest in mock mode) and [_cosine_similarity] (floating point, with
    square roots) are parameters of the model. *)
Variable generate_embedding : string -> list Q.
Variable _cosine_similarity : list Q -> list Q -> Q.

(** [_qdrant_client.query_points(query, query_filter, limit,
    score_threshold)]: the stored points the filter admits whose score
    reaches the threshold, best first, at most [limit] of them. *)
Definition query_points
    (client : QdrantClient.t) (query : list Q) (query_filter : option Filter)
    (limit : Z) (score_threshold : Q) : string + list (Payload.t * Q) :=
  match QdrantClient.fault client with
  | Some message => inl message
  | None =>
      let scored :=
        (fun pt => (Point.payload pt, _cosine_similarity query (Point.embedding pt)))
          <$> QdrantClient.collection client in
      let admitted :=
        List.filter
          (fun hit =>
             match query_filter with
             | Some f => admits f hit.1
             | None => true
             end
             && Qle_bool score_threshold hit.2)
          scored in
      inr (take (Z.to_nat limit) (sort_by_score_desc snd admitted))
  end.

(** The RBAC test [_mock_search] applies to one stored payload; [false] is
    the loop's [continue]. *)
Definition mock_visible
    (project_id user_id : option Z) (rbac_context : option RbacContext)
    (payload : Payload.t) : bool :=
  let is_super_admin := from_option ctx_is_super_admin false rbac_context in
  let is_admin := from_option ctx_is_admin false rbac_context in
  let accessible_projects := from_option accessible_project_ids [] rbac_context in
  let doc_project_id := Payload.project_id payload in
  let doc_user_id := Payload.user_id payload in
  let doc_access_scope := Payload.access_scope payload in
  let in_accessible :=
    match doc_project_id with
    | Some p => bool_decide (p ∈ accessible_projects)
    | None => false
    end in
  if is_super_admin then true
  else
    let project_ok :=
      match project_id with
      | Some p => bool_decide (doc_project_id = Some p)
      | None => is_admin || in_accessible
      end in
    project_ok
    && (if negb is_admin then
          negb (String.eqb doc_access_scope "personal"
                && negb (bool_decide (doc_user_id = user_id)))
          && negb (String.eqb doc_access_scope "project" && negb in_accessible)
        else
          negb (String.eqb doc_access_scope "personal"
                && negb (bool_decide (doc_user_id = user_id)))).

Definition _mock_search
    (self : VectorService.t) (query : string) (query_embedding : list Q)
    (n_results : Z) (project_id user_id : option Z) (min_score : Q)
    (rbac_context : option RbacContext) : SearchResult.t :=
  let results :=
    omap
      (fun data =>
         let payload := Point.payload data in
         if mock_visible project_id user_id rbac_context payload then
           let similarity := _cosine_similarity query_embedding (Point.embedding data) in
           if Qle_bool min_score similarity
           then Some (format_hit payload similarity)
           else None
         else None)
      (VectorService._mock_storage self) in
  let results := sort_by_score_desc Chunk.similarity_score results in
  let results := slice_to n_results results in
  {| SearchResult.query := query;
     SearchResult.results := results;
     SearchResult.total_results := Z.of_nat (length results);
     SearchResult.rbac_applied := Some true;
     SearchResult.error := None |}.

(** [search_similar]; its [access_scope] argument is not read by the
    code and is left out. *)
Definition search_similar
    (self : VectorService.t) (query : string) (n_results : Z)
    (project_id user_id : option Z) (min_score : option Q)
    (rbac_context : option RbacContext) (document_ids : option (list Z))
  : SearchResult.t :=
  let min_score := default (Settings.MIN_SIMILARITY_SCORE settings) min_score in
  let query_embedding := generate_embedding query in
  if VectorService._mock_mode self then
    _mock_search self query query_embedding n_results project_id user_id
      min_score rbac_context
  else
    match build_search_filter project_id user_id rbac_context document_ids with
    | AccessDenied =>
        {| SearchResult.query := query;
           SearchResult.results := [];
           SearchResult.total_results := 0;
           SearchResult.rbac_applied := None;
           SearchResult.error := Some "Access denied to this project" |}
    | Raised message =>
        {| SearchResult.query := query;
           SearchResult.results := [];
           SearchResult.total_results := 0;
           SearchResult.rbac_applied := None;
           SearchResult.error := Some message |}
    | SearchFilter search_filter =>
        match query_points (VectorService._qdrant_client self) query_embedding
                search_filter n_results min_score with
        | inr hits =>
            let results := (fun hit => format_hit hit.1 hit.2) <$> hits in
            {| SearchResult.query := query;
               SearchResult.results := results;
               SearchResult.total_results := Z.of_nat (length results);
               SearchResult.rbac_applied := Some true;
               SearchResult.error := None |}
        | inl message =>
            {| SearchResult.query := query;
               SearchResult.results := [];
               SearchResult.total_results := 0;
               SearchResult.rbac_applied := None;
               SearchResult.error := Some message |}
        end
    end.

End VectorSearch.

(** *** Storing and deleting chunks *)

(** A chunk dictionary handed to [add_document_chunks]; a key that is
    absent is [None]. *)
Module ChunkDict.
Record t := mk {
  content : option string;
  chunk_index : option Z;
  token_count : option Z;
  page_number : option Z;
  section_title : option string;
  filename : option string;
  access_scope : option string
}.
End ChunkDict.

(** The payload [add_document_chunks] builds for one chunk. *)
Definition chunk_payload
    (document_id : Z) (project_id user_id : option Z) (chunk : ChunkDict.t)
  : Payload.t :=
  let content := default EmptyString (ChunkDict.content chunk) in
  {| Payload.document_id := document_id;
     Payload.chunk_index := default 0 (ChunkDict.chunk_index chunk);
     Payload.content := content;
     Payload.token_count :=
       default (Z.of_nat (length (PyStr.split content))) (ChunkDict.token_count chunk);
     Payload.page_number := ChunkDict.page_number chunk;
     Payload.section_title := ChunkDict.section_title chunk;
     Payload.filename := ChunkDict.filename chunk;
     Payload.project_id := project_id;
     Payload.user_id := user_id;
     Payload.access_scope := default "project" (ChunkDict.access_scope chunk) |}.

(** [storage[point.id] = point] on a dictionary kept in insertion order:
    an id that is present keeps its place and gets the new point. *)
Fixpoint dict_set (point : Point.t) (storage : list Point.t) : list Point.t :=
  match storage with
  | [] => [point]
  | p :: rest =>
      if String.eqb (Point.id p) (Point.id point) then point :: rest
      else p :: dict_set point rest
  end.

(** The points a service holds: the mock dictionary in mock mode, the
    collection of the vector store otherwise. *)
Definition held_points (self : VectorService.t) : list Point.t :=
  if VectorService._mock_mode self then VectorService._mock_storage self
  else QdrantClient.collection (VectorService._qdrant_client self).

Definition with_mock_storage (storage : list Point.t) (self : VectorService.t)
  : VectorService.t :=
  VectorService.mk (VectorService._mock_mode self) storage
    (VectorService._qdrant_client self).

Definition with_collection (collection : list Point.t) (self : VectorService.t)
  : VectorService.t :=
  VectorService.mk (VectorService._mock_mode self) (VectorService._mock_storage self)
    (QdrantClient.mk collection (QdrantClient.fault (VectorService._qdrant_client self))).

(** [_qdrant_client.delete(points_selector=FilterSelector(filter))]: the
    points the filter admits are removed. *)
Definition qdrant_delete (f : Filter) (self : VectorService.t) : bool * VectorService.t :=
  match QdrantClient.fault (VectorService._qdrant_client self) with
  | Some _ => (false, self)
  | None =>
      (true,
       with_collection
         (List.filter (fun pt => negb (admits f (Point.payload pt)))
            (QdrantClient.collection (VectorService._qdrant_client self)))
         self)
  end.

Section VectorStorage.

Variable generate_embedding : string -> list Q.

(** [add_document_chunks]; every chunk comes with the id [uuid.uuid4()]
    draws for it.  The result is the returned flag and the service
    afterwards; [upsert] stores a point under its id. *)
Definition add_document_chunks
    (self : VectorService.t) (document_id : Z)
    (chunks : list (string * ChunkDict.t)) (project_id user_id : option Z)
  : bool * VectorService.t :=
  match chunks with
  | [] => (true, self)
  | _ =>
      let points :=
        (fun entry =>
           let chunk_id := entry.1 in
           let chunk := entry.2 in
           let content := default EmptyString (ChunkDict.content chunk) in
           Point.mk chunk_id (generate_embedding content)
             (chunk_payload document_id project_id user_id chunk))
          <$> chunks in
      if VectorService._mock_mode self then
        (true,
         with_mock_storage
           (foldl (fun storage point => dict_set point storage)
              (VectorService._mock_storage self) points)
           self)
      else
        match QdrantClient.fault (VectorService._qdrant_client self) with
        | Some _ => (false, self)
        | None =>
            (true,
             with_collection
               (foldl (fun storage point => dict_set point storage)
                  (QdrantClient.collection (VectorService._qdrant_client self)) points)
               self)
        end
  end.

End VectorStorage.

Definition delete_document_chunks (self : VectorService.t) (document_id : Z)
  : bool * VectorService.t :=
  if VectorService._mock_mode self then
    (true,
     with_mock_storage
       (List.filter
          (fun data =>
             negb (Payload.document_id (Point.payload data) =? document_id))
          (VectorService._mock_storage self))
       self)
  else
    qdrant_delete
      (Filter_must [FieldCondition "document_id" (MatchValue (IntValue document_id))])
      self.

Definition delete_project_documents (self : VectorService.t) (project_id : Z)
  : bool * VectorService.t :=
  if VectorService._mock_mode self then
    (true,
     with_mock_storage
       (List.filter
          (fun data =>
             negb (bool_decide (Payload.project_id (Point.payload data) = Some project_id)))
          (VectorService._mock_storage self))
       self)
  else
    qdrant_delete
      (Filter_must [FieldCondition "project_id" (MatchValue (IntValue project_id))])
      self.

(** ** ai_service.py *)

Inductive CircuitState := CLOSED | OPEN | HALF_OPEN.

#[global] Instance CircuitState_eq_dec : EqDecision CircuitState.
Proof. solve_decision. Defined.

Module CircuitBreaker.
Record t := mk {
  failure_count : Z;
  last_failure_time : option Z;
  state : CircuitState
}.

(** The dataclass defaults. *)
Definition initial : t := mk 0 None CLOSED.
End CircuitBreaker.

(** [cachetools.TTLCache(maxsize, ttl)]: items expire [ttl] after they are
    stored; a full cache drops its oldest item.  Items are kept oldest
    first, each with the time it expires at. *)
Module TTLCache.
Record t := mk {
  maxsize : nat;
  ttl : Z;
  items : list (string * (string * Z))
}.

Definition alive (now : Z) (item : string * (string * Z)) : bool := now <? item.2.2.

(** [cache[key]] when [key in cache] *)
Definition lookup (now : Z) (key : string) (c : t) : option string :=
  (fun item => item.2.1)
    <$> List.find (fun item => String.eqb item.1 key && alive now item) (items c).

(** [cache[key] = value] *)
Definition store (now : Z) (key value : string) (c : t) : t :=
  let live := List.filter (fun item => alive now item && negb (String.eqb item.1 key))
                (items c) in
  let room := if (length live <? maxsize c)%nat then live else drop 1 live in
  mk (maxsize c) (ttl c) (room ++ [(key, (value, now + ttl c))]).
End TTLCache.

Module AIService.
Record t := mk {
  model_name : string;
  circuit_breaker : CircuitBreaker.t;
  response_cache : TTLCache.t;
  request_timestamps : list Z;
  _mock_mode : bool
}.

Definition with_circuit_breaker (cb : CircuitBreaker.t) (s : t) : t :=
  mk (model_name s) cb (response_cache s) (request_timestamps s) (_mock_mode s).

Definition with_response_cache (c : TTLCache.t) (s : t) : t :=
  mk (model_name s) (circuit_breaker s) c (request_timestamps s) (_mock_mode s).

Definition with_request_timestamps (ts : list Z) (s : t) : t :=
  mk (model_name s) (circuit_breaker s) (response_cache s) ts (_mock_mode s).
End AIService.

(** The message of a [RateLimitError]. *)
Inductive RateLimitMessage :=
| TryAgainIn (wait_time : Z)
    (** "Rate limit exceeded. Try again in {wait_time:.2f} seconds", the
        wait in microseconds *)
| HFRateLimit (error_msg : string)
    (** "HF API rate limit exceeded: {error_msg}" *).

Inductive Exception :=
| HFInferenceError (message : string)
| RateLimitError (message : RateLimitMessage)
| IndexError (message : string).

(** What one call of [self._client.chat_completion] does: it returns the
    text of the first choice, or the [try] block raises and [str(e)] is
    [error_msg]. *)
Inductive Reply := Completion (content : string) | Failure (error_msg : string).

Inductive Outcome (A : Type) := Return (a : A) | Raise (e : Exception).
Arguments Return {A} a.
Arguments Raise {A} e.

(** The service, the number of clock readings taken and the number of
    requests sent to the provider so far. *)
Record World := mkWorld {
  service : AIService.t;
  ticks : nat;
  provider_calls : nat
}.

Definition with_service (f : AIService.t -> AIService.t) (w : World) : World :=
  mkWorld (f (service w)) (ticks w) (provider_calls w).

(** Stateful code that may raise. *)
Definition M (A : Type) : Type := World -> Outcome A * World.

#[global] Instance M_ret : MRet M := fun A a w => (Return a, w).

#[global] Instance M_bind : MBind M := fun A B k m w =>
  match m w with
  | (Return a, w') => k a w'
  | (Raise e, w') => (Raise e, w')
  end.

Definition raise {A} (e : Exception) : M A := fun w => (Raise e, w).

Definition get_service : M AIService.t := fun w => (Return (service w), w).

Definition modify_service (f : AIService.t -> AIService.t) : M unit :=
  fun w => (Return tt, with_service f w).

Definition second : Z := 1000000.

Definition nl : string := String (ascii_of_nat 10) EmptyString.

Module Citation.
Record t := mk {
  document_id : Z;
  filename : option string;
  page_number : option Z;
  section_title : option string;
  chunk_index : Z;
  similarity_score : Q
}.
End Citation.

(** The ["error"] entry of an answer: a fixed note, or [str(e)]. *)
Inductive ErrorNote := Note (text : string) | StrOf (e : Exception).

(** The dict [generate_answer] returns, without the measured
    ["processing_time"]; a key that is not set is [None]. *)
Module Answer.
Record t := mk {
  answer : string;
  citations : list Citation.t;
  confidence_score : Q;
  model_used : string;
  context_docs_used : option Z;
  cached : option bool;
  error : option ErrorNote;
  mock_mode : option bool
}.
End Answer.

(** [str(x)] inside an f-string, for a value that may be [None]. *)
Definition str_of (o : option string) : string := default "None" o.

(** Truthiness of [metadata.get("page_number")]. *)
Definition truthy_page (page : option Z) : option Z := truthy_id page.

(** Truthiness of [metadata.get("section_title")]. *)
Definition truthy_section (section : option string) : option string :=
  match section with
  | Some s => if PyStr.truthy s then Some s else None
  | None => None
  end.

Definition RAG_PROMPT_TEMPLATE (context question : string) : string :=
  "<s>[INST] You are an internal company AI assistant." +:+ nl +:+
  "Answer ONLY using the context below." +:+ nl +:+
  "If the answer is not found, respond: " +:+ String (ascii_of_nat 34) EmptyString
    +:+ "Information not found in provided documents."
    +:+ String (ascii_of_nat 34) EmptyString +:+ nl +:+
  nl +:+
  "Context:" +:+ nl +:+
  context +:+ nl +:+
  nl +:+
  "Question: " +:+ question +:+ nl +:+
  nl +:+
  "Instructions:" +:+ nl +:+
  "- Be concise but comprehensive" +:+ nl +:+
  "- Cite specific documents when possible" +:+ nl +:+
  "- If the context doesn't contain relevant information, say so clearly" +:+ nl +:+
  "- Do not make up information not present in the context" +:+ nl +:+
  "[/INST]".

Definition SIMPLE_CHAT_TEMPLATE (question : string) : string :=
  "<s>[INST] You are a helpful AI Knowledge Assistant for an internal company system."
  +:+ nl +:+ question +:+ " [/INST]".

(** [any(doc.get("content") for doc in context_docs)] *)
Definition any_content (context_docs : list Chunk.t) : bool :=
  existsb (fun doc => PyStr.truthy (Chunk.content doc)) context_docs.

Section Inference.

Variable settings : Settings.t.

(** The environment: the [n]-th reading of the clock ([datetime.utcnow()],
    and the cache's timer), the reply to the [n]-th request sent to the
    provider, and the digest used as cache key. *)
Variable clock : nat -> Z.
Variable chat_completion : nat -> string -> Reply.
Variable md5_hexdigest : string -> string.

Definition utcnow : M Z :=
  fun w => (Return (clock (ticks w)),
            mkWorld (service w) (S (ticks w)) (provider_calls w)).

Definition call_provider (prompt : string) : M Reply :=
  fun w => (Return (chat_completion (provider_calls w) prompt),
            mkWorld (service w) (ticks w) (S (provider_calls w))).

(** *** CircuitBreaker *)

Definition record_failure : M unit :=
  s ← get_service;
  let cb := AIService.circuit_breaker s in
  let failure_count := CircuitBreaker.failure_count cb + 1 in
  now ← utcnow;
  let state :=
    if Settings.CIRCUIT_BREAKER_THRESHOLD settings <=? failure_count
    then OPEN else CircuitBreaker.state cb in
  modify_service
    (AIService.with_circuit_breaker
       (CircuitBreaker.mk failure_count (Some now) state)).

Definition record_success : M unit :=
  s ← get_service;
  let cb := AIService.circuit_breaker s in
  modify_service
    (AIService.with_circuit_breaker
       (CircuitBreaker.mk 0 (CircuitBreaker.last_failure_time cb) CLOSED)).

Definition can_execute : M bool :=
  s ← get_service;
  let cb := AIService.circuit_breaker s in
  match CircuitBreaker.state cb with
  | CLOSED => mret true
  | OPEN =>
      match CircuitBreaker.last_failure_time cb with
      | Some last_failure_time =>
          let timeout := Settings.CIRCUIT_BREAKER_TIMEOUT settings * second in
          now ← utcnow;
          if timeout <? now - last_failure_time then
            modify_service
              (AIService.with_circuit_breaker
                 (CircuitBreaker.mk (CircuitBreaker.failure_count cb)
                    (Some last_failure_time) HALF_OPEN));;
            mret true
          else mret false
      | None => mret false
      end
  | HALF_OPEN => mret true
  end.

(** *** AIService *)

Definition _check_rate_limit : M unit :=
  now ← utcnow;
  let minute_ago := now - 60 * second in
  s ← get_service;
  let request_timestamps :=
    List.filter (fun ts => minute_ago <? ts) (AIService.request_timestamps s) in
  modify_service (AIService.with_request_timestamps request_timestamps);;
  if Settings.RATE_LIMIT_REQUESTS_PER_MINUTE settings
     <=? Z.of_nat (length request_timestamps) then
    match request_timestamps with
    | oldest :: _ => raise (RateLimitError (TryAgainIn (oldest - minute_ago)))
    | [] => raise (IndexError "list index out of range")
    end
  else
    modify_service (AIService.with_request_timestamps (request_timestamps ++ [now])).

Definition _get_cache_key (prompt : string) : string := md5_hexdigest prompt.

Definition cache_lookup (cache_key : string) : M (option string) :=
  now ← utcnow;
  s ← get_service;
  mret (TTLCache.lookup now cache_key (AIService.response_cache s)).

Definition cache_store (cache_key response_text : string) : M unit :=
  now ← utcnow;
  s ← get_service;
  modify_service
    (AIService.with_response_cache
       (TTLCache.store now cache_key response_text (AIService.response_cache s))).

(** [_call_hf_api].  Its [@retry] repeats the call only for a
    [ConnectionError] or [TimeoutError] leaving the function, and the
    [except Exception] below turns every failure of the request into one of
    the two service errors, so the body runs once. *)
Definition _call_hf_api (prompt : string) : M string :=
  ok ← can_execute;
  if negb ok then
    raise (HFInferenceError "Circuit breaker is OPEN - service temporarily unavailable")
  else
    _check_rate_limit;;
    let cache_key := _get_cache_key prompt in
    hit ← cache_lookup cache_key;
    match hit with
    | Some response_text => mret response_text
    | None =>
        reply ← call_provider prompt;
        match reply with
        | Completion response_text =>
            cache_store cache_key response_text;;
            record_success;;
            mret response_text
        | Failure error_msg =>
            record_failure;;
            if PyStr.contains "rate limit" (PyStr.lower error_msg)
               || PyStr.contains "429" error_msg
            then raise (RateLimitError (HFRateLimit error_msg))
            else raise (HFInferenceError ("HF API error: " +:+ error_msg))
        end
    end.

Definition _prepare_context (context_docs : list Chunk.t) : string :=
  match context_docs with
  | [] => "No relevant documents found."
  | _ =>
      let context_parts :=
        omap
          (fun doc =>
             let content := Chunk.content doc in
             if negb (PyStr.truthy content) then None
             else
               let metadata := Chunk.metadata doc in
               let doc_name := str_of (Metadata.filename metadata) in
               let header := "[Source: " +:+ doc_name in
               let header :=
                 match truthy_page (Metadata.page_number metadata) with
                 | Some page => header +:+ ", Page " +:+ pretty page
                 | None => header
                 end in
               let header :=
                 match truthy_section (Metadata.section_title metadata) with
                 | Some section => header +:+ ", Section: " +:+ section
                 | None => header
                 end in
               let header := header +:+ "]" in
               Some (header +:+ nl +:+ content))
          (slice_to (Settings.MAX_RETRIEVAL_DOCS settings) context_docs) in
      match context_parts with
      | [] => "No relevant documents found."
      | _ => PyStr.join (nl +:+ nl +:+ "---" +:+ nl +:+ nl) context_parts
      end
  end.

(** [_build_rag_prompt]; the conversation history it is given is not
    used. *)
Definition _build_rag_prompt (query context : string) : string :=
  RAG_PROMPT_TEMPLATE context query.

(** The citation [_extract_citations] builds for one chunk. *)
Definition citation_of (doc : Chunk.t) : Citation.t :=
  let metadata := Chunk.metadata doc in
  {| Citation.document_id := Metadata.document_id metadata;
     Citation.filename := Metadata.filename metadata;
     Citation.page_number := Metadata.page_number metadata;
     Citation.section_title := Metadata.section_title metadata;
     Citation.chunk_index := Chunk.chunk_index doc;
     Citation.similarity_score := Chunk.similarity_score doc |}.

Definition _extract_citations
    (response : string) (context_docs : list Chunk.t) : list Citation.t :=
  omap
    (fun doc =>
       let similarity := Chunk.similarity_score doc in
       if Qle_bool (Settings.MIN_SIMILARITY_SCORE settings) similarity
       then Some (citation_of doc)
       else None)
    context_docs.

(** [len([s for s in scores if s > 0.7])] *)
Definition count_relevant (scores : list Q) : nat :=
  length (List.filter (fun s => negb (Qle_bool s (PyFloat.round (7 # 10)))) scores).

(** [sum(scores)]: from 0, left to right, every addition rounded (the
    plain loop of CPython up to 3.11; later versions compensate the
    rounding errors of [sum]). *)
Definition sum_scores (scores : list Q) : Q :=
  foldl (fun total s => PyFloat.round (total + s)) 0%Q scores.

(** [sum(scores) / len(scores)] *)
Definition average (scores : list Q) : Q :=
  PyFloat.round
    (sum_scores scores / PyFloat.round (inject_Z (Z.of_nat (length scores)))).

(** [min(len([s for s in scores if s > 0.7]) * 0.05, 0.15)] *)
Definition relevance_bonus (scores : list Q) : Q :=
  Qmin
    (PyFloat.round
       (PyFloat.round (inject_Z (Z.of_nat (count_relevant scores)))
        * PyFloat.round (1 # 20)))
    (PyFloat.round (3 # 20)).

(** [[doc.get("similarity_score", 0.0) for doc in context_docs]] *)
Definition scores_of (context_docs : list Chunk.t) : list Q :=
  Chunk.similarity_score <$> context_docs.

Definition _calculate_confidence (context_docs : list Chunk.t) : Q :=
  match context_docs with
  | [] => (1 # 2)%Q
  | _ =>
      let scores := scores_of context_docs in
      let avg_score := average scores in
      let relevance_bonus := relevance_bonus scores in
      Qmin (PyFloat.round (avg_score + relevance_bonus)) 1
  end.

Definition fallback_banner : string :=
  "**Note: AI service temporarily unavailable. Showing relevant document excerpts:**"
  +:+ nl +:+ nl.

Definition fallback_footer : string :=
  nl +:+ nl
  +:+ "*For AI-generated answers, please ensure your internet connection is active.*".

Definition excerpt_separator : string := nl +:+ nl +:+ "---" +:+ nl +:+ nl.

(** The ["[filename, Page n]"] header of an excerpt. *)
Definition fallback_source (metadata : Metadata.t) : string :=
  let filename := str_of (Metadata.filename metadata) in
  let source := "[" +:+ filename in
  let source :=
    match truthy_page (Metadata.page_number metadata) with
    | Some page => source +:+ ", Page " +:+ pretty page
    | None => source
    end in
  source +:+ "]".

(** The text of an excerpt: stripped, and cut after 500 characters. *)
Definition fallback_content (content : string) : string :=
  if (500 <? String.length content)%nat
  then PyStr.take 500 content +:+ "..."
  else content.

(** One pass of the loop of [_generate_context_fallback]: the excerpt a
    chunk contributes, if any. *)
Definition fallback_excerpt (doc : Chunk.t) : option string :=
  let content := PyStr.strip (Chunk.content doc) in
  if PyStr.truthy content then
    Some (fallback_source (Chunk.metadata doc) +:+ ":" +:+ nl
          +:+ fallback_content content)
  else None.

(** [relevant_content] after the loop over [context_docs[:3]]. *)
Definition fallback_excerpts (context_docs : list Chunk.t) : list string :=
  omap fallback_excerpt (slice_to 3 context_docs).

Definition _generate_context_fallback
    (query : string) (context_docs : list Chunk.t) : string :=
  match context_docs with
  | [] =>
      "No relevant documents found to answer your question. Please try a different query."
  | _ =>
      let relevant_content := fallback_excerpts context_docs in
      match relevant_content with
      | [] =>
          "I found some documents but couldn't extract readable content. Please try rephrasing your question."
      | _ =>
          fallback_banner +:+ PyStr.join excerpt_separator relevant_content
          +:+ fallback_footer
      end
  end.

Definition _generate_mock_response
    (self : AIService.t) (query : string) (context_docs : list Chunk.t)
    (error : option string) : Answer.t :=
  let answer :=
    match error with
    | Some e =>
        if PyStr.truthy e then "I encountered an error: " +:+ e +:+ ". "
        else EmptyString
    | None => EmptyString
    end in
  let query_lower := PyStr.lower query in
  let has word := PyStr.contains word query_lower in
  let answer :=
    if has "hello" || has "hi" then
      answer +:+ "Hello! I'm your AI Knowledge Assistant. I can help you find information from your company's documents. What would you like to know?"
    else if has "help" || has "what can you do" || has "purpose" then
      answer +:+ "I'm an AI Knowledge Assistant designed to help you find information from organizational documents. You can ask me questions about policies, procedures, projects, and any documents that have been uploaded to the system."
    else if any_content context_docs then
      let sample_content :=
        PyStr.take 200 (from_option Chunk.content EmptyString (head context_docs)) in
      answer +:+ "Based on the documents, here's relevant information: '"
      +:+ sample_content +:+ "...'"
    else if has "policy" || has "procedure" then
      answer +:+ "For policy questions, please ensure relevant documents are uploaded to the system. I can only answer based on documents that have been added."
    else if has "excel" || has "spreadsheet" || has "data" then
      answer +:+ "For data analysis, please upload your Excel files and I'll help analyze them with statistics, trends, and anomaly detection."
    else if AIService._mock_mode self then
      answer +:+ "I'm currently running in demo mode. Please configure the HF_API_TOKEN environment variable to enable full AI capabilities."
    else
      answer +:+ "I don't have enough context to answer that question. Please try uploading relevant documents or rephrasing your question." in
  {| Answer.answer := answer;
     Answer.citations := [];
     Answer.confidence_score := (1 # 2)%Q;
     Answer.model_used :=
       if AIService._mock_mode self then "mock" else AIService.model_name self;
     Answer.context_docs_used := Some (Z.of_nat (length context_docs));
     Answer.cached := None;
     Answer.error := None;
     Answer.mock_mode := Some (AIService._mock_mode self) |}.

(** [try: body  except ... as e: handler(e)] *)
Definition try_except {A} (body : M A) (handler : Exception -> M A) : M A :=
  fun w =>
    match body w with
    | (Return a, w') => (Return a, w')
    | (Raise e, w') => handler e w'
    end.

(** The prompt [generate_answer] builds: the RAG prompt when some chunk has
    text, the plain chat prompt otherwise. *)
Definition build_prompt (query : string) (context_docs : list Chunk.t) : string :=
  let context := _prepare_context context_docs in
  if any_content context_docs then _build_rag_prompt query context
  else SIMPLE_CHAT_TEMPLATE query.

(** [generate_answer], without [conversation_history] and [project_id],
    which the code does not read.  The last handler, [except Exception],
    can only meet the [IndexError] of the rate limiter. *)
Definition generate_answer (query : string) (context_docs : list Chunk.t)
  : M Answer.t :=
  self ← get_service;
  if AIService._mock_mode self then
    mret (_generate_mock_response self query context_docs None)
  else
    try_except
      (let prompt := build_prompt query context_docs in
       response_text ← _call_hf_api prompt;
       let citations := _extract_citations response_text context_docs in
       let confidence := _calculate_confidence context_docs in
       self ← get_service;
       mret {| Answer.answer := PyStr.strip response_text;
               Answer.citations := citations;
               Answer.confidence_score := confidence;
               Answer.model_used := AIService.model_name self;
               Answer.context_docs_used := Some (Z.of_nat (length context_docs));
               Answer.cached := Some false;
               Answer.error := None;
               Answer.mock_mode := None |})
      (fun e =>
         self ← get_service;
         match e with
         | RateLimitError _ =>
             mret {| Answer.answer :=
                       "The AI service is currently experiencing high demand. Please try again in a moment.";
                     Answer.citations := [];
                     Answer.confidence_score := 0%Q;
                     Answer.model_used := AIService.model_name self;
                     Answer.context_docs_used := None;
                     Answer.cached := None;
                     Answer.error := Some (StrOf e);
                     Answer.mock_mode := None |}
         | HFInferenceError _ =>
             if any_content context_docs then
               let fallback_answer := _generate_context_fallback query context_docs in
               mret {| Answer.answer := fallback_answer;
                       Answer.citations :=
                         _extract_citations fallback_answer context_docs;
                       Answer.confidence_score := (1 # 2)%Q;
                       Answer.model_used := "fallback (HF API unavailable)";
                       Answer.context_docs_used := None;
                       Answer.cached := None;
                       Answer.error :=
                         Some (Note "AI service temporarily unavailable - showing relevant document excerpts");
                       Answer.mock_mode := None |}
             else
               mret {| Answer.answer :=
                         "The AI service is temporarily unavailable due to network issues. Please try again when your internet connection is restored.";
                       Answer.citations := [];
                       Answer.confidence_score := 0%Q;
                       Answer.model_used := AIService.model_name self;
                       Answer.context_docs_used := None;
                       Answer.cached := None;
                       Answer.error := Some (StrOf e);
                       Answer.mock_mode := None |}
         | IndexError message =>
             mret (_generate_mock_response self query context_docs (Some message))
         end).

(** The pieces [stream_answer] yields for the words of the answer: every
    word but the last is followed by one space. *)
Fixpoint stream_pieces (words : list string) : list string :=
  match words with
  | [] => []
  | [word] => [word +:+ EmptyString]
  | word :: rest => (word +:+ " ") :: stream_pieces rest
  end.

(** [stream_answer], as the list of the pieces it yields. *)
Definition stream_answer (query : string) (context_docs : list Chunk.t)
  : M (list string) :=
  result ← generate_answer query context_docs;
  let answer := Answer.answer result in
  let words := PyStr.split answer in
  mret (stream_pieces words).

(** A run of calls to [_call_hf_api], one prompt each; the outcomes are
    returned in order. *)
Fixpoint call_sequence (prompts : list string) : M (list (Outcome string)) :=
  match prompts with
  | [] => mret []
  | prompt :: rest =>
      fun w =>
        let '(o, w') := _call_hf_api prompt w in
        match call_sequence rest w' with
        | (Return os, w'') => (Return (o :: os), w'')
        | (Raise e, w'') => (Raise e, w'')
        end
  end.

(** [n] calls of the rate limiter in a row; a rejected call leaves its
    error with the caller and the service keeps running. *)
Fixpoint rate_limit_calls (n : nat) (w : World) : World :=
  match n with
  | O => w
  | S n' => rate_limit_calls n' (_check_rate_limit w).2
  end.

(** The recorded timestamps inside the one-minute window of a call made
    now. *)
Definition window (w : World) : list Z :=
  List.filter (fun ts => clock (ticks w) - 60 * second <? ts)
    (AIService.request_timestamps (service w)).

(** No recorded timestamp lies in the future. *)
Definition recorded_in_past (w : World) : Prop :=
  Forall (fun ts => ts <= clock (ticks w)) (AIService.request_timestamps (service w)).

(** [n] calls of [record_failure] in a row. *)
Fixpoint record_failures (n : nat) (w : World) : World :=
  match n with
  | O => w
  | S n' => record_failures n' (record_failure w).2
  end.

End Inference.

(** ** Notions used in the statements *)

(** [search_similar] was given no explicit document ids. *)
Definition no_explicit_ids (document_ids : option (list Z)) : Prop :=
  document_ids = None \/ document_ids = Some [].

(** The filter of the explicit-document override. *)
Definition explicit_filter (document_ids : list Z) : Filter :=
  Filter_must [FieldCondition "document_id" (MatchAny (int_values document_ids))].

(** An id that does not occur in [ids]. *)
Definition fresh_id (ids : list Z) : Z := 1 + foldr Z.max 0 ids.

(** A personal chunk of document [document_id], uploaded by somebody other
    than [user_id], in a project outside [accessible]. *)
Definition foreign_personal_payload
    (document_id : Z) (user_id : option Z) (accessible : list Z) : Payload.t :=
  {| Payload.document_id := document_id;
     Payload.chunk_index := 0;
     Payload.content := "private notes";
     Payload.token_count := 2;
     Payload.page_number := None;
     Payload.section_title := None;
     Payload.filename := Some "notes.txt";
     Payload.project_id := Some (fresh_id accessible);
     Payload.user_id := Some (from_option (Z.add 1) 0 user_id);
     Payload.access_scope := Enum.scope_value PERSONAL |}.

Definition breaker (w : World) : CircuitBreaker.t :=
  AIService.circuit_breaker (service w).

(** A circuit that is not closed has counted at least the threshold of
    failures. *)
Definition breaker_consistent (settings : Settings.t) (w : World) : Prop :=
  CircuitBreaker.state (breaker w) <> CLOSED ->
  Settings.CIRCUIT_BREAKER_THRESHOLD settings
  <= CircuitBreaker.failure_count (breaker w).

(** ** Sample data *)

Module Sample.

Definition standard_user : User.t := User.mk 1 (Some (Role.mk "user")).
Definition admin_user : User.t := User.mk 2 (Some (Role.mk "Admin")).
Definition manager : User.t := User.mk 4 (Some (Role.mk "Manager")).

(** Project 10 was created by user 1 and has been deactivated. *)
Definition retired_project : Project.t := Project.mk false false 1.
Definition active_project : Project.t := Project.mk true true 1.

Definition personal_document : Document.t :=
  Document.mk (Enum.scope_value PERSONAL) 10 3.

Definition db : Session :=
  mkSession {[ 10 := retired_project ]} {[ 5 := personal_document ]} ∅.

Definition db_active : Session :=
  mkSession {[ 10 := active_project ]} {[ 5 := personal_document ]} ∅.

(** The context of a standard user who may see project 1 only. *)
Definition user_context : RbacContext :=
  {| ctx_user_id := 2;
     ctx_role := "user";
     ctx_permissions := ROLE_PERMISSIONS USER;
     accessible_project_ids := [1];
     ctx_is_super_admin := false;
     ctx_is_admin := false;
     current_project_id := Some 7;
     has_project_access := Some false;
     super_admin_user_id := None |}.

Definition admin_context : RbacContext :=
  {| ctx_user_id := 2;
     ctx_role := "admin";
     ctx_permissions := ROLE_PERMISSIONS ADMIN;
     accessible_project_ids := [1; 7];
     ctx_is_super_admin := false;
     ctx_is_admin := true;
     current_project_id := None;
     has_project_access := None;
     super_admin_user_id := Some 1 |}.

(** An organization-wide chunk of project 7, uploaded by user 9. *)
Definition project7_payload : Payload.t :=
  {| Payload.document_id := 70;
     Payload.chunk_index := 0;
     Payload.content := "Budget figures for project seven.";
     Payload.token_count := 5;
     Payload.page_number := Some 1;
     Payload.section_title := None;
     Payload.filename := Some "budget.pdf";
     Payload.project_id := Some 7;
     Payload.user_id := Some 9;
     Payload.access_scope := Enum.scope_value ORGANIZATION |}.

(** A personal chunk of user 2. *)
Definition own_personal_payload : Payload.t :=
  {| Payload.document_id := 71;
     Payload.chunk_index := 0;
     Payload.content := "My notes.";
     Payload.token_count := 2;
     Payload.page_number := None;
     Payload.section_title := None;
     Payload.filename := Some "notes.txt";
     Payload.project_id := Some 7;
     Payload.user_id := Some 2;
     Payload.access_scope := Enum.scope_value PERSONAL |}.

Definition stored_points : list Point.t :=
  [Point.mk "chunk-1" [1%Q] project7_payload].

Definition mock_service : VectorService.t :=
  VectorService.mk true stored_points (QdrantClient.mk [] None).

Definition qdrant_service : VectorService.t :=
  VectorService.mk false [] (QdrantClient.mk stored_points None).

(** Stand-ins for the embedding model: every text is as close to every
    stored chunk as can be. *)
Definition generate_embedding (text : string) : list Q := [1%Q].
Definition _cosine_similarity (v1 v2 : list Q) : Q := 1%Q.

(** A retrieved chunk of document [document_id] with the given text and
    score. *)
Definition chunk_of (document_id : Z) (content : string) (score : Q) : Chunk.t :=
  {| Chunk.content := content;
     Chunk.metadata :=
       {| Metadata.document_id := document_id;
          Metadata.filename := Some "handbook.pdf";
          Metadata.page_number := Some document_id;
          Metadata.section_title := None;
          Metadata.chunk_index := 0;
          Metadata.access_scope := Enum.scope_value PROJECT;
          Metadata.project_id := Some 1 |};
     Chunk.similarity_score := score;
     Chunk.document_id := document_id;
     Chunk.chunk_index := 0 |}.

Definition two_chunks : list Chunk.t :=
  [chunk_of 1 "Leave is twenty days a year." (9 # 10);
   chunk_of 2 "Parking is behind the building." (4 # 10)].

Definition four_chunks : list Chunk.t :=
  [chunk_of 1 "alpha" (9 # 10); chunk_of 2 "beta" (8 # 10);
   chunk_of 3 "gamma" (7 # 10); chunk_of 4 "delta" (6 # 10)].

(** Two lists whose average is computed as 0.5: no chunk above 0.7, and
    one above. *)
Definition even_chunks : list Chunk.t :=
  [chunk_of 1 "one" (1 # 2); chunk_of 2 "two" (1 # 2)].
Definition uneven_chunks : list Chunk.t :=
  [chunk_of 1 "one" (3 # 4); chunk_of 2 "two" (1 # 4)].

(** A chunk whose score is the default minimum similarity. *)
Definition threshold_chunk : Chunk.t := chunk_of 3 "borderline" (1 # 2).

(** One reading of the clock per second. *)
Definition steady_clock (n : nat) : Z := Z.of_nat n * second.

(** The first eighteen readings a second apart, the later ones after a
    pause of a hundred seconds. *)
Definition clock (n : nat) : Z :=
  if (n <? 18)%nat then Z.of_nat n * second else (100 + Z.of_nat n) * second.

Definition known : string := "What is the leave policy?".
Definition other : string := "Summarise the audit.".

(** A provider that answers [known] and is unreachable for everything
    else. *)
Definition chat_completion (n : nat) (prompt : string) : Reply :=
  if String.eqb prompt known then Completion "Twenty days."
  else Failure "Connection refused".

(** A provider that answers every prompt. *)
Definition answering (n : nat) (prompt : string) : Reply :=
  Completion "Twenty days.".

(** A provider that is unreachable. *)
Definition unreachable (n : nat) (prompt : string) : Reply :=
  Failure "Connection refused".

(** Stand-in for the digest: the prompt is its own cache key. *)
Definition md5_hexdigest (prompt : string) : string := prompt.

Definition service : AIService.t :=
  {| AIService.model_name := Settings.LLM_MODEL_NAME Settings.defaults;
     AIService.circuit_breaker := CircuitBreaker.initial;
     AIService.response_cache := TTLCache.mk 100 (300 * second) [];
     AIService.request_timestamps := [];
     AIService._mock_mode := false |}.

Definition world : World := mkWorld service 0 0.

(** The calls of [prompts], one after the other, from a fresh service. *)
Definition run (prompts : list string) : Outcome (list (Outcome string)) * World :=
  call_sequence Settings.defaults clock chat_completion md5_hexdigest prompts world.

End Sample.

(** ** A small organisation *)

Module Scenario.

Definition root : User.t := User.mk 1 (Some (Role.mk "super_admin")).
Definition sysadmin : User.t := User.mk 2 (Some (Role.mk "admin")).
Definition member : User.t := User.mk 5 (Some (Role.mk "user")).
Definition deputy : User.t := User.mk 7 (Some (Role.mk "user")).
Definition visitor : User.t := User.mk 8 None.

(** Project 1 is private and run by user 6, project 2 is public, project 3
    was created by user 5 and has been deactivated. *)
Definition db : Session :=
  {| projects :=
       {[ 1 := Project.mk true true 6;
          2 := Project.mk true false 9;
          3 := Project.mk false true 5 ]};
     documents :=
       {[ 11 := Document.mk (Enum.scope_value PROJECT) 1 6;
          12 := Document.mk (Enum.scope_value ORGANIZATION) 2 9;
          13 := Document.mk (Enum.scope_value PERSONAL) 1 5 ]};
     user_projects := {[ (5, 1) := "member"; (7, 1) := "admin" ]} |}.

(** A caller below the admin tier with no accessible project. *)
Definition outsider_context : RbacContext :=
  {| ctx_user_id := 8;
     ctx_role := "guest";
     ctx_permissions := ROLE_PERMISSIONS GUEST;
     accessible_project_ids := [];
     ctx_is_super_admin := false;
     ctx_is_admin := false;
     current_project_id := None;
     has_project_access := None;
     super_admin_user_id := None |}.

(** Two chunks of a handbook, as the document service hands them over,
    with the ids drawn for them. *)
Definition handbook_chunks : list (string * ChunkDict.t) :=
  [("chunk-a",
    ChunkDict.mk (Some "Leave is twenty days a year.") (Some 0) None (Some 1) None
      (Some "handbook.pdf") None);
   ("chunk-b",
    ChunkDict.mk (Some "Parking is behind the building.") (Some 1) None (Some 2) None
      (Some "handbook.pdf") (Some "organization"))].

(** The default settings with the local rate limit set to 0. *)
Definition muted : Settings.t :=
  {| Settings.LLM_MODEL_NAME := Settings.LLM_MODEL_NAME Settings.defaults;
     Settings.MAX_RETRIEVAL_DOCS := 5;
     Settings.MIN_SIMILARITY_SCORE := (1 # 2)%Q;
     Settings.RATE_LIMIT_REQUESTS_PER_MINUTE := 0;
     Settings.CIRCUIT_BREAKER_THRESHOLD := 5;
     Settings.CIRCUIT_BREAKER_TIMEOUT := 60 |}.

(** A service whose circuit opened at second 4, after five failures, seen
    at the clock reading [t]; and the same service in the half-open
    state. *)
Definition tripped (t : nat) : World :=
  mkWorld
    (AIService.with_circuit_breaker (CircuitBreaker.mk 5 (Some (4 * second)) OPEN)
       Sample.service)
    t 5.

Definition probing : World :=
  mkWorld
    (AIService.with_circuit_breaker (CircuitBreaker.mk 5 (Some (4 * second)) HALF_OPEN)
       Sample.service)
    20 5.

(** A personal chunk of user 9, and a collection that holds it next to the
    personal chunk of user 2: in the mock dictionary of one service, in
    the vector store of another. *)
Definition colleague_payload : Payload.t :=
  {| Payload.document_id := 72;
     Payload.chunk_index := 0;
     Payload.content := "Notes of a colleague.";
     Payload.token_count := 4;
     Payload.page_number := None;
     Payload.section_title := None;
     Payload.filename := Some "private.txt";
     Payload.project_id := Some 7;
     Payload.user_id := Some 9;
     Payload.access_scope := Enum.scope_value PERSONAL |}.

Definition notes : list Point.t :=
  [Point.mk "chunk-2" [1%Q] Sample.own_personal_payload;
   Point.mk "chunk-3" [1%Q] colleague_payload].

Definition notes_in_memory : VectorService.t :=
  VectorService.mk true notes (QdrantClient.mk [] None).

Definition notes_in_store : VectorService.t :=
  VectorService.mk false [] (QdrantClient.mk notes None).

End Scenario.

(** * Properties *)

(** ** Roles and permissions *)

Lemma role_of_value_Some (name : string) (r : UserRole) :
  Enum.role_of_value name = Some r <-> Enum.role_value r = name.
Proof.
  split.
  - intros H. apply List.find_some in H as [_ H]. by apply String.eqb_eq in H.
  - intros <-. by destruct r.
Qed.

Lemma role_of_value_None (name : string) :
  Enum.role_of_value name = None <-> name ∉ (Enum.role_value <$> Enum.all_roles).
Proof.
  split.
  - intros H [r [-> _]]%list_elem_of_fmap.
    assert (Enum.role_of_value (Enum.role_value r) = Some r) as H'
      by by apply role_of_value_Some.
    congruence.
  - intros H. destruct (Enum.role_of_value name) as [r|] eqn:E; [|done].
    apply role_of_value_Some in E. exfalso. apply H.
    apply list_elem_of_fmap. exists r. split; [done|].
    destruct r; unfold Enum.all_roles; set_solver.
Qed.

(** C10.  Role resolution is total: a user without a role is a [guest]; a
    role whose lower-cased name is one of the four role values resolves to
    that role; any other role name resolves to [user], so that such a
    principal holds the standard-user permissions, among them
    [upload_documents] and [chat], which the guest set lacks. *)
Theorem unknown_role_defaults_to_user (user : User.t) :
  (User.role user = None -> get_user_role user = GUEST)
  /\ (forall role r,
        User.role user = Some role ->
        PyStr.lower (Role.name role) = Enum.role_value r ->
        get_user_role user = r)
  /\ (forall role,
        User.role user = Some role ->
        PyStr.lower (Role.name role) ∉ (Enum.role_value <$> Enum.all_roles) ->
        get_user_role user = USER
        /\ get_user_permissions user = ROLE_PERMISSIONS USER
        /\ has_permission user "upload_documents" = true
        /\ has_permission user "chat" = true
        /\ ("upload_documents" ∉ ROLE_PERMISSIONS GUEST)
        /\ ("chat" ∉ ROLE_PERMISSIONS GUEST)).
Proof.
  split; [|split].
  - unfold get_user_role. by intros ->.
  - unfold get_user_role. intros role r -> E. symmetry in E.
    apply role_of_value_Some in E. by rewrite E.
  - intros role Hr E. apply role_of_value_None in E.
    assert (get_user_role user = USER) as Hu.
    { unfold get_user_role. by rewrite Hr, E. }
    unfold has_permission, get_user_permissions. rewrite Hu.
    repeat split; try reflexivity.
    all: intros H%(bool_decide_pack _); vm_compute in H; exact H.
Qed.

Lemma unknown_role_witness :
  get_user_role (User.mk 3 None) = GUEST
  /\ get_user_role Sample.admin_user = ADMIN
  /\ get_user_role Sample.manager = USER
  /\ has_permission Sample.manager "upload_documents" = true
  /\ has_permission Sample.manager "chat" = true.
Proof.
  split; [|split].
  - apply (unknown_role_defaults_to_user (User.mk 3 None)). reflexivity.
  - apply (unknown_role_defaults_to_user Sample.admin_user) with (Role.mk "Admin");
      reflexivity.
  - destruct (unknown_role_defaults_to_user Sample.manager) as (_ & _ & H).
    destruct (H (Role.mk "Manager")) as (H1 & _ & H3 & H4 & _).
    + reflexivity.
    + intros H0%list_elem_of_In. vm_compute in H0. intuition discriminate.
    + auto.
Defined.

(** ** Project access *)

Lemma elem_of_query_project_ids (db : Session) (cond : Project.t -> bool) (pid : Z) :
  pid ∈ query_project_ids db cond
  <-> exists p, projects db !! pid = Some p /\ cond p = true.
Proof.
  unfold query_project_ids. rewrite list_elem_of_fmap. split.
  - intros [[k p] [-> H]]. apply elem_of_map_to_list in H.
    apply map_lookup_filter_Some in H as [H1 H2]. eauto.
  - intros [p [H1 H2]]. exists (pid, p). split; [done|].
    apply elem_of_map_to_list. by apply map_lookup_filter_Some.
Qed.

Lemma elem_of_active_member_project_ids (db : Session) (user : User.t) (pid : Z) :
  pid ∈ active_member_project_ids db user
  <-> exists p, projects db !! pid = Some p
                /\ is_member db user pid = true /\ Project.is_active p = true.
Proof.
  unfold active_member_project_ids. rewrite list_elem_of_fmap. split.
  - intros [[k p] [-> H]]. apply elem_of_map_to_list in H.
    apply map_lookup_filter_Some in H as [H1 H2]. eauto.
  - intros [p [H1 H2]]. exists (pid, p). split; [done|].
    apply elem_of_map_to_list. by apply map_lookup_filter_Some.
Qed.

Lemma super_admin_is_admin (user : User.t) :
  is_super_admin user = true -> is_admin user = true.
Proof.
  unfold is_super_admin, is_admin. intros H%bool_decide_eq_true.
  rewrite H. apply bool_decide_eq_true. set_solver.
Qed.

(** What [get_accessible_project_ids] returns: the active projects, all of
    them for the admin tier, otherwise those the user is a member of,
    created, or that are not private. *)
Lemma elem_of_accessible_project_ids (user : User.t) (db : Session) (pid : Z) :
  pid ∈ get_accessible_project_ids user db
  <-> exists p, projects db !! pid = Some p /\ Project.is_active p = true
        /\ (is_admin user = true
            \/ is_member db user pid = true
            \/ Project.created_by_id p = User.id user
            \/ Project.is_private p = false).
Proof.
  unfold get_accessible_project_ids.
  pose proof (super_admin_is_admin user) as Hsa.
  destruct (is_super_admin user) eqn:Es; simpl.
  { rewrite elem_of_query_project_ids. split.
    - intros [p [? ?]]. exists p. auto.
    - intros [p (? & ? & _)]. eauto. }
  destruct (is_admin user) eqn:Ea; simpl.
  { rewrite elem_of_query_project_ids. split.
    - intros [p [? ?]]. exists p. auto.
    - intros [p (? & ? & _)]. eauto. }
  rewrite elem_of_elements, elem_of_list_to_set, !elem_of_app.
  rewrite elem_of_active_member_project_ids, !elem_of_query_project_ids. split.
  - intros [[[p (H1 & H2 & H3)] | [p [H1 H2]]] | [p [H1 H2]]]; exists p.
    + auto 7.
    + apply andb_true_iff in H2 as [H2 H3]. apply Z.eqb_eq in H2. auto 7.
    + apply andb_true_iff in H2 as [H2 H3]. apply negb_true_iff in H2. auto 7.
  - intros [p (H1 & H2 & [H3 | [H3 | [H3 | H3]]])]; [done | | |].
    + left; left. eauto.
    + left; right. exists p. split; [done|]. apply andb_true_iff. split; [|done].
      by apply Z.eqb_eq.
    + right. exists p. split; [done|]. apply andb_true_iff. split; [|done].
      by apply negb_true_iff.
Qed.

(** C9, as amended.  For a principal of any role, the accessible project
    ids contain every active project the principal created and every
    active project that is not private. *)
Theorem accessible_projects_include_active_created_and_public
    (user : User.t) (db : Session) (pid : Z) (p : Project.t) :
  projects db !! pid = Some p ->
  Project.is_active p = true ->
  Project.created_by_id p = User.id user \/ Project.is_private p = false ->
  pid ∈ get_accessible_project_ids user db.
Proof.
  intros Hp Ha Hc. apply elem_of_accessible_project_ids. exists p.
  split; [done|]. split; [done|]. destruct Hc; auto.
Qed.

Lemma accessible_projects_witness :
  10 ∈ get_accessible_project_ids Sample.standard_user Sample.db_active.
Proof.
  apply (accessible_projects_include_active_created_and_public
           Sample.standard_user Sample.db_active 10 Sample.active_project).
  - reflexivity.
  - reflexivity.
  - left. reflexivity.
Defined.

(** C9, as stated, fails: project 10 was created by the user and is not
    private, yet it is not accessible, because it is no longer active. *)
Lemma inactive_created_project_not_accessible :
  projects Sample.db !! 10 = Some Sample.retired_project
  /\ Project.created_by_id Sample.retired_project = User.id Sample.standard_user
  /\ Project.is_private Sample.retired_project = false
  /\ (10 ∉ get_accessible_project_ids Sample.standard_user Sample.db)
  /\ (10 ∉ get_accessible_project_ids Sample.admin_user Sample.db).
Proof.
  split; [done|]. split; [done|]. split; [done|].
  split; intros [p (H1 & H2 & _)]%elem_of_accessible_project_ids;
    vm_compute in H1; by inversion H1; subst.
Qed.

(** ** Document access *)

Lemma check_document_access_personal
    (db : Session) (user : User.t) (document_id : Z) (document : Document.t)
    (action : string) :
  documents db !! document_id = Some document ->
  Document.access_scope document = Enum.scope_value PERSONAL ->
  check_document_access document_id user db action
  = is_super_admin user || (Document.uploaded_by_id document =? User.id user).
Proof.
  intros Hd Hs. unfold check_document_access. rewrite Hd, Hs.
  destruct (is_super_admin user); [done|]. simpl.
  destruct (Document.uploaded_by_id document =? User.id user); [done|].
  by rewrite andb_false_r.
Qed.

(** ** The retrieval filter *)

Lemma admits_must_field (key : string) (m : Match) (p : Payload.t) :
  admits (Filter_must [FieldCondition key m]) p = match_holds m (payload_field key p).
Proof. simpl. by rewrite !andb_true_r. Qed.

(** A personal chunk satisfies a scope condition only through one of the
    two uploader conditions. *)
Lemma scope_should_conditions_personal
    (user_id sa : option Z) (p : Payload.t) (c : Condition) :
  Payload.access_scope p = Enum.scope_value PERSONAL ->
  c ∈ scope_should_conditions user_id sa ->
  holds c p = true ->
  (exists u, user_id = Some u /\ Payload.user_id p = Some u)
  \/ (exists s, sa = Some s /\ Payload.user_id p = Some s).
Proof.
  intros Hs Hc Hh. unfold scope_should_conditions in Hc.
  assert (forall u,
            holds (Nested (Filter_must
                             [FieldCondition "user_id" (MatchValue (IntValue u))])) p
            = true -> Payload.user_id p = Some u) as Hu.
  { intros u. cbn [holds]. rewrite admits_must_field. unfold payload_field. simpl.
    destruct (Payload.user_id p); simpl; [|done].
    intros H%bool_decide_eq_true. by inversion H. }
  assert (forall v, v <> "personal" ->
            holds (Nested (Filter_must
                             [FieldCondition "access_scope" (MatchValue (StrValue v))])) p
            = false) as Hv.
  { intros v Hne. cbn [holds]. rewrite admits_must_field. unfold payload_field. simpl.
    rewrite Hs. apply bool_decide_eq_false. simpl. congruence. }
  destruct user_id as [u|], sa as [s|]; simpl in Hc;
    repeat (apply elem_of_cons in Hc as [-> | Hc]);
    try (by apply elem_of_nil in Hc);
    try (rewrite Hv in Hh; done); eauto.
Qed.

Lemma scope_should_conditions_cons (user_id sa : option Z) :
  exists c l, scope_should_conditions user_id sa = c :: l.
Proof. unfold scope_should_conditions. destruct user_id, sa; simpl; eauto. Qed.

(** Without explicit document ids the filter is built from the conditions
    of the RBAC block. *)
Lemma build_search_filter_no_ids
    (project_id user_id : option Z) (rbac_context : option RbacContext)
    (document_ids : option (list Z)) :
  no_explicit_ids document_ids ->
  build_search_filter project_id user_id rbac_context document_ids
  = match rbac_conditions project_id user_id rbac_context with
    | None => AccessDenied
    | Some (filter_conditions, should_conditions) =>
        match final_filter filter_conditions should_conditions with
        | inr search_filter => SearchFilter search_filter
        | inl message => Raised message
        end
    end.
Proof. by intros [-> | ->]. Qed.

(** With a scope condition the construction of the filter raises. *)
Lemma final_filter_should
    (filter_conditions : list Condition) (c : Condition) (l : list Condition) :
  final_filter filter_conditions (c :: l) = inl min_should_error.
Proof. by destruct filter_conditions. Qed.

(** The filter-building block for a caller who is not a super admin and
    gives no explicit document ids: below the admin tier a project outside
    the accessible ones is refused; in every other case the scope
    conditions make the construction of the filter raise. *)
Lemma search_filter_below_super_admin
    (project_id user_id : option Z) (rbac_context : option RbacContext)
    (document_ids : option (list Z)) :
  no_explicit_ids document_ids ->
  from_option ctx_is_super_admin false rbac_context = false ->
  build_search_filter project_id user_id rbac_context document_ids
  = if negb (from_option ctx_is_admin false rbac_context)
       && match project_id with
          | Some p =>
              negb (bool_decide
                      (p ∈ from_option accessible_project_ids [] rbac_context))
          | None => false
          end
    then AccessDenied
    else Raised min_should_error.
Proof.
  intros Hd Hs. rewrite build_search_filter_no_ids by done.
  unfold rbac_conditions. cbv zeta. rewrite Hs.
  destruct (scope_should_conditions_cons user_id (rbac_context ≫= super_admin_user_id))
    as (c & l & ->).
  destruct (from_option ctx_is_admin false rbac_context); cbn [negb andb].
  - by rewrite final_filter_should.
  - destruct project_id as [p|]; [|by rewrite final_filter_should].
    destruct (bool_decide _); cbn [negb]; [|done].
    by rewrite final_filter_should.
Qed.

(** A personal chunk satisfies one of the scope conditions exactly when
    its uploader is the caller or the shared super-admin identity. *)
Lemma scope_should_conditions_personal_iff
    (user_id sa : option Z) (p : Payload.t) :
  Payload.access_scope p = Enum.scope_value PERSONAL ->
  (exists c, c ∈ scope_should_conditions user_id sa /\ holds c p = true)
  <-> (exists u, user_id = Some u /\ Payload.user_id p = Some u)
      \/ (exists s, sa = Some s /\ Payload.user_id p = Some s).
Proof.
  intros Hs. split.
  - intros (c & Hin & Hh). by eapply scope_should_conditions_personal.
  - assert (forall u, Payload.user_id p = Some u ->
              holds (Nested (Filter_must
                               [FieldCondition "user_id" (MatchValue (IntValue u))])) p
              = true) as Hu.
    { intros u Hp. cbn [holds]. rewrite admits_must_field.
      unfold payload_field. simpl. rewrite Hp. simpl. by apply bool_decide_eq_true. }
    intros [(u & -> & Hp) | (s & -> & Hp)].
    + exists (Nested (Filter_must
                        [FieldCondition "user_id" (MatchValue (IntValue u))])).
      split; [|by apply Hu]. unfold scope_should_conditions.
      destruct sa; cbv zeta iota beta; rewrite ?elem_of_app, !elem_of_cons; tauto.
    + exists (Nested (Filter_must
                        [FieldCondition "user_id" (MatchValue (IntValue s))])).
      split; [|by apply Hu]. unfold scope_should_conditions.
      destruct user_id; cbv zeta iota beta; rewrite ?elem_of_app, !elem_of_cons; tauto.
Qed.

Lemma fresh_id_above (ids : list Z) (x : Z) : x ∈ ids -> x < fresh_id ids.
Proof.
  unfold fresh_id. induction ids as [|y ids IH]; [by intros ?%elem_of_nil|].
  intros [-> | H]%elem_of_cons; simpl; [lia|]. specialize (IH H). lia.
Qed.

Lemma fresh_id_not_elem (ids : list Z) : fresh_id ids ∉ ids.
Proof. intros H%fresh_id_above. lia. Qed.

Lemma admits_explicit_filter (document_ids : list Z) (payload : Payload.t) :
  admits (explicit_filter document_ids) payload = true
  <-> Payload.document_id payload ∈ document_ids.
Proof.
  unfold explicit_filter. rewrite admits_must_field. unfold payload_field. simpl.
  rewrite bool_decide_eq_true. unfold int_values. rewrite list_elem_of_fmap. split.
  - intros [y [E H]]. by inversion E; subst.
  - intros H. eauto.
Qed.

(** C2.  Whoever calls, a non-empty list of explicit document ids compiles
    to the single condition that the chunk's document is in the list, with
    no project, scope or uploader condition; the filter admits exactly the
    chunks of the listed documents, among them a personal chunk that
    somebody else uploaded into a project the caller cannot access. *)
Theorem explicit_document_ids_bypass_rbac
    (project_id user_id : option Z) (rbac_context : option RbacContext)
    (d : Z) (ds : list Z) :
  build_search_filter project_id user_id rbac_context (Some (d :: ds))
  = SearchFilter (Some (explicit_filter (d :: ds)))
  /\ explicit_filter (d :: ds)
     = MkFilter [FieldCondition "document_id" (MatchAny (IntValue <$> d :: ds))] [] None
  /\ (forall payload,
        admits (explicit_filter (d :: ds)) payload = true
        <-> Payload.document_id payload ∈ d :: ds)
  /\ (exists payload,
        Payload.access_scope payload = Enum.scope_value PERSONAL
        /\ Payload.user_id payload <> user_id
        /\ (forall p, Payload.project_id payload = Some p ->
                      p ∉ from_option accessible_project_ids [] rbac_context)
        /\ admits (explicit_filter (d :: ds)) payload = true).
Proof.
  split; [done|]. split; [done|]. split.
  - intros payload. apply admits_explicit_filter.
  - exists (foreign_personal_payload d user_id
              (from_option accessible_project_ids [] rbac_context)).
    split; [done|]. split; [|split].
    + simpl. destruct user_id as [u|]; simpl; [|done]. intros E. inversion E. lia.
    + simpl. intros p E. inversion E. apply fresh_id_not_elem.
    + apply admits_explicit_filter. simpl. set_solver.
Qed.

Section SearchProperties.

Variable settings : Settings.t.
Variable generate_embedding : string -> list Q.
Variable _cosine_similarity : list Q -> list Q -> Q.

(** With the vector store in use, a caller below the admin tier who asks
    for a project outside the accessible ones gets the access-denied
    result, which no successful search returns. *)
Lemma search_similar_denies_inaccessible_project
    (self : VectorService.t) (query : string) (n_results : Z)
    (project_id : Z) (user_id : option Z) (min_score : option Q)
    (rbac_context : option RbacContext) (document_ids : option (list Z)) :
  VectorService._mock_mode self = false ->
  no_explicit_ids document_ids ->
  from_option ctx_is_super_admin false rbac_context = false ->
  from_option ctx_is_admin false rbac_context = false ->
  project_id ∉ from_option accessible_project_ids [] rbac_context ->
  let r := search_similar settings generate_embedding _cosine_similarity self query
             n_results (Some project_id) user_id min_score rbac_context document_ids in
  r = {| SearchResult.query := query;
         SearchResult.results := [];
         SearchResult.total_results := 0;
         SearchResult.rbac_applied := None;
         SearchResult.error := Some "Access denied to this project" |}
  /\ SearchResult.error r <> None
  /\ SearchResult.rbac_applied r <> Some true.
Proof.
  intros Hm Hd Hs Ha Hp r. subst r. unfold search_similar. rewrite Hm.
  assert (build_search_filter (Some project_id) user_id rbac_context document_ids
          = AccessDenied) as ->.
  { rewrite search_filter_below_super_admin by done.
    rewrite Ha. cbn [negb andb]. by rewrite bool_decide_eq_false_2. }
  by repeat split.
Qed.

(** In mock mode [search_similar] never reports an error. *)
Lemma mock_search_reports_no_error
    (self : VectorService.t) (query : string) (n_results : Z)
    (project_id user_id : option Z) (min_score : option Q)
    (rbac_context : option RbacContext) (document_ids : option (list Z)) :
  VectorService._mock_mode self = true ->
  let r := search_similar settings generate_embedding _cosine_similarity self query
             n_results project_id user_id min_score rbac_context document_ids in
  SearchResult.error r = None /\ SearchResult.rbac_applied r = Some true.
Proof. intros Hm r. subst r. unfold search_similar. by rewrite Hm. Qed.

End SearchProperties.

(** [get_document_filter_for_user] refuses a requested project outside the
    accessible ones with a 403, for a user below the admin tier. *)
Lemma document_filter_forbidden
    (user : User.t) (db : Session) (project_id : Z) :
  is_admin user = false ->
  project_id <> 0 ->
  project_id ∉ get_accessible_project_ids user db ->
  get_document_filter_for_user user db (Some project_id)
  = inl (mkHTTPException 403 "No access to this project").
Proof.
  intros Ha Hz Hp. unfold get_document_filter_for_user.
  destruct (is_super_admin user) eqn:Es.
  { apply super_admin_is_admin in Es. congruence. }
  rewrite Ha. simpl. destruct (Z.eqb_spec project_id 0) as [|_]; [done|].
  by rewrite bool_decide_eq_false_2.
Qed.

(** C3, the failing input.  In mock mode a standard user who may see
    project 1 only asks for project 7: the search answers with a chunk of
    project 7 and no error, where the vector-store path answers with the
    access-denied result. *)
Theorem mock_search_skips_project_access_check :
  (7 ∉ accessible_project_ids Sample.user_context)
  /\ search_similar Settings.defaults Sample.generate_embedding
       Sample._cosine_similarity Sample.mock_service "budget" 5 (Some 7) (Some 2)
       None (Some Sample.user_context) None
     = {| SearchResult.query := "budget";
          SearchResult.results := [format_hit Sample.project7_payload 1%Q];
          SearchResult.total_results := 1;
          SearchResult.rbac_applied := Some true;
          SearchResult.error := None |}
  /\ search_similar Settings.defaults Sample.generate_embedding
       Sample._cosine_similarity Sample.qdrant_service "budget" 5 (Some 7) (Some 2)
       None (Some Sample.user_context) None
     = {| SearchResult.query := "budget";
          SearchResult.results := [];
          SearchResult.total_results := 0;
          SearchResult.rbac_applied := None;
          SearchResult.error := Some "Access denied to this project" |}.
Proof.
  split; [|split].
  - intros H%(bool_decide_pack _). vm_compute in H. exact H.
  - vm_compute. reflexivity.
  - vm_compute. reflexivity.
Qed.

(** ** Strings *)

Lemma append_assoc (s1 s2 s3 : string) : (s1 +:+ s2) +:+ s3 = s1 +:+ (s2 +:+ s3).
Proof.
  induction s1 as [|c s1 IH]; [done|].
  change (String c ((s1 +:+ s2) +:+ s3) = String c (s1 +:+ (s2 +:+ s3))).
  by rewrite IH.
Qed.

Lemma append_empty_r (s : string) : s +:+ EmptyString = s.
Proof.
  induction s as [|c s IH]; [done|].
  change (String c (s +:+ EmptyString) = String c s). by rewrite IH.
Qed.

Lemma prefix_append (x s : string) :
  String.prefix x s = true <-> exists post, s = x +:+ post.
Proof.
  revert s. induction x as [|c x IH]; intros s.
  - split; [intros _; by exists s | by destruct s].
  - destruct s as [|c' s]; simpl.
    + split; [done | intros [post H]; discriminate].
    + destruct (ascii_dec c c') as [<- | Hne].
      * rewrite IH. split; intros [post H]; exists post.
        -- by rewrite H.
        -- change (String c s = String c (x +:+ post)) in H. by inversion H.
      * split; [done|]. intros [post H].
        change (String c' s = String c (x +:+ post)) in H. inversion H. congruence.
Qed.

(** [needle in hay] says that [needle] occurs in [hay]. *)
Lemma contains_infix (x s : string) : PyStr.contains x s = true <-> PyStr.infix x s.
Proof.
  induction s as [|c s IH].
  - cbn [PyStr.contains]. rewrite orb_false_r, prefix_append. split.
    + intros [post H]. exists EmptyString, post. exact H.
    + intros (pre & post & H). destruct pre as [|c pre]; [by exists post|].
      discriminate.
  - cbn [PyStr.contains]. rewrite orb_true_iff, prefix_append, IH. split.
    + intros [[post H] | (pre & post & H)].
      * exists EmptyString, post. exact H.
      * exists (String c pre), post. rewrite H. reflexivity.
    + intros (pre & post & H). destruct pre as [|c' pre].
      * left. by exists post.
      * right. exists pre, post.
        change (String c s = String c' (pre +:+ x +:+ post)) in H. by inversion H.
Qed.

Lemma infix_app_l (x s t : string) : PyStr.infix x s -> PyStr.infix x (s +:+ t).
Proof.
  intros (pre & post & ->). exists pre, (post +:+ t). by rewrite !append_assoc.
Qed.

Lemma infix_app_r (x s t : string) : PyStr.infix x s -> PyStr.infix x (t +:+ s).
Proof.
  intros (pre & post & ->). exists (t +:+ pre), post. by rewrite !append_assoc.
Qed.

Lemma infix_join (sep : string) (parts : list string) (x : string) :
  x ∈ parts -> PyStr.infix x (PyStr.join sep parts).
Proof.
  induction parts as [|p parts IH]; [by intros ?%elem_of_nil|].
  intros [-> | H]%elem_of_cons.
  - destruct parts as [|q parts]; simpl.
    + exists EmptyString, EmptyString.
      change (p = p +:+ EmptyString). by rewrite append_empty_r.
    + exists EmptyString, (sep +:+ PyStr.join sep (q :: parts)). reflexivity.
  - specialize (IH H). destruct parts as [|q parts]; [by apply elem_of_nil in H|].
    change (PyStr.join sep (p :: q :: parts))
      with (p +:+ sep +:+ PyStr.join sep (q :: parts)).
    by do 2 apply infix_app_r.
Qed.

(** ** Binary64 rounding *)

Lemma pow2_pos (k : Z) : (0 < 2 ^ k)%Q.
Proof. by apply Qpower_0_lt. Qed.

Lemma pow2_add (a b : Z) : (2 ^ (a + b) == 2 ^ a * 2 ^ b)%Q.
Proof. by apply Qpower_plus. Qed.

Lemma pow2_le (a b : Z) : a <= b -> (2 ^ a <= 2 ^ b)%Q.
Proof. intros H. by apply Qpower_le_compat_l. Qed.

Lemma pow2_inject (a : Z) : 0 <= a -> (inject_Z (2 ^ a) == 2 ^ a)%Q.
Proof. intros H. by apply Zpower_Qpower. Qed.

(** [ilog2 x] is the exponent of the power of two at or below [x]. *)
Lemma ilog2_spec (x : Q) :
  (0 < x)%Q -> (2 ^ PyFloat.ilog2 x <= x)%Q /\ (x < 2 ^ (PyFloat.ilog2 x + 1))%Q.
Proof.
  intros Hx. destruct x as [n d]. unfold PyFloat.ilog2. cbn [Qnum Qden].
  assert (0 < n) as Hn by (unfold Qlt in Hx; simpl in Hx; lia).
  set (a := Z.log2 n). set (b := Z.log2 (Z.pos d)).
  assert (0 <= a) as Ha0 by apply Z.log2_nonneg.
  assert (0 <= b) as Hb0 by apply Z.log2_nonneg.
  destruct (Z.log2_spec n Hn) as [Ha1 Ha2]. fold a in Ha1, Ha2.
  destruct (Z.log2_spec (Z.pos d) ltac:(lia)) as [Hb1 Hb2]. fold b in Hb1, Hb2.
  assert (n # d == inject_Z n / inject_Z (Z.pos d))%Q as Hq by apply Qmake_Qdiv.
  pose proof (pow2_pos (a - b)) as Hk.
  pose proof (pow2_pos b) as HB.
  assert (2 ^ (a - b) * 2 ^ b == 2 ^ a)%Q as Hab.
  { rewrite <- pow2_add. by replace (a - b + b) with a by lia. }
  assert (2 ^ (a - b + 1) == 2 * 2 ^ (a - b))%Q as Hup.
  { rewrite pow2_add. change (2 ^ 1)%Q with 2%Q. lra. }
  assert (2 ^ (a - b - 1) * 2 == 2 ^ (a - b))%Q as Hdown.
  { change 2%Q with (2 ^ 1)%Q at 2. rewrite <- pow2_add.
    by replace (a - b - 1 + 1) with (a - b) by lia. }
  assert (inject_Z (2 ^ a) <= inject_Z n)%Q as HA1 by by rewrite <- Zle_Qle.
  assert (inject_Z n < inject_Z (2 ^ Z.succ a))%Q as HA2 by by rewrite <- Zlt_Qlt.
  assert (inject_Z (2 ^ b) <= inject_Z (Z.pos d))%Q as HB1 by by rewrite <- Zle_Qle.
  assert (inject_Z (Z.pos d) < inject_Z (2 ^ Z.succ b))%Q as HB2 by by rewrite <- Zlt_Qlt.
  rewrite pow2_inject in HA1, HA2, HB1, HB2 by lia.
  unfold Z.succ in HA2, HB2. rewrite pow2_add in HA2, HB2.
  change (2 ^ 1)%Q with 2%Q in HA2, HB2.
  set (N := inject_Z n) in *. set (D := inject_Z (Z.pos d)) in *.
  set (A := (2 ^ a)%Q) in *. set (B := (2 ^ b)%Q) in *.
  set (K := (2 ^ (a - b))%Q) in *.
  assert (0 < D)%Q as HD by lra.
  assert ((n # d) * D == N)%Q as Hx'.
  { rewrite Hq. field. lra. }
  set (X := (n # d)%Q) in *.
  assert (X < 2 * K)%Q as Hlt.
  { destruct (Qlt_le_dec X (2 * K)) as [|Hge]; [done|]. exfalso. nra. }
  assert (2 ^ (a - b - 1) < X)%Q as Hgt.
  { set (L := (2 ^ (a - b - 1))%Q) in *.
    destruct (Qlt_le_dec L X) as [|Hge]; [done|]. exfalso.
    assert (0 < L)%Q by apply pow2_pos. nra. }
  destruct (Qle_bool K X) eqn:E.
  - apply Qle_bool_iff in E. split; [done|]. by rewrite Hup.
  - split; [lra|]. replace (a - b - 1 + 1) with (a - b) by lia.
    fold K. destruct (Qlt_le_dec X K) as [|Hge]; [done|].
    apply Qle_bool_iff in Hge. congruence.
Qed.

Lemma nearest_even_bounds (q : Q) :
  Qfloor q <= PyFloat.nearest_even q <= Qfloor q + 1.
Proof.
  unfold PyFloat.nearest_even.
  destruct (_ ?= _)%Q; [destruct (Z.even _)| |]; lia.
Qed.

Lemma nearest_even_inject (n : Z) : PyFloat.nearest_even (inject_Z n) = n.
Proof.
  unfold PyFloat.nearest_even. rewrite Qfloor_Z.
  destruct (Qcompare_spec (inject_Z n - inject_Z n) (1 # 2)) as [H | H | H];
    [exfalso; lra | done | exfalso; lra].
Qed.

Lemma nearest_even_mono (q1 q2 : Q) :
  (q1 <= q2)%Q -> PyFloat.nearest_even q1 <= PyFloat.nearest_even q2.
Proof.
  intros H. pose proof (Qfloor_resp_le _ _ H) as Hf.
  destruct (Z.eq_dec (Qfloor q1) (Qfloor q2)) as [E | Hne].
  - unfold PyFloat.nearest_even. rewrite E.
    destruct (Qcompare_spec (q1 - inject_Z (Qfloor q2)) (1 # 2)) as [H1 | H1 | H1];
      destruct (Qcompare_spec (q2 - inject_Z (Qfloor q2)) (1 # 2)) as [H2 | H2 | H2];
      try destruct (Z.even _); try lia; exfalso; lra.
  - pose proof (nearest_even_bounds q1). pose proof (nearest_even_bounds q2). lia.
Qed.

(** The last place of [x] is 53 binary digits below a bound of [|x|], and,
    unless [x] is subnormal, 52 digits below a power of two that [|x|]
    reaches. *)
Lemma ulp_exponent_upper (x : Q) :
  (Qabs x < 2 ^ (PyFloat.ulp_exponent x + 53))%Q.
Proof.
  unfold PyFloat.ulp_exponent.
  destruct (Qlt_le_dec 0 (Qabs x)) as [Hpos | Hzero].
  - destruct (ilog2_spec _ Hpos) as [_ H]. eapply Qlt_le_trans; [exact H|].
    apply pow2_le. lia.
  - eapply Qle_lt_trans; [exact Hzero|]. apply pow2_pos.
Qed.

Lemma ulp_exponent_lower (x : Q) :
  ~ (x == 0)%Q -> -1074 < PyFloat.ulp_exponent x ->
  (2 ^ (PyFloat.ulp_exponent x + 52) <= Qabs x)%Q.
Proof.
  intros Hx He. unfold PyFloat.ulp_exponent in *.
  assert (0 < Qabs x)%Q as Hpos.
  { pose proof (Qabs_nonneg x) as H0. destruct (Qlt_le_dec 0 (Qabs x)) as [|H1]; [done|].
    exfalso. apply Hx. destruct (Qlt_le_dec 0 x) as [Hp | Hn].
    - rewrite Qabs_pos in H1 by lra. lra.
    - rewrite Qabs_neg in H1 by lra. lra. }
  destruct (ilog2_spec _ Hpos) as [H _].
  replace (Z.max (PyFloat.ilog2 (Qabs x) - 52) (-1074) + 52)
    with (PyFloat.ilog2 (Qabs x)) by lia.
  exact H.
Qed.

Lemma round_scaled (x : Q) :
  (PyFloat.round x
   == inject_Z (PyFloat.nearest_even (x / 2 ^ PyFloat.ulp_exponent x))
      * 2 ^ PyFloat.ulp_exponent x)%Q.
Proof. reflexivity. Qed.

Lemma round_nonneg (x : Q) : (0 <= x)%Q -> (0 <= PyFloat.round x)%Q.
Proof.
  intros Hx. rewrite round_scaled.
  pose proof (pow2_pos (PyFloat.ulp_exponent x)) as Hp.
  assert (0 <= PyFloat.nearest_even (x / 2 ^ PyFloat.ulp_exponent x)) as Hn.
  { rewrite <- (nearest_even_inject 0). apply nearest_even_mono.
    apply Qle_shift_div_l; [done|]. change (inject_Z 0) with 0%Q. lra. }
  apply Qmult_le_0_compat; [|lra].
  change 0%Q with (inject_Z 0). by rewrite <- Zle_Qle.
Qed.

Lemma round_nonpos (x : Q) : (x <= 0)%Q -> (PyFloat.round x <= 0)%Q.
Proof.
  intros Hx. rewrite round_scaled.
  pose proof (pow2_pos (PyFloat.ulp_exponent x)) as Hp.
  assert (PyFloat.nearest_even (x / 2 ^ PyFloat.ulp_exponent x) <= 0) as Hn.
  { rewrite <- (nearest_even_inject 0). apply nearest_even_mono.
    apply Qle_shift_div_r; [done|]. change (inject_Z 0) with 0%Q. lra. }
  assert (inject_Z (PyFloat.nearest_even (x / 2 ^ PyFloat.ulp_exponent x)) <= 0)%Q as Hq.
  { change 0%Q with (inject_Z 0). by rewrite <- Zle_Qle. }
  nra.
Qed.

(** A positive number rounds to a value between the powers of two around
    it. *)
Lemma round_pos_upper (x : Q) :
  (0 < x)%Q -> (PyFloat.round x <= 2 ^ (PyFloat.ulp_exponent x + 53))%Q.
Proof.
  intros Hx. rewrite round_scaled.
  set (e := PyFloat.ulp_exponent x).
  pose proof (pow2_pos e) as Hp.
  pose proof (ulp_exponent_upper x) as Hu. fold e in Hu.
  rewrite Qabs_pos in Hu by lra.
  rewrite pow2_add in Hu |- *.
  assert (PyFloat.nearest_even (x / 2 ^ e) <= 2 ^ 53) as Hn.
  { rewrite <- (nearest_even_inject (2 ^ 53)). apply nearest_even_mono.
    apply Qle_shift_div_r; [done|]. rewrite pow2_inject by lia. lra. }
  assert (inject_Z (PyFloat.nearest_even (x / 2 ^ e)) <= 2 ^ 53)%Q as Hq.
  { change (2 ^ 53)%Q with (inject_Z (2 ^ 53)). by rewrite <- Zle_Qle. }
  rewrite (Qmult_comm (2 ^ e)). apply Qmult_le_compat_r; [done|lra].
Qed.

Lemma round_pos_lower (x : Q) :
  (0 < x)%Q -> -1074 < PyFloat.ulp_exponent x ->
  (2 ^ (PyFloat.ulp_exponent x + 52) <= PyFloat.round x)%Q.
Proof.
  intros Hx He. rewrite round_scaled.
  pose proof (ulp_exponent_lower x ltac:(lra) He) as Hl.
  set (e := PyFloat.ulp_exponent x) in *.
  pose proof (pow2_pos e) as Hp.
  rewrite Qabs_pos in Hl by lra.
  rewrite pow2_add in Hl |- *.
  assert (2 ^ 52 <= PyFloat.nearest_even (x / 2 ^ e)) as Hn.
  { rewrite <- (nearest_even_inject (2 ^ 52)). apply nearest_even_mono.
    apply Qle_shift_div_l; [done|]. rewrite pow2_inject by lia. lra. }
  assert (2 ^ 52 <= inject_Z (PyFloat.nearest_even (x / 2 ^ e)))%Q as Hq.
  { change (2 ^ 52)%Q with (inject_Z (2 ^ 52)). by rewrite <- Zle_Qle. }
  rewrite (Qmult_comm (2 ^ e)). apply Qmult_le_compat_r; [done|lra].
Qed.

Lemma round_neg_lower (x : Q) :
  (x < 0)%Q -> (- 2 ^ (PyFloat.ulp_exponent x + 53) <= PyFloat.round x)%Q.
Proof.
  intros Hx. rewrite round_scaled.
  set (e := PyFloat.ulp_exponent x).
  pose proof (pow2_pos e) as Hp.
  pose proof (ulp_exponent_upper x) as Hu. fold e in Hu.
  rewrite Qabs_neg in Hu by lra.
  rewrite pow2_add in Hu |- *.
  assert (- 2 ^ 53 <= PyFloat.nearest_even (x / 2 ^ e)) as Hn.
  { rewrite <- (nearest_even_inject (- 2 ^ 53)). apply nearest_even_mono.
    apply Qle_shift_div_l; [done|].
    rewrite inject_Z_opp, pow2_inject by lia. lra. }
  assert (- 2 ^ 53 <= inject_Z (PyFloat.nearest_even (x / 2 ^ e)))%Q as Hq.
  { change (- 2 ^ 53)%Q with (inject_Z (- 2 ^ 53)). by rewrite <- Zle_Qle. }
  nra.
Qed.

Lemma round_neg_upper (x : Q) :
  (x < 0)%Q -> -1074 < PyFloat.ulp_exponent x ->
  (PyFloat.round x <= - 2 ^ (PyFloat.ulp_exponent x + 52))%Q.
Proof.
  intros Hx He. rewrite round_scaled.
  pose proof (ulp_exponent_lower x ltac:(lra) He) as Hl.
  set (e := PyFloat.ulp_exponent x) in *.
  pose proof (pow2_pos e) as Hp.
  rewrite Qabs_neg in Hl by lra.
  rewrite pow2_add in Hl |- *.
  assert (PyFloat.nearest_even (x / 2 ^ e) <= - 2 ^ 52) as Hn.
  { rewrite <- (nearest_even_inject (- 2 ^ 52)). apply nearest_even_mono.
    apply Qle_shift_div_r; [done|].
    rewrite inject_Z_opp, pow2_inject by lia. lra. }
  assert (inject_Z (PyFloat.nearest_even (x / 2 ^ e)) <= - 2 ^ 52)%Q as Hq.
  { change (- 2 ^ 52)%Q with (inject_Z (- 2 ^ 52)). by rewrite <- Zle_Qle. }
  nra.
Qed.

Lemma round_same_exponent (x y : Q) :
  PyFloat.ulp_exponent x = PyFloat.ulp_exponent y ->
  (x <= y)%Q -> (PyFloat.round x <= PyFloat.round y)%Q.
Proof.
  intros E H. rewrite !round_scaled, E.
  set (e := PyFloat.ulp_exponent y).
  pose proof (pow2_pos e) as Hp.
  apply Qmult_le_compat_r; [|lra].
  rewrite <- Zle_Qle. apply nearest_even_mono.
  apply Qmult_le_compat_r; [done|]. apply Qinv_le_0_compat. lra.
Qed.

(** Rounding keeps the order. *)
Lemma round_mono (x y : Q) : (x <= y)%Q -> (PyFloat.round x <= PyFloat.round y)%Q.
Proof.
  intros H.
  destruct (Z.lt_trichotomy (PyFloat.ulp_exponent x) (PyFloat.ulp_exponent y))
    as [Hlt | [Heq | Hgt]]; [| by apply round_same_exponent |].
  - (* the last place of [y] is higher *)
    destruct (Qlt_le_dec 0 x) as [Hx | Hx].
    + assert (0 < y)%Q as Hy by lra.
      eapply Qle_trans; [by apply round_pos_upper|].
      eapply Qle_trans; [|apply round_pos_lower; [done|]].
      * apply pow2_le. lia.
      * unfold PyFloat.ulp_exponent in *. lia.
    + destruct (Qlt_le_dec y 0) as [Hy | Hy].
      * (* both negative: then [|y| <= |x|] and the last place of [x] is not lower *)
        exfalso.
        pose proof (ulp_exponent_upper x) as Hu.
        assert (-1074 < PyFloat.ulp_exponent y) as He
          by (unfold PyFloat.ulp_exponent in *; lia).
        pose proof (ulp_exponent_lower y ltac:(lra) He) as Hl.
        rewrite Qabs_neg in Hu, Hl by lra.
        pose proof (pow2_le (PyFloat.ulp_exponent x + 53) (PyFloat.ulp_exponent y + 52)
                      ltac:(lia)). lra.
      * eapply Qle_trans; [by apply round_nonpos | by apply round_nonneg].
  - (* the last place of [x] is higher *)
    destruct (Qlt_le_dec y 0) as [Hy | Hy].
    + assert (x < 0)%Q as Hx by lra.
      eapply Qle_trans; [apply round_neg_upper; [done|]|].
      * unfold PyFloat.ulp_exponent in *. lia.
      * eapply Qle_trans; [|by apply round_neg_lower].
        pose proof (pow2_le (PyFloat.ulp_exponent y + 53) (PyFloat.ulp_exponent x + 52)
                      ltac:(lia)). lra.
    + destruct (Qlt_le_dec 0 x) as [Hx | Hx].
      * exfalso.
        pose proof (ulp_exponent_upper y) as Hu.
        assert (-1074 < PyFloat.ulp_exponent x) as He
          by (unfold PyFloat.ulp_exponent in *; lia).
        pose proof (ulp_exponent_lower x ltac:(lra) He) as Hl.
        rewrite Qabs_pos in Hu, Hl by lra.
        pose proof (pow2_le (PyFloat.ulp_exponent y + 53) (PyFloat.ulp_exponent x + 52)
                      ltac:(lia)). lra.
      * eapply Qle_trans; [by apply round_nonpos | by apply round_nonneg].
Qed.

#[global] Instance round_proper : Proper (Qeq ==> Qeq) PyFloat.round.
Proof.
  intros x y E. apply Qle_antisym; apply round_mono; rewrite E; apply Qle_refl.
Qed.

(** ** Confidence *)

Lemma calculate_confidence_cons (doc : Chunk.t) (docs : list Chunk.t) :
  _calculate_confidence (doc :: docs)
  = Qmin (PyFloat.round (average (scores_of (doc :: docs))
                         + relevance_bonus (scores_of (doc :: docs)))) 1.
Proof. reflexivity. Qed.

Lemma relevance_bonus_mono (s1 s2 : list Q) :
  (count_relevant s1 <= count_relevant s2)%nat ->
  (relevance_bonus s1 <= relevance_bonus s2)%Q.
Proof.
  intros H. unfold relevance_bonus. apply Q.min_le_compat_r, round_mono.
  apply Qmult_le_compat_r; [|by apply round_nonneg].
  apply round_mono. rewrite <- Zle_Qle. lia.
Qed.

Lemma relevance_bonus_nonneg (s : list Q) : (0 <= relevance_bonus s)%Q.
Proof.
  unfold relevance_bonus. apply Q.min_glb; [|by apply round_nonneg].
  apply round_nonneg, Qmult_le_0_compat; apply round_nonneg; [|done].
  change 0%Q with (inject_Z 0). rewrite <- Zle_Qle. lia.
Qed.

Lemma sum_scores_nonneg (s : list Q) :
  Forall (fun x => (0 <= x)%Q) s -> (0 <= sum_scores s)%Q.
Proof.
  intros H. unfold sum_scores.
  assert (forall total,
            (0 <= total)%Q ->
            (0 <= foldl (fun total s => PyFloat.round (total + s)) total s)%Q) as Hacc.
  { induction H as [|x s Hx Hs IH]; intros total Ht; simpl; [done|].
    apply IH, round_nonneg. lra. }
  by apply Hacc.
Qed.

(** Scores that are not negative have an average that is not negative. *)
Lemma average_nonneg (s : list Q) :
  Forall (fun x => (0 <= x)%Q) s -> (0 <= average s)%Q.
Proof.
  intros H. unfold average. apply round_nonneg.
  apply Qmult_le_0_compat; [by apply sum_scores_nonneg|].
  apply Qinv_le_0_compat, round_nonneg.
  change 0%Q with (inject_Z 0). rewrite <- Zle_Qle. lia.
Qed.

(** C5, as amended.  In the binary64 arithmetic of the code: among
    non-empty chunk lists for which the code computes the same average
    similarity, the confidence does not decrease when the number of chunks
    scoring above 0.7 grows; the confidence never exceeds 1; it is at
    least 0 when the computed average is not negative, as it is when no
    score is negative (the code clamps from above only); for no chunks it
    is 0.5. *)
Theorem confidence_monotone_and_bounded_above :
  (forall docs1 docs2,
      docs1 <> [] -> docs2 <> [] ->
      (average (scores_of docs1) == average (scores_of docs2))%Q ->
      (count_relevant (scores_of docs1) <= count_relevant (scores_of docs2))%nat ->
      (_calculate_confidence docs1 <= _calculate_confidence docs2)%Q)
  /\ (forall docs, (_calculate_confidence docs <= 1)%Q)
  /\ (forall docs,
        (0 <= average (scores_of docs))%Q ->
        (0 <= _calculate_confidence docs)%Q)
  /\ (forall docs,
        Forall (fun doc => (0 <= Chunk.similarity_score doc)%Q) docs ->
        (0 <= _calculate_confidence docs)%Q)
  /\ _calculate_confidence [] = (1 # 2)%Q.
Proof.
  assert (forall docs,
            (0 <= average (scores_of docs))%Q ->
            (0 <= _calculate_confidence docs)%Q) as Hpos.
  { intros [|d docs] H; [done|]. rewrite calculate_confidence_cons.
    apply Q.min_glb; [|done]. apply round_nonneg.
    pose proof (relevance_bonus_nonneg (scores_of (d :: docs))). lra. }
  split; [|split; [|split; [|split]]].
  - intros [|d1 docs1] [|d2 docs2] H1 H2 Havg Hcount; try done.
    rewrite !calculate_confidence_cons. apply Q.min_le_compat_r, round_mono.
    pose proof (relevance_bonus_mono _ _ Hcount). lra.
  - intros [|d docs]; [done|]. rewrite calculate_confidence_cons. apply Q.le_min_r.
  - exact Hpos.
  - intros docs H. apply Hpos, average_nonneg. unfold scores_of.
    by apply Forall_fmap.
  - reflexivity.
Qed.

Lemma confidence_witness :
  (_calculate_confidence Sample.even_chunks
   <= _calculate_confidence Sample.uneven_chunks)%Q
  /\ (0 <= _calculate_confidence Sample.uneven_chunks)%Q.
Proof.
  destruct confidence_monotone_and_bounded_above as (Hmono & _ & _ & Hpos & _).
  split.
  - apply Hmono.
    + discriminate.
    + discriminate.
    + vm_compute. reflexivity.
    + vm_compute. lia.
  - apply Hpos. repeat constructor; vm_compute; discriminate.
Defined.

(** The rounding is that of the code: three chunks scoring [0.7] get the
    confidence 0.6999999999999998, one chunk scoring [0.7] gets [0.7]. *)
Lemma confidence_rounds_as_the_code_does :
  let score := PyFloat.round (7 # 10) in
  let one := [Sample.chunk_of 1 "a" score] in
  let three :=
    [Sample.chunk_of 1 "a" score; Sample.chunk_of 2 "b" score;
     Sample.chunk_of 3 "c" score] in
  (score == 3152519739159347 # 4503599627370496)%Q
  /\ (_calculate_confidence one == score)%Q
  /\ (_calculate_confidence three == 6305039478318693 # 9007199254740992)%Q.
Proof. vm_compute. by repeat split. Qed.

(** C5, as stated, fails.  One chunk of negative similarity gives a
    negative confidence.  And the average that is held constant has to be
    the one the code computes: three chunks scoring [0.7] and one chunk
    scoring [0.7] have the same exact average and the same number of
    chunks above the threshold (none), the code computes different
    averages for them, and the confidence of the three is below that of
    the one. *)
Lemma confidence_unclamped_below_and_rounded :
  ~ (0 <= _calculate_confidence [Sample.chunk_of 1 "unrelated text" (-1 # 2)] <= 1)%Q
  /\ (let score := PyFloat.round (7 # 10) in
      let one := [Sample.chunk_of 1 "a" score] in
      let three :=
        [Sample.chunk_of 1 "a" score; Sample.chunk_of 2 "b" score;
         Sample.chunk_of 3 "c" score] in
      ((score + score + score) / 3 == score / 1)%Q
      /\ count_relevant (scores_of one) = count_relevant (scores_of three)
      /\ ~ (average (scores_of three) == average (scores_of one))%Q
      /\ ~ (_calculate_confidence one <= _calculate_confidence three)%Q).
Proof.
  split.
  - intros [H _]. vm_compute in H. by apply H.
  - vm_compute. repeat split; [discriminate|]. intros H. by apply H.
Qed.

(** ** The inference client *)

Section InferenceProperties.

Variable settings : Settings.t.
Variable clock : nat -> Z.
Variable chat_completion : nat -> string -> Reply.
Variable md5_hexdigest : string -> string.

(** What [generate_answer] returns, by the way [_call_hf_api] ends. *)
Lemma generate_answer_run (query : string) (docs : list Chunk.t) (w : World) :
  AIService._mock_mode (service w) = false ->
  generate_answer settings clock chat_completion md5_hexdigest query docs w
  = match _call_hf_api settings clock chat_completion md5_hexdigest
            (build_prompt settings query docs) w with
    | (Return response_text, w') =>
        (Return {| Answer.answer := PyStr.strip response_text;
                   Answer.citations := _extract_citations settings response_text docs;
                   Answer.confidence_score := _calculate_confidence docs;
                   Answer.model_used := AIService.model_name (service w');
                   Answer.context_docs_used := Some (Z.of_nat (length docs));
                   Answer.cached := Some false;
                   Answer.error := None;
                   Answer.mock_mode := None |}, w')
    | (Raise (RateLimitError m), w') =>
        (Return {| Answer.answer :=
                     "The AI service is currently experiencing high demand. Please try again in a moment.";
                   Answer.citations := [];
                   Answer.confidence_score := 0%Q;
                   Answer.model_used := AIService.model_name (service w');
                   Answer.context_docs_used := None;
                   Answer.cached := None;
                   Answer.error := Some (StrOf (RateLimitError m));
                   Answer.mock_mode := None |}, w')
    | (Raise (HFInferenceError m), w') =>
        if any_content docs then
          (Return {| Answer.answer := _generate_context_fallback query docs;
                     Answer.citations :=
                       _extract_citations settings
                         (_generate_context_fallback query docs) docs;
                     Answer.confidence_score := (1 # 2)%Q;
                     Answer.model_used := "fallback (HF API unavailable)";
                     Answer.context_docs_used := None;
                     Answer.cached := None;
                     Answer.error :=
                       Some (Note "AI service temporarily unavailable - showing relevant document excerpts");
                     Answer.mock_mode := None |}, w')
        else
          (Return {| Answer.answer :=
                       "The AI service is temporarily unavailable due to network issues. Please try again when your internet connection is restored.";
                     Answer.citations := [];
                     Answer.confidence_score := 0%Q;
                     Answer.model_used := AIService.model_name (service w');
                     Answer.context_docs_used := None;
                     Answer.cached := None;
                     Answer.error := Some (StrOf (HFInferenceError m));
                     Answer.mock_mode := None |}, w')
    | (Raise (IndexError m), w') =>
        (Return (_generate_mock_response (service w') query docs (Some m)), w')
    end.
Proof.
  intros Hm. unfold generate_answer.
  unfold mbind at 1. unfold M_bind at 1. unfold get_service at 1. cbn beta iota.
  rewrite Hm. unfold try_except.
  unfold mbind at 1. unfold M_bind at 1.
  destruct (_call_hf_api _ _ _ _ _ w) as [[text | e] w'].
  - reflexivity.
  - destruct e; try reflexivity.
    destruct (any_content docs); reflexivity.
Qed.

(** *** Citations *)

Lemma extract_citations_filter (response : string) (docs : list Chunk.t) :
  _extract_citations settings response docs
  = citation_of
      <$> List.filter
            (fun doc => Qle_bool (Settings.MIN_SIMILARITY_SCORE settings)
                          (Chunk.similarity_score doc)) docs.
Proof.
  unfold _extract_citations. induction docs as [|d docs IH]; [done|].
  cbn [omap list_omap List.filter].
  destruct (Qle_bool _ _); cbn [fmap list_fmap]; [f_equal|]; exact IH.
Qed.

(** C6, as amended.  The citations are those of the chunks whose
    similarity is at least the minimum similarity, one per chunk and in
    order; a generated answer carries exactly these; of two chunks scoring
    0.9 and 0.4 under a minimum of 0.5, only the first is cited. *)
Theorem citations_at_or_above_threshold (response : string) (docs : list Chunk.t) :
  _extract_citations settings response docs
  = citation_of
      <$> List.filter
            (fun doc => Qle_bool (Settings.MIN_SIMILARITY_SCORE settings)
                          (Chunk.similarity_score doc)) docs
  /\ (forall c,
        c ∈ _extract_citations settings response docs
        <-> exists doc,
              doc ∈ docs
              /\ (Settings.MIN_SIMILARITY_SCORE settings
                  <= Chunk.similarity_score doc)%Q
              /\ c = citation_of doc)
  /\ (forall query w w',
        AIService._mock_mode (service w) = false ->
        _call_hf_api settings clock chat_completion md5_hexdigest
          (build_prompt settings query docs) w = (Return response, w') ->
        exists a,
          generate_answer settings clock chat_completion md5_hexdigest query docs w
          = (Return a, w')
          /\ Answer.citations a = _extract_citations settings response docs)
  /\ (forall high low,
        (Settings.MIN_SIMILARITY_SCORE settings == 1 # 2)%Q ->
        (Chunk.similarity_score high == 9 # 10)%Q ->
        (Chunk.similarity_score low == 4 # 10)%Q ->
        _extract_citations settings response [high; low] = [citation_of high]).
Proof.
  split; [apply extract_citations_filter|]. split; [|split].
  - intros c. rewrite extract_citations_filter, list_elem_of_fmap. split.
    + intros (doc & -> & Hin). apply list_elem_of_In, List.filter_In in Hin as [Hin Hle].
      exists doc. split; [by apply list_elem_of_In|]. split; [|done].
      by apply Qle_bool_iff.
    + intros (doc & Hin & Hle & ->). exists doc. split; [done|].
      apply list_elem_of_In, List.filter_In. split; [by apply list_elem_of_In|].
      by apply Qle_bool_iff.
  - intros query w w' Hm Hcall. rewrite generate_answer_run by done. rewrite Hcall.
    eexists. split; reflexivity.
  - intros high low Ht Hh Hl. rewrite extract_citations_filter. cbn [List.filter].
    assert (Qle_bool (Settings.MIN_SIMILARITY_SCORE settings)
              (Chunk.similarity_score high) = true) as ->.
    { apply Qle_bool_iff. rewrite Ht, Hh. discriminate. }
    assert (Qle_bool (Settings.MIN_SIMILARITY_SCORE settings)
              (Chunk.similarity_score low) = false) as ->.
    { apply not_true_is_false. rewrite Qle_bool_iff, Ht, Hl. intros H. by apply H. }
    reflexivity.
Qed.

(** *** Degraded answers *)

Lemma fallback_answer_excerpts (query : string) (docs : list Chunk.t) :
  fallback_excerpts docs <> [] ->
  _generate_context_fallback query docs
  = fallback_banner +:+ PyStr.join excerpt_separator (fallback_excerpts docs)
    +:+ fallback_footer.
Proof.
  intros H. unfold _generate_context_fallback.
  destruct docs as [|d docs]; [done|].
  by destruct (fallback_excerpts (d :: docs)).
Qed.

Lemma fallback_answer_no_excerpts (query : string) (docs : list Chunk.t) :
  docs <> [] -> fallback_excerpts docs = [] ->
  _generate_context_fallback query docs
  = "I found some documents but couldn't extract readable content. Please try rephrasing your question.".
Proof.
  intros Hd H. unfold _generate_context_fallback.
  destruct docs as [|d docs]; [done|]. by rewrite H.
Qed.

Lemma any_content_nonempty (docs : list Chunk.t) : any_content docs = true -> docs <> [].
Proof. by destruct docs. Qed.

(** C7, as amended.  When the call to the provider ends in the
    inference-unavailable error and some chunk has text, the answer is
    marked as a fallback (model and error note) and has confidence 0.5;
    when one of the first three chunks has text left after stripping, it
    is the service banner followed by the excerpts of these chunks, each
    with its source header and its stripped text cut after 500 characters;
    when no chunk has text, it is the fixed apology without citations. *)
Theorem degraded_answer_when_provider_unavailable
    (query : string) (docs : list Chunk.t) (w w' : World) (message : string) :
  AIService._mock_mode (service w) = false ->
  _call_hf_api settings clock chat_completion md5_hexdigest
    (build_prompt settings query docs) w
  = (Raise (HFInferenceError message), w') ->
  exists a,
    generate_answer settings clock chat_completion md5_hexdigest query docs w
    = (Return a, w')
    /\ if any_content docs then
         Answer.model_used a = "fallback (HF API unavailable)"
         /\ Answer.error a
            = Some (Note "AI service temporarily unavailable - showing relevant document excerpts")
         /\ Answer.confidence_score a = (1 # 2)%Q
         /\ Answer.citations a = _extract_citations settings (Answer.answer a) docs
         /\ (fallback_excerpts docs <> [] ->
             Answer.answer a
             = fallback_banner
               +:+ PyStr.join excerpt_separator (fallback_excerpts docs)
               +:+ fallback_footer
             /\ forall doc stripped,
                  doc ∈ take 3 docs ->
                  stripped = PyStr.strip (Chunk.content doc) ->
                  PyStr.truthy stripped = true ->
                  PyStr.infix
                    (fallback_source (Chunk.metadata doc) +:+ ":" +:+ nl
                     +:+ fallback_content stripped)
                    (Answer.answer a))
         /\ (fallback_excerpts docs = [] ->
             Answer.answer a
             = "I found some documents but couldn't extract readable content. Please try rephrasing your question.")
       else
         Answer.answer a
         = "The AI service is temporarily unavailable due to network issues. Please try again when your internet connection is restored."
         /\ Answer.citations a = []
         /\ Answer.error a = Some (StrOf (HFInferenceError message)).
Proof.
  intros Hm Hcall. rewrite generate_answer_run by done. rewrite Hcall.
  destruct (any_content docs) eqn:Hany; eexists; (split; [reflexivity|]); simpl.
  - repeat split.
    + by apply fallback_answer_excerpts.
    + intros doc stripped Hin -> Ht.
      rewrite fallback_answer_excerpts by done.
      apply infix_app_r, infix_app_l, infix_join.
      unfold fallback_excerpts. apply list_elem_of_omap. exists doc.
      split; [done|]. unfold fallback_excerpt. by rewrite Ht.
    + intros H. apply fallback_answer_no_excerpts; [|done].
      by apply any_content_nonempty.
  - done.
Qed.

End InferenceProperties.

(** *** The rate limiter *)

Section RateLimiter.

Variable settings : Settings.t.
Variable clock : nat -> Z.

Lemma check_rate_limit_run (w : World) :
  _check_rate_limit settings clock w
  = if Settings.RATE_LIMIT_REQUESTS_PER_MINUTE settings
       <=? Z.of_nat (length (window clock w)) then
      (match window clock w with
       | oldest :: _ =>
           Raise (RateLimitError
                    (TryAgainIn (oldest - (clock (ticks w) - 60 * second))))
       | [] => Raise (IndexError "list index out of range")
       end,
       mkWorld (AIService.with_request_timestamps (window clock w) (service w))
         (S (ticks w)) (provider_calls w))
    else
      (Return tt,
       mkWorld
         (AIService.with_request_timestamps (window clock w ++ [clock (ticks w)])
            (service w))
         (S (ticks w)) (provider_calls w)).
Proof.
  unfold _check_rate_limit, window. destruct w as [s t p]. simpl.
  unfold mbind, M_bind, utcnow, get_service, modify_service. simpl.
  destruct (_ <=? _) eqn:E; simpl.
  - destruct (List.filter _ _); reflexivity.
  - destruct s; reflexivity.
Qed.

Hypothesis clock_monotone : forall n, clock n <= clock (S n).

Lemma check_rate_limit_keeps_past (w : World) :
  recorded_in_past clock w ->
  recorded_in_past clock (_check_rate_limit settings clock w).2.
Proof.
  unfold recorded_in_past. intros H. rewrite check_rate_limit_run.
  assert (Forall (fun ts => ts <= clock (S (ticks w))) (window clock w)) as Hw.
  { apply Forall_forall. intros ts Hin. unfold window in Hin.
    apply list_elem_of_In, List.filter_In in Hin as [Hin _].
    apply list_elem_of_In in Hin.
    rewrite Forall_forall in H. specialize (H ts Hin).
    specialize (clock_monotone (ticks w)). lia. }
  destruct (_ <=? _); simpl.
  - destruct (window clock w); simpl; done.
  - apply Forall_app. split; [done|]. apply Forall_singleton. apply clock_monotone.
Qed.

Lemma rate_limit_calls_keep_past (n : nat) (w : World) :
  recorded_in_past clock w ->
  recorded_in_past clock (rate_limit_calls settings clock n w).
Proof.
  revert w. induction n as [|n IH]; intros w H; simpl; [done|].
  apply IH. by apply check_rate_limit_keeps_past.
Qed.

(** X15.  For a configured maximum above 0 and a clock whose readings do
    not decrease, after any number of calls to the rate limiter of a
    service that started with no timestamp: when the one-minute window
    already holds the configured maximum of timestamps, the next call is
    rejected with the rate-limit error, the wait it reports is above 0 and
    at most 60 seconds, and no timestamp is recorded; otherwise the call
    is admitted and records exactly its own timestamp. *)
Theorem rate_limiter_rejects_full_window (n : nat) (w0 : World) :
  0 < Settings.RATE_LIMIT_REQUESTS_PER_MINUTE settings ->
  AIService.request_timestamps (service w0) = [] ->
  let w := rate_limit_calls settings clock n w0 in
  let now := clock (ticks w) in
  (Settings.RATE_LIMIT_REQUESTS_PER_MINUTE settings
   <= Z.of_nat (length (window clock w)) ->
   exists wait_time w',
     _check_rate_limit settings clock w
     = (Raise (RateLimitError (TryAgainIn wait_time)), w')
     /\ 0 < wait_time <= 60 * second
     /\ AIService.request_timestamps (service w') = window clock w)
  /\ (Z.of_nat (length (window clock w))
      < Settings.RATE_LIMIT_REQUESTS_PER_MINUTE settings ->
      exists w',
        _check_rate_limit settings clock w = (Return tt, w')
        /\ AIService.request_timestamps (service w') = window clock w ++ [now]).
Proof.
  intros HK H0 w now.
  assert (recorded_in_past clock w) as Hpast.
  { apply rate_limit_calls_keep_past. unfold recorded_in_past. by rewrite H0. }
  rewrite check_rate_limit_run. fold now. split.
  - intros Hfull. rewrite (proj2 (Z.leb_le _ _) Hfull).
    destruct (window clock w) as [|oldest rest] eqn:Ew; [simpl in Hfull; lia|].
    eexists _, _. split; [reflexivity|]. split; [|done].
    assert (oldest ∈ window clock w) as Hin by (rewrite Ew; set_solver).
    unfold window in Hin. apply list_elem_of_In, List.filter_In in Hin as [Hin Hlt].
    apply Z.ltb_lt in Hlt. apply list_elem_of_In in Hin.
    unfold recorded_in_past in Hpast. rewrite Forall_forall in Hpast.
    specialize (Hpast oldest Hin). fold now in Hlt. lia.
  - intros Hroom. rewrite (proj2 (Z.leb_gt _ _) Hroom).
    eexists. split; reflexivity.
Qed.

End RateLimiter.

(** C8, the failing input.  With the per-minute maximum set to 0 the
    window of a service that has recorded nothing already holds the
    maximum, and the next call is not rejected with the rate-limit error:
    the wait is computed from [request_timestamps[0]] of the empty list,
    which raises [IndexError].  The same happens on every later call. *)
Theorem rate_limit_of_zero_raises_index_error :
  Settings.RATE_LIMIT_REQUESTS_PER_MINUTE Scenario.muted = 0
  /\ forall n,
       let w := rate_limit_calls Scenario.muted Sample.steady_clock n Sample.world in
       Z.of_nat (length (window Sample.steady_clock w))
       = Settings.RATE_LIMIT_REQUESTS_PER_MINUTE Scenario.muted
       /\ (_check_rate_limit Scenario.muted Sample.steady_clock w).1
          = Raise (IndexError "list index out of range")
       /\ forall wait_time,
            (_check_rate_limit Scenario.muted Sample.steady_clock w).1
            <> Raise (RateLimitError (TryAgainIn wait_time)).
Proof.
  split; [reflexivity|]. intros n w.
  assert (forall w0,
            AIService.request_timestamps (service w0) = [] ->
            AIService.request_timestamps
              (service (rate_limit_calls Scenario.muted Sample.steady_clock n w0))
            = []) as Hcalls.
  { induction n as [|n IH]; intros w0 H0; [done|]. simpl. apply IH.
    rewrite check_rate_limit_run. unfold window. rewrite H0. by destruct w0. }
  assert (AIService.request_timestamps (service w) = []) as Hts
    by (by apply Hcalls).
  assert (window Sample.steady_clock w = []) as Ew by (unfold window; by rewrite Hts).
  rewrite check_rate_limit_run, Ew. by repeat split.
Qed.

(** *** The circuit breaker *)

Section BreakerProperties.

Variable settings : Settings.t.
Variable clock : nat -> Z.
Variable chat_completion : nat -> string -> Reply.
Variable md5_hexdigest : string -> string.

Lemma record_failure_run (w : World) :
  record_failure settings clock w
  = (Return tt,
     mkWorld
       (AIService.with_circuit_breaker
          (CircuitBreaker.mk
             (CircuitBreaker.failure_count (breaker w) + 1)
             (Some (clock (ticks w)))
             (if Settings.CIRCUIT_BREAKER_THRESHOLD settings
                 <=? CircuitBreaker.failure_count (breaker w) + 1
              then OPEN else CircuitBreaker.state (breaker w)))
          (service w))
       (S (ticks w)) (provider_calls w)).
Proof. reflexivity. Qed.

Lemma record_success_run (w : World) :
  record_success w
  = (Return tt,
     with_service
       (AIService.with_circuit_breaker
          (CircuitBreaker.mk 0 (CircuitBreaker.last_failure_time (breaker w)) CLOSED))
       w).
Proof. reflexivity. Qed.

Lemma record_failures_count (n : nat) (w : World) :
  CircuitBreaker.failure_count (breaker (record_failures settings clock n w))
  = CircuitBreaker.failure_count (breaker w) + Z.of_nat n.
Proof.
  revert w. induction n as [|n IH]; intros w; [simpl; lia|].
  cbn [record_failures]. rewrite IH, record_failure_run. unfold breaker. simpl. lia.
Qed.

Lemma record_failures_ticks (n : nat) (w : World) :
  ticks (record_failures settings clock n w) = (ticks w + n)%nat.
Proof.
  revert w. induction n as [|n IH]; intros w; [simpl; lia|].
  cbn [record_failures]. rewrite IH, record_failure_run. simpl. lia.
Qed.

Lemma record_failures_S (n : nat) (w : World) :
  record_failures settings clock (S n) w
  = (record_failure settings clock (record_failures settings clock n w)).2.
Proof.
  revert w. induction n as [|n IH]; intros w; [done|].
  change (record_failures settings clock (S (S n)) w)
    with (record_failures settings clock (S n) (record_failure settings clock w).2).
  by rewrite IH.
Qed.

(** X26.  After as many recorded failures in a row as the threshold, the
    circuit is open and the cool-down runs from the last of them. *)
Lemma threshold_failures_open (w : World) :
  1 <= Settings.CIRCUIT_BREAKER_THRESHOLD settings ->
  0 <= CircuitBreaker.failure_count (breaker w) ->
  let n := Z.to_nat (Settings.CIRCUIT_BREAKER_THRESHOLD settings) in
  let w' := record_failures settings clock n w in
  CircuitBreaker.state (breaker w') = OPEN
  /\ CircuitBreaker.last_failure_time (breaker w')
     = Some (clock (ticks w + n - 1)).
Proof.
  intros Ht Hc n.
  destruct n as [|m] eqn:En; [lia|].
  intros w'. subst w'. rewrite record_failures_S, record_failure_run.
  unfold breaker at 1 2. simpl. fold (breaker (record_failures settings clock m w)).
  rewrite record_failures_count, record_failures_ticks. split.
  - destruct (_ <=? _) eqn:E; [done|]. apply Z.leb_gt in E. lia.
  - do 2 f_equal. lia.
Qed.

(** X27.  While the cool-down has not passed, an open circuit rejects the
    call: the provider is not contacted and the service stays as it
    was. *)
Lemma open_circuit_rejects (w : World) (prompt : string) (last : Z) :
  CircuitBreaker.state (breaker w) = OPEN ->
  CircuitBreaker.last_failure_time (breaker w) = Some last ->
  clock (ticks w) - last <= Settings.CIRCUIT_BREAKER_TIMEOUT settings * second ->
  _call_hf_api settings clock chat_completion md5_hexdigest prompt w
  = (Raise (HFInferenceError
              "Circuit breaker is OPEN - service temporarily unavailable"),
     mkWorld (service w) (S (ticks w)) (provider_calls w)).
Proof.
  intros Hs Hl Ht. unfold _call_hf_api, can_execute, breaker in *.
  unfold mbind at 1. unfold M_bind at 1. unfold mbind at 1. unfold M_bind at 1.
  unfold get_service at 1. cbn beta iota. rewrite Hs, Hl.
  unfold mbind at 1. unfold M_bind at 1. unfold utcnow at 1. cbn beta iota.
  destruct (_ <? _) eqn:E; [apply Z.ltb_lt in E; lia|].
  reflexivity.
Qed.

(** X28.  Once the cool-down has passed, the next call moves the circuit
    to half-open and is let through. *)
Lemma cooldown_half_opens (w : World) (last : Z) :
  CircuitBreaker.state (breaker w) = OPEN ->
  CircuitBreaker.last_failure_time (breaker w) = Some last ->
  Settings.CIRCUIT_BREAKER_TIMEOUT settings * second < clock (ticks w) - last ->
  can_execute settings clock w
  = (Return true,
     mkWorld
       (AIService.with_circuit_breaker
          (CircuitBreaker.mk (CircuitBreaker.failure_count (breaker w))
             (Some last) HALF_OPEN)
          (service w))
       (S (ticks w)) (provider_calls w)).
Proof.
  intros Hs Hl Ht. unfold can_execute, breaker in *.
  unfold mbind at 1. unfold M_bind at 1. unfold get_service at 1. cbn beta iota.
  rewrite Hs, Hl.
  unfold mbind at 1. unfold M_bind at 1. unfold utcnow at 1. cbn beta iota.
  destruct (_ <? _) eqn:E; [|apply Z.ltb_ge in E; lia].
  reflexivity.
Qed.

(** In the half-open state the breaker lets every call through and stays
    half-open. *)
Lemma half_open_lets_through (w : World) :
  CircuitBreaker.state (breaker w) = HALF_OPEN ->
  can_execute settings clock w = (Return true, w).
Proof.
  intros Hs. unfold can_execute, breaker in *.
  unfold mbind at 1. unfold M_bind at 1. unfold get_service at 1. cbn beta iota.
  by rewrite Hs.
Qed.

(** X29.  A call made in the half-open state either stops before the
    provider (local rate limit, cache hit) and leaves the breaker as it
    is, or it is the probe: its success closes the circuit and clears the
    counter, its failure opens the circuit again and restarts the
    cool-down. *)
Lemma half_open_probe (w w' : World) (prompt : string) (o : Outcome string) :
  CircuitBreaker.state (breaker w) = HALF_OPEN ->
  Settings.CIRCUIT_BREAKER_THRESHOLD settings
  <= CircuitBreaker.failure_count (breaker w) + 1 ->
  _call_hf_api settings clock chat_completion md5_hexdigest prompt w = (o, w') ->
  (provider_calls w' = provider_calls w /\ breaker w' = breaker w)
  \/ (provider_calls w' = S (provider_calls w)
      /\ ((exists text, o = Return text
                        /\ CircuitBreaker.state (breaker w') = CLOSED
                        /\ CircuitBreaker.failure_count (breaker w') = 0)
          \/ (exists e, o = Raise e
                        /\ CircuitBreaker.state (breaker w') = OPEN
                        /\ CircuitBreaker.last_failure_time (breaker w')
                           = Some (clock (ticks w + 2))))).
Proof.
  intros Hs Ht. unfold _call_hf_api.
  unfold mbind at 1. unfold M_bind at 1. rewrite half_open_lets_through by done.
  cbn beta iota. cbn [negb].
  cbv [mbind M_bind _check_rate_limit utcnow get_service modify_service
       cache_lookup cache_store call_provider record_success record_failure
       mret M_ret raise with_service service ticks provider_calls].
  destruct (Settings.RATE_LIMIT_REQUESTS_PER_MINUTE settings <=? _).
  { destruct (List.filter _ _); intros [= <- <-]; left; split; reflexivity. }
  destruct (TTLCache.lookup _ _ _).
  { intros [= <- <-]. left; split; reflexivity. }
  destruct (chat_completion _ _) as [text | error_msg].
  - intros [= <- <-]. right. split; [reflexivity|]. left. exists text. repeat split.
  - unfold breaker in *. destruct w as [s t p]. cbn [service ticks provider_calls] in *.
    destruct s as [mn cb rc ts mm]. cbn in Hs, Ht |- *.
    destruct (_ <=? _) eqn:E; [|apply Z.leb_gt in E; lia].
    destruct (_ || _); intros [= <- <-]; right; (split; [reflexivity|]); right;
      eexists; (split; [reflexivity|]); cbn; (split; [reflexivity|]);
      do 2 f_equal; lia.
Qed.

(** X30.  Every call of [_call_hf_api], however it ends, keeps the breaker
    consistent: a circuit that is not closed has counted at least the
    threshold of failures, so the failure of a probe always re-opens the
    circuit. *)
Lemma call_hf_api_keeps_consistent
    (w w' : World) (prompt : string) (o : Outcome string) :
  breaker_consistent settings w ->
  _call_hf_api settings clock chat_completion md5_hexdigest prompt w = (o, w') ->
  breaker_consistent settings w'.
Proof.
  unfold breaker_consistent, breaker. destruct w as [s t p].
  destruct s as [mn [fc lf st] rc ts mm]. cbn [service AIService.circuit_breaker
    CircuitBreaker.state CircuitBreaker.failure_count].
  intros Hc. unfold _call_hf_api, can_execute.
  cbv [mbind M_bind _check_rate_limit utcnow get_service modify_service
       cache_lookup cache_store call_provider record_success record_failure
       mret M_ret raise with_service service ticks provider_calls
       AIService.circuit_breaker CircuitBreaker.state
       CircuitBreaker.last_failure_time CircuitBreaker.failure_count
       AIService.with_circuit_breaker AIService.with_request_timestamps
       AIService.with_response_cache AIService.request_timestamps
       AIService.response_cache AIService.model_name AIService._mock_mode negb].
  destruct st.
  - (* closed *)
    destruct (Settings.RATE_LIMIT_REQUESTS_PER_MINUTE settings <=? _).
    { destruct (List.filter _ _); intros [= <- <-]; cbn; done. }
    destruct (TTLCache.lookup _ _ _); [intros [= <- <-]; cbn; done|].
    destruct (chat_completion _ _); [intros [= <- <-]; cbn; done|].
    destruct (_ <=? _) eqn:E; destruct (_ || _); intros [= <- <-]; cbn;
      try done; intros _; apply Z.leb_le in E; lia.
  - (* open *)
    specialize (Hc ltac:(done)).
    destruct lf as [last|]; [|intros [= <- <-]; cbn; intros _; lia].
    destruct (_ <? _); [|intros [= <- <-]; cbn; intros _; lia].
    destruct (Settings.RATE_LIMIT_REQUESTS_PER_MINUTE settings <=? _).
    { destruct (List.filter _ _); intros [= <- <-]; cbn; intros _; lia. }
    destruct (TTLCache.lookup _ _ _); [intros [= <- <-]; cbn; intros _; lia|].
    destruct (chat_completion _ _); [intros [= <- <-]; cbn; done|].
    destruct (_ <=? _) eqn:E; destruct (_ || _); intros [= <- <-]; cbn;
      intros _; lia.
  - (* half-open *)
    specialize (Hc ltac:(done)).
    destruct (Settings.RATE_LIMIT_REQUESTS_PER_MINUTE settings <=? _).
    { destruct (List.filter _ _); intros [= <- <-]; cbn; intros _; lia. }
    destruct (TTLCache.lookup _ _ _); [intros [= <- <-]; cbn; intros _; lia|].
    destruct (chat_completion _ _); [intros [= <- <-]; cbn; done|].
    destruct (_ <=? _) eqn:E; destruct (_ || _); intros [= <- <-]; cbn;
      intros _; lia.
Qed.

End BreakerProperties.


(** ** Instances and counterexamples *)

(** C6, as stated, fails: a chunk whose score equals the minimum
    similarity is not above it, yet it is cited. *)
Lemma citation_at_threshold_is_cited :
  ~ (Settings.MIN_SIMILARITY_SCORE Settings.defaults
     < Chunk.similarity_score Sample.threshold_chunk)%Q
  /\ _extract_citations Settings.defaults "Twenty days." [Sample.threshold_chunk]
     = [citation_of Sample.threshold_chunk].
Proof. split; [intros H; vm_compute in H; discriminate | reflexivity]. Qed.

Lemma citations_witness :
  _extract_citations Settings.defaults "Twenty days." Sample.two_chunks
  = [citation_of (Sample.chunk_of 1 "Leave is twenty days a year." (9 # 10))]
  /\ (exists a,
        generate_answer Settings.defaults Sample.clock Sample.answering
          Sample.md5_hexdigest Sample.known Sample.two_chunks Sample.world
        = (Return a,
           (_call_hf_api Settings.defaults Sample.clock Sample.answering
              Sample.md5_hexdigest
              (build_prompt Settings.defaults Sample.known Sample.two_chunks)
              Sample.world).2)
        /\ Answer.citations a
           = _extract_citations Settings.defaults "Twenty days." Sample.two_chunks).
Proof.
  split.
  - apply (citations_at_or_above_threshold Settings.defaults Sample.clock
             Sample.answering Sample.md5_hexdigest "Twenty days."
             Sample.two_chunks); reflexivity.
  - apply (citations_at_or_above_threshold Settings.defaults Sample.clock
             Sample.answering Sample.md5_hexdigest "Twenty days."
             Sample.two_chunks);
      [reflexivity | vm_compute; reflexivity].
Defined.

(** C7, as stated, fails: with four retrieved chunks and the provider
    unreachable, the fallback answer shows the first three only; the text
    of the fourth is not in it. *)
Lemma fallback_omits_fourth_chunk :
  any_content Sample.four_chunks = true
  /\ match generate_answer Settings.defaults Sample.clock Sample.unreachable
             Sample.md5_hexdigest Sample.known Sample.four_chunks Sample.world with
     | (Return a, _) =>
         Answer.model_used a = "fallback (HF API unavailable)"
         /\ PyStr.infix "gamma" (Answer.answer a)
         /\ ~ PyStr.infix "delta" (Answer.answer a)
     | (Raise _, _) => False
     end.
Proof.
  split; [reflexivity|].
  destruct (generate_answer _ _ _ _ _ _ _) as [[a | e] w'] eqn:E;
    vm_compute in E; [|discriminate].
  injection E as <- _. split; [reflexivity|]. split.
  - apply contains_infix. vm_compute. reflexivity.
  - intros H%contains_infix. vm_compute in H. discriminate.
Qed.

Lemma degraded_answer_witness :
  exists a,
    generate_answer Settings.defaults Sample.clock Sample.unreachable
      Sample.md5_hexdigest Sample.known Sample.two_chunks Sample.world
    = (Return a,
       (_call_hf_api Settings.defaults Sample.clock Sample.unreachable
          Sample.md5_hexdigest
          (build_prompt Settings.defaults Sample.known Sample.two_chunks)
          Sample.world).2)
    /\ Answer.model_used a = "fallback (HF API unavailable)"
    /\ Answer.confidence_score a = (1 # 2)%Q
    /\ PyStr.infix
         ("[handbook.pdf, Page 1]:" +:+ nl +:+ "Leave is twenty days a year.")
         (Answer.answer a)
    /\ PyStr.infix
         ("[handbook.pdf, Page 2]:" +:+ nl +:+ "Parking is behind the building.")
         (Answer.answer a).
Proof.
  destruct (degraded_answer_when_provider_unavailable Settings.defaults
              Sample.clock Sample.unreachable Sample.md5_hexdigest
              Sample.known Sample.two_chunks Sample.world
              (_call_hf_api Settings.defaults Sample.clock Sample.unreachable
                 Sample.md5_hexdigest
                 (build_prompt Settings.defaults Sample.known Sample.two_chunks)
                 Sample.world).2
              "HF API error: Connection refused")
    as (a & Hrun & Hprops).
  - reflexivity.
  - vm_compute. reflexivity.
  - exists a. split; [exact Hrun|].
    change (any_content Sample.two_chunks) with true in Hprops.
    destruct Hprops as (Hmodel & _ & Hconf & _ & Hexcerpts & _).
    split; [exact Hmodel|]. split; [exact Hconf|].
    destruct Hexcerpts as [_ Hin]; [discriminate|].
    split.
    + apply (Hin (Sample.chunk_of 1 "Leave is twenty days a year." (9 # 10))
               "Leave is twenty days a year.").
      * apply list_elem_of_here.
      * reflexivity.
      * reflexivity.
    + apply (Hin (Sample.chunk_of 2 "Parking is behind the building." (4 # 10))
               "Parking is behind the building.").
      * apply list_elem_of_further, list_elem_of_here.
      * reflexivity.
      * reflexivity.
Defined.

Lemma steady_clock_monotone (n : nat) : Sample.steady_clock n <= Sample.steady_clock (S n).
Proof. unfold Sample.steady_clock, second. lia. Qed.

Lemma rate_limiter_witness :
  (exists wait_time w',
     _check_rate_limit Settings.defaults Sample.steady_clock
       (rate_limit_calls Settings.defaults Sample.steady_clock 30 Sample.world)
     = (Raise (RateLimitError (TryAgainIn wait_time)), w')
     /\ 0 < wait_time <= 60 * second
     /\ length (AIService.request_timestamps (service w')) = 30%nat)
  /\ (exists w',
        _check_rate_limit Settings.defaults Sample.steady_clock
          (rate_limit_calls Settings.defaults Sample.steady_clock 29 Sample.world)
        = (Return tt, w')
        /\ length (AIService.request_timestamps (service w')) = 30%nat).
Proof.
  split.
  - destruct (rate_limiter_rejects_full_window Settings.defaults Sample.steady_clock
                steady_clock_monotone 30 Sample.world) as [Hfull _].
    + vm_compute. reflexivity.
    + reflexivity.
    + destruct Hfull as (wait_time & w' & Hrun & Hwait & Hts).
      * vm_compute. discriminate.
      * exists wait_time, w'. split; [exact Hrun|]. split; [exact Hwait|].
        rewrite Hts. vm_compute. reflexivity.
  - destruct (rate_limiter_rejects_full_window Settings.defaults Sample.steady_clock
                steady_clock_monotone 29 Sample.world) as [_ Hroom].
    + vm_compute. reflexivity.
    + reflexivity.
    + destruct Hroom as (w' & Hrun & Hts).
      * vm_compute. reflexivity.
      * exists w'. split; [exact Hrun|]. rewrite Hts. vm_compute. reflexivity.
Defined.

(** * Further properties *)

(** ** Project access and the accessible list *)

Lemma not_admin_not_super_admin (user : User.t) :
  is_admin user = false -> is_super_admin user = false.
Proof.
  intros Ha. destruct (is_super_admin user) eqn:Es; [|done].
  apply super_admin_is_admin in Es. congruence.
Qed.

Lemma is_member_true (db : Session) (user : User.t) (pid : Z) :
  is_member db user pid = true
  <-> exists r, user_projects db !! (User.id user, pid) = Some r.
Proof. unfold is_member. by rewrite bool_decide_eq_true. Qed.

(** Whoever passes the check that requires project-admin rights passes the
    plain check. *)
Lemma check_project_access_weaken (pid : Z) (user : User.t) (db : Session) :
  check_project_access pid user db true = true ->
  check_project_access pid user db false = true.
Proof.
  unfold check_project_access.
  destruct (is_super_admin user); [done|].
  destruct (is_admin user); [done|]. simpl.
  destruct (projects db !! pid) as [p|]; [|done].
  destruct (Project.created_by_id p =? User.id user); [done|].
  destruct (is_member db user pid); [done|].
  by destruct (Project.is_private p).
Qed.

(** X1.  The list [get_accessible_project_ids] returns has no duplicates,
    and it holds exactly the active projects for which
    [check_project_access] grants plain (view) access. *)
Theorem accessible_projects_are_the_active_viewable_ones
    (user : User.t) (db : Session) :
  NoDup (get_accessible_project_ids user db)
  /\ forall pid,
       pid ∈ get_accessible_project_ids user db
       <-> exists p, projects db !! pid = Some p
                     /\ Project.is_active p = true
                     /\ check_project_access pid user db false = true.
Proof.
  split.
  - unfold get_accessible_project_ids, query_project_ids.
    destruct (is_super_admin user || is_admin user).
    + apply NoDup_fst_map_to_list.
    + apply NoDup_elements.
  - intros pid. rewrite elem_of_accessible_project_ids.
    split; intros (p & Hp & Hact & H); exists p; (split; [done|]); (split; [done|]).
    + unfold check_project_access. rewrite Hp.
      destruct (is_super_admin user); [done|].
      destruct H as [-> | [Hm | [Hc | Hpub]]]; [done | | |];
        destruct (is_admin user); simpl; try done.
      * rewrite Hm. by destruct (_ =? _).
      * by rewrite (proj2 (Z.eqb_eq _ _) Hc).
      * rewrite Hpub. destruct (_ =? _); [done|]. by destruct (is_member _ _ _).
    + revert H. unfold check_project_access. rewrite Hp.
      destruct (is_super_admin user) eqn:Es.
      { intros _. left. by apply super_admin_is_admin. }
      destruct (is_admin user); [by left|]. simpl.
      destruct (Z.eqb_spec (Project.created_by_id p) (User.id user)); [auto|].
      destruct (is_member db user pid); [auto|].
      destruct (Project.is_private p); [done|auto].
Qed.

(** X2.  Project-admin rights ([require_admin=True]) are held by a super
    admin, by the creator of the project and by a member whose role in the
    project is [admin], and by nobody else: a system admin has them only in
    one of these ways.  Whoever holds them passes the plain check too. *)
Theorem project_admin_rights (pid : Z) (user : User.t) (db : Session) :
  (check_project_access pid user db true = true
   <-> is_super_admin user = true
       \/ exists p, projects db !! pid = Some p
                    /\ (Project.created_by_id p = User.id user
                        \/ user_projects db !! (User.id user, pid) = Some "admin"))
  /\ (check_project_access pid user db true = true ->
      check_project_access pid user db false = true).
Proof.
  split; [|apply check_project_access_weaken].
  unfold check_project_access.
  destruct (is_super_admin user); [by split; auto|].
  rewrite andb_false_r.
  destruct (projects db !! pid) as [p|]; [|split; [done|]; by intros [? | (? & ? & _)]].
  destruct (Z.eqb_spec (Project.created_by_id p) (User.id user)) as [Hc | Hc].
  { split; [|done]. intros _. right. exists p. auto. }
  unfold is_member.
  destruct (user_projects db !! (User.id user, pid)) as [r|] eqn:Er.
  - rewrite bool_decide_eq_true_2 by eauto.
    split.
    + intros H%String.eqb_eq. subst r. right. exists p. auto.
    + intros [? | (p' & [= <-] & [? | [= ->]])]; done.
  - rewrite bool_decide_eq_false_2 by (intros [? ?]; done).
    split.
    + by destruct (Project.is_private p).
    + intros [? | (p' & [= <-] & [? | ?])]; done.
Qed.

(** ** Document access, continued *)

(** X3.  Whoever [check_document_access] lets delete a document,
    [can_delete_document] lets delete it too. *)
Theorem delete_access_implies_can_delete
    (document_id : Z) (user : User.t) (db : Session) :
  check_document_access document_id user db "delete" = true ->
  can_delete_document document_id user db = true.
Proof.
  unfold check_document_access, can_delete_document.
  destruct (is_super_admin user); [done|].
  destruct (documents db !! document_id) as [document|]; [|done].
  destruct (Document.uploaded_by_id document =? User.id user); [done|].
  destruct (is_admin user); [done|]. simpl.
  destruct (String.eqb (Document.access_scope document) "organization"); [done|].
  destruct (String.eqb (Document.access_scope document) "project").
  - destruct (check_project_access _ _ _ false); [|done]. simpl.
    by destruct (check_project_access _ _ _ true).
  - by destruct (String.eqb _ _).
Qed.

Lemma delete_access_witness :
  can_delete_document 11 Scenario.deputy Scenario.db = true.
Proof.
  apply (delete_access_implies_can_delete 11 Scenario.deputy Scenario.db).
  vm_compute. reflexivity.
Defined.

(** X4.  The two deletion checks disagree on personal documents: an admin
    who is not the uploader passes [can_delete_document], while
    [check_document_access] refuses the same admin every action on the
    document, [delete] included. *)
Theorem admin_can_delete_personal_document_it_cannot_view
    (document_id : Z) (user : User.t) (db : Session) (document : Document.t) :
  get_user_role user = ADMIN ->
  documents db !! document_id = Some document ->
  Document.access_scope document = Enum.scope_value PERSONAL ->
  Document.uploaded_by_id document <> User.id user ->
  can_delete_document document_id user db = true
  /\ forall action, check_document_access document_id user db action = false.
Proof.
  intros Hr Hd Hs Hne. split.
  - unfold can_delete_document, is_super_admin, is_admin. rewrite Hr, Hd.
    rewrite bool_decide_eq_false_2 by done.
    by destruct (_ =? _).
  - intros action. rewrite (check_document_access_personal _ _ _ _ _ Hd Hs).
    unfold is_super_admin. rewrite Hr. simpl. by apply Z.eqb_neq.
Qed.

Lemma admin_can_delete_personal_witness :
  can_delete_document 13 Scenario.sysadmin Scenario.db = true
  /\ forall action, check_document_access 13 Scenario.sysadmin Scenario.db action = false.
Proof.
  apply (admin_can_delete_personal_document_it_cannot_view
           13 Scenario.sysadmin Scenario.db (Document.mk (Enum.scope_value PERSONAL) 1 5)).
  - reflexivity.
  - reflexivity.
  - reflexivity.
  - simpl. lia.
Defined.

(** X5.  An organization-scope document is read-only for everybody but its
    uploader and the admin tier: such a user is granted [view] and no
    other action. *)
Theorem organization_document_is_view_only
    (document_id : Z) (user : User.t) (db : Session) (document : Document.t)
    (action : string) :
  is_admin user = false ->
  documents db !! document_id = Some document ->
  Document.access_scope document = Enum.scope_value ORGANIZATION ->
  Document.uploaded_by_id document <> User.id user ->
  check_document_access document_id user db action = true <-> action = "view".
Proof.
  intros Ha Hd Hs Hne. unfold check_document_access.
  rewrite (not_admin_not_super_admin _ Ha), Hd, Ha, Hs.
  rewrite (proj2 (Z.eqb_neq _ _) Hne). simpl.
  rewrite bool_decide_eq_true. apply list_elem_of_singleton.
Qed.

Lemma organization_document_witness :
  check_document_access 12 Scenario.member Scenario.db "view" = true
  /\ check_document_access 12 Scenario.member Scenario.db "edit" <> true.
Proof.
  split.
  - apply (organization_document_is_view_only 12 Scenario.member Scenario.db
             (Document.mk (Enum.scope_value ORGANIZATION) 2 9) "view");
      [reflexivity | reflexivity | reflexivity | simpl; lia | reflexivity].
  - destruct (organization_document_is_view_only 12 Scenario.member Scenario.db
                (Document.mk (Enum.scope_value ORGANIZATION) 2 9) "edit")
      as [Hview _]; [reflexivity | reflexivity | reflexivity | simpl; lia |].
    intros H. specialize (Hview H). discriminate.
Defined.

(** X6.  For a project-scope document, a user who is neither its uploader
    nor in the admin tier has exactly the rights held in the document's
    project: [edit] and [delete] need project-admin rights, every other
    action (also an unknown one) needs plain project access. *)
Theorem project_document_access_follows_project_access
    (document_id : Z) (user : User.t) (db : Session) (document : Document.t)
    (action : string) :
  is_admin user = false ->
  documents db !! document_id = Some document ->
  Document.access_scope document = Enum.scope_value PROJECT ->
  Document.uploaded_by_id document <> User.id user ->
  check_document_access document_id user db action
  = check_project_access (Document.project_id document) user db
      (bool_decide (action ∈ ["edit"; "delete"])).
Proof.
  intros Ha Hd Hs Hne. unfold check_document_access.
  rewrite (not_admin_not_super_admin _ Ha), Hd, Ha, Hs.
  rewrite (proj2 (Z.eqb_neq _ _) Hne). simpl.
  pose proof (check_project_access_weaken (Document.project_id document) user db) as Hw.
  destruct (bool_decide (action ∈ ["edit"; "delete"]));
    destruct (check_project_access _ _ _ false);
    destruct (check_project_access _ _ _ true); simpl; try done.
  by specialize (Hw eq_refl).
Qed.

Lemma project_document_witness :
  check_document_access 11 Scenario.member Scenario.db "view" = true
  /\ check_document_access 11 Scenario.member Scenario.db "delete" = false
  /\ check_document_access 11 Scenario.deputy Scenario.db "delete" = true.
Proof.
  split; [|split].
  - rewrite (project_document_access_follows_project_access 11 Scenario.member
               Scenario.db (Document.mk (Enum.scope_value PROJECT) 1 6) "view");
      [reflexivity | reflexivity | reflexivity | reflexivity | simpl; lia].
  - rewrite (project_document_access_follows_project_access 11 Scenario.member
               Scenario.db (Document.mk (Enum.scope_value PROJECT) 1 6) "delete");
      [reflexivity | reflexivity | reflexivity | reflexivity | simpl; lia].
  - rewrite (project_document_access_follows_project_access 11 Scenario.deputy
               Scenario.db (Document.mk (Enum.scope_value PROJECT) 1 6) "delete");
      [reflexivity | reflexivity | reflexivity | reflexivity | simpl; lia].
Defined.

(** ** Permission checkers *)

Lemma all_permission_super_admin (user : User.t) :
  bool_decide ("all" ∈ get_user_permissions user) = is_super_admin user.
Proof.
  unfold get_user_permissions, is_super_admin.
  destruct (get_user_role user); vm_compute; reflexivity.
Qed.

(** X7.  A permission checker lets a user whom [get_current_user] has
    authenticated pass exactly when the user is a super admin or holds one
    of the required permissions; every other authenticated user gets the
    403.  With no required permission only a super admin passes. *)
Theorem permission_checker_admits_holders
    (required_permissions : list string) (user : User.t) :
  (PermissionChecker required_permissions user = inr user
   <-> is_super_admin user = true
       \/ exists perm, perm ∈ required_permissions /\ has_permission user perm = true)
  /\ (PermissionChecker required_permissions user <> inr user ->
      PermissionChecker required_permissions user
      = inl (mkHTTPException 403 "Not enough permissions")).
Proof.
  unfold PermissionChecker, has_permission.
  rewrite all_permission_super_admin.
  destruct (is_super_admin user); [split; [split; auto | done]|].
  destruct (existsb _ required_permissions) eqn:E; simpl.
  - split; [|done]. split; [|done]. intros _. right.
    apply existsb_exists in E as (perm & Hin & Hp).
    exists perm. split; [by apply list_elem_of_In | done].
  - split; [|done]. split; [done|].
    intros [? | (perm & Hin & Hp)]; [done|].
    assert (existsb (fun perm => bool_decide (perm ∈ get_user_permissions user))
              required_permissions = true) as E'.
    { apply existsb_exists. exists perm. split; [by apply list_elem_of_In | done]. }
    congruence.
Qed.

(** X8.  Chat is open to every authenticated user: whatever the role, also
    with no role or an unknown role name, [require_chat_access] returns
    the user. *)
Theorem chat_access_is_open_to_every_user (user : User.t) :
  require_chat_access user = inr user.
Proof.
  unfold require_chat_access, PermissionChecker, get_user_permissions.
  destruct (get_user_role user); vm_compute; reflexivity.
Qed.

(** X9.  Among the users [get_current_user] has authenticated, the
    checkers for user management, project management, the admin panel and
    the audit log admit exactly the admin tier (the users for whom
    [is_admin] holds) and give the others the 403; uploading is refused to
    guests only. *)
Theorem admin_checkers_admit_the_admin_tier (user : User.t) :
  Forall
    (fun checker : User.t -> HTTPException + User.t =>
       (checker user = inr user <-> is_admin user = true)
       /\ (is_admin user = false ->
           checker user = inl (mkHTTPException 403 "Not enough permissions")))
    [require_manage_users; require_manage_projects;
     require_admin_access; require_audit_access]
  /\ (require_upload_documents user = inr user <-> get_user_role user <> GUEST).
Proof.
  unfold require_manage_users, require_manage_projects, require_admin_access,
    require_audit_access, require_upload_documents, PermissionChecker,
    get_user_permissions, is_admin.
  split.
  - repeat apply Forall_cons_2; [.. | apply Forall_nil_2];
      destruct (get_user_role user); vm_compute; (split; [split|]); congruence.
  - destruct (get_user_role user); vm_compute; split; congruence.
Qed.

(** ** The document filter and the RBAC context *)

(** X10.  [get_document_filter_for_user] raises exactly when the user is
    below the admin tier and the context [get_rbac_context] builds for the
    same request reports no access to the project; what it raises is the
    403, and a project id of 0 counts as no project. *)
Theorem document_filter_raises_iff_context_denies
    (user : User.t) (db : Session) (project_id : option Z) :
  (get_document_filter_for_user user db project_id
   = inl (mkHTTPException 403 "No access to this project")
   <-> is_admin user = false
       /\ has_project_access (get_rbac_context user db project_id) = Some false)
  /\ (forall e, get_document_filter_for_user user db project_id = inl e ->
                e = mkHTTPException 403 "No access to this project")
  /\ (project_id = Some 0 ->
      get_document_filter_for_user user db project_id
      = get_document_filter_for_user user db None).
Proof.
  unfold get_document_filter_for_user, get_rbac_context. cbn [has_project_access].
  pose proof (super_admin_is_admin user) as Hsa.
  split; [|split].
  - destruct (is_super_admin user).
    { rewrite Hsa by done. split; [done|]. by intros [? _]. }
    destruct (is_admin user); [split; [done|]; by intros [? _]|].
    destruct (truthy_id project_id) as [p|]; [|split; [done|]; by intros [_ ?]].
    destruct (bool_decide (p ∈ get_accessible_project_ids user db)); simpl.
    + split; [done|]. by intros [_ ?].
    + done.
  - intros e. destruct (is_super_admin user); [done|].
    destruct (is_admin user); [done|].
    destruct (truthy_id project_id) as [p|]; [|done].
    destruct (bool_decide _); simpl; [done|]. by intros [= <-].
  - by intros ->.
Qed.

(** ** Retrieval, continued *)

Lemma elem_of_insert_by_score {A} (score : A -> Q) (x y : A) (l : list A) :
  y ∈ insert_by_score score x l <-> y = x \/ y ∈ l.
Proof.
  induction l as [|z l IH]; simpl.
  - rewrite list_elem_of_singleton, elem_of_nil. tauto.
  - destruct (Qle_bool (score z) (score x)).
    + by rewrite elem_of_cons.
    + rewrite !elem_of_cons, IH. tauto.
Qed.

Lemma elem_of_sort_by_score_desc {A} (score : A -> Q) (y : A) (l : list A) :
  y ∈ sort_by_score_desc score l <-> y ∈ l.
Proof.
  unfold sort_by_score_desc. induction l as [|x l IH]; simpl; [done|].
  by rewrite elem_of_insert_by_score, elem_of_cons, IH.
Qed.

Lemma insert_by_score_sorted {A} (score : A -> Q) (x : A) (l : list A) :
  StronglySorted (fun a b => (score b <= score a)%Q) l ->
  StronglySorted (fun a b => (score b <= score a)%Q) (insert_by_score score x l).
Proof.
  induction 1 as [|y l Hs IH Hy]; simpl.
  - repeat constructor.
  - destruct (Qle_bool (score y) (score x)) eqn:E.
    + apply Qle_bool_iff in E. constructor; [by constructor|].
      constructor; [done|]. eapply Forall_impl; [exact Hy|].
      intros z Hz. simpl in Hz. by eapply Qle_trans.
    + constructor; [done|]. apply Forall_forall.
      intros z [-> | Hz]%elem_of_insert_by_score.
      * apply Qlt_le_weak, Qnot_le_lt. rewrite <- Qle_bool_iff. congruence.
      * rewrite Forall_forall in Hy. by apply Hy.
Qed.

Lemma sort_by_score_desc_sorted {A} (score : A -> Q) (l : list A) :
  StronglySorted (fun a b => (score b <= score a)%Q) (sort_by_score_desc score l).
Proof.
  unfold sort_by_score_desc. induction l as [|x l IH]; simpl; [constructor|].
  by apply insert_by_score_sorted.
Qed.

Lemma slice_to_take {A} (n : Z) (l : list A) : exists k, slice_to n l = take k l.
Proof. unfold slice_to. destruct (0 <=? n); eauto. Qed.

Lemma elem_of_slice_to {A} (n : Z) (x : A) (l : list A) : x ∈ slice_to n l -> x ∈ l.
Proof. destruct (slice_to_take n l) as [k ->]. apply subseteq_take. Qed.

Lemma slice_to_sorted {A} (R : relation A) (n : Z) (l : list A) :
  StronglySorted R l -> StronglySorted R (slice_to n l).
Proof.
  destruct (slice_to_take n l) as [k ->]. intros H.
  rewrite <- (take_drop k l) in H. by apply StronglySorted_app_1_l in H.
Qed.

Lemma length_slice_to {A} (n : Z) (l : list A) :
  0 <= n -> Z.of_nat (length (slice_to n l)) <= n.
Proof.
  intros Hn. unfold slice_to. rewrite (proj2 (Z.leb_le _ _) Hn).
  rewrite length_take. lia.
Qed.

(** Where the chunks of a mock search come from. *)
Lemma elem_of_mock_search_results
    (_cosine_similarity : list Q -> list Q -> Q)
    (self : VectorService.t) (query : string) (query_embedding : list Q)
    (n_results : Z) (project_id user_id : option Z) (min_score : Q)
    (rbac_context : option RbacContext) (c : Chunk.t) :
  c ∈ SearchResult.results
        (_mock_search _cosine_similarity self query query_embedding n_results
           project_id user_id min_score rbac_context) ->
  exists data,
    data ∈ VectorService._mock_storage self
    /\ mock_visible project_id user_id rbac_context (Point.payload data) = true
    /\ (min_score <= _cosine_similarity query_embedding (Point.embedding data))%Q
    /\ c = format_hit (Point.payload data)
             (_cosine_similarity query_embedding (Point.embedding data)).
Proof.
  unfold _mock_search. cbn [SearchResult.results].
  intros H%elem_of_slice_to%elem_of_sort_by_score_desc.
  apply list_elem_of_omap in H as (data & Hin & H). exists data. split; [done|].
  destruct (mock_visible _ _ _ _); [|done].
  destruct (Qle_bool _ _) eqn:E; [|done].
  apply Qle_bool_iff in E. by inversion H.
Qed.

Section RetrievalProperties.

Variable settings : Settings.t.
Variable generate_embedding : string -> list Q.
Variable _cosine_similarity : list Q -> list Q -> Q.

(** X11.  [search_similar] never raises and its result is well formed: the
    query is echoed, [total_results] is the number of chunks returned, and
    the result either carries an error, and then no chunk and no
    [rbac_applied] flag, or it carries [rbac_applied = True]. *)
Theorem search_result_is_well_formed
    (self : VectorService.t) (query : string) (n_results : Z)
    (project_id user_id : option Z) (min_score : option Q)
    (rbac_context : option RbacContext) (document_ids : option (list Z)) :
  let r := search_similar settings generate_embedding _cosine_similarity self query
             n_results project_id user_id min_score rbac_context document_ids in
  SearchResult.query r = query
  /\ SearchResult.total_results r = Z.of_nat (length (SearchResult.results r))
  /\ (SearchResult.error r = None /\ SearchResult.rbac_applied r = Some true
      \/ SearchResult.error r <> None /\ SearchResult.rbac_applied r = None
         /\ SearchResult.results r = []).
Proof.
  intros r. subst r. unfold search_similar, _mock_search.
  destruct (VectorService._mock_mode self); [simpl; auto|].
  destruct (build_search_filter _ _ _ _) as [|f|message]; [simpl; auto 6| |simpl; auto 6].
  destruct (query_points _ _ _ _ _ _) as [message | hits]; simpl; auto 6.
Qed.

(** X12.  In mock mode the chunks come back best first, every one of them
    reaches the minimum score (the configured one when none is given), and
    there are at most [n_results] of them. *)
Theorem mock_search_returns_best_first
    (self : VectorService.t) (query : string) (n_results : Z)
    (project_id user_id : option Z) (min_score : option Q)
    (rbac_context : option RbacContext) (document_ids : option (list Z)) :
  VectorService._mock_mode self = true ->
  0 <= n_results ->
  let r := search_similar settings generate_embedding _cosine_similarity self query
             n_results project_id user_id min_score rbac_context document_ids in
  StronglySorted
    (fun a b => (Chunk.similarity_score b <= Chunk.similarity_score a)%Q)
    (SearchResult.results r)
  /\ Forall
       (fun c =>
          (default (Settings.MIN_SIMILARITY_SCORE settings) min_score
           <= Chunk.similarity_score c)%Q)
       (SearchResult.results r)
  /\ SearchResult.total_results r <= n_results.
Proof.
  intros Hm Hn r. subst r. unfold search_similar. rewrite Hm.
  split; [|split].
  - unfold _mock_search. cbn [SearchResult.results].
    apply slice_to_sorted, sort_by_score_desc_sorted.
  - apply Forall_forall. intros c Hc.
    apply elem_of_mock_search_results in Hc as (data & _ & _ & Hle & ->).
    exact Hle.
  - unfold _mock_search. cbn [SearchResult.results SearchResult.total_results].
    by apply length_slice_to.
Qed.

(** X13.  What a mock search never returns to a caller who is not a super
    admin: a personal chunk somebody else uploaded; a chunk outside the
    project that was asked for; and, below the admin tier, a project-scope
    chunk of a project outside the accessible ones, or, when no project
    was asked for, any chunk of such a project. *)
Theorem mock_search_applies_scope_rules
    (self : VectorService.t) (query : string) (n_results : Z)
    (project_id user_id : option Z) (min_score : option Q)
    (rbac_context : option RbacContext) (document_ids : option (list Z))
    (c : Chunk.t) :
  VectorService._mock_mode self = true ->
  from_option ctx_is_super_admin false rbac_context = false ->
  c ∈ SearchResult.results
        (search_similar settings generate_embedding _cosine_similarity self query
           n_results project_id user_id min_score rbac_context document_ids) ->
  exists data,
    data ∈ VectorService._mock_storage self
    /\ c = format_hit (Point.payload data)
             (_cosine_similarity (generate_embedding query) (Point.embedding data))
    /\ (Payload.access_scope (Point.payload data) = "personal" ->
        Payload.user_id (Point.payload data) = user_id)
    /\ (forall p, project_id = Some p ->
                  Payload.project_id (Point.payload data) = Some p)
    /\ (from_option ctx_is_admin false rbac_context = false ->
        Payload.access_scope (Point.payload data) = "project"
        \/ project_id = None ->
        exists q, Payload.project_id (Point.payload data) = Some q
                  /\ q ∈ from_option accessible_project_ids [] rbac_context).
Proof.
  intros Hm Hs Hc. unfold search_similar in Hc. rewrite Hm in Hc.
  apply elem_of_mock_search_results in Hc as (data & Hin & Hv & _ & ->).
  exists data. split; [done|]. split; [done|].
  revert Hv. unfold mock_visible. rewrite Hs.
  set (in_accessible :=
         match Payload.project_id (Point.payload data) with
         | Some p => bool_decide (p ∈ from_option accessible_project_ids [] rbac_context)
         | None => false
         end).
  assert (in_accessible = true ->
          exists q, Payload.project_id (Point.payload data) = Some q
                    /\ q ∈ from_option accessible_project_ids [] rbac_context) as Hacc.
  { subst in_accessible. destruct (Payload.project_id _) as [q|]; [|done].
    intros H%bool_decide_eq_true. eauto. }
  intros [Hp Hscope]%andb_true_iff. split; [|split].
  - intros Hpers. rewrite Hpers in Hscope.
    destruct (from_option ctx_is_admin false rbac_context); simpl in Hscope.
    + apply negb_true_iff, negb_false_iff, bool_decide_eq_true in Hscope. done.
    + apply andb_true_iff in Hscope as [Hscope _].
      apply negb_true_iff, negb_false_iff, bool_decide_eq_true in Hscope. done.
  - intros p ->. by apply bool_decide_eq_true in Hp.
  - intros Ha Hcase. rewrite Ha in Hp, Hscope. simpl in Hp, Hscope.
    apply Hacc. destruct Hcase as [Hproj | ->]; [|done].
    rewrite Hproj in Hscope. simpl in Hscope.
    by rewrite negb_involutive in Hscope.
Qed.

End RetrievalProperties.

(** ** Personal documents *)

(** The personal chunks a mock search returns to a caller who is not a
    super admin are the caller's own. *)
Lemma mock_visible_personal
    (project_id user_id : option Z) (rbac_context : option RbacContext)
    (payload : Payload.t) :
  from_option ctx_is_super_admin false rbac_context = false ->
  mock_visible project_id user_id rbac_context payload = true ->
  Payload.access_scope payload = Enum.scope_value PERSONAL ->
  Payload.user_id payload = user_id.
Proof.
  intros Hs Hv Hp. unfold mock_visible in Hv. rewrite Hs, Hp in Hv.
  apply andb_true_iff in Hv as [_ Hv].
  destruct (from_option ctx_is_admin false rbac_context); simpl in Hv.
  - by apply negb_true_iff, negb_false_iff, bool_decide_eq_true in Hv.
  - apply andb_true_iff in Hv as [Hv _].
    by apply negb_true_iff, negb_false_iff, bool_decide_eq_true in Hv.
Qed.

(** C1.  A personal document is open to its uploader and to a super admin
    only.  [check_document_access] grants nothing else, and an admin who
    is not the uploader is refused whatever the action.  In retrieval, the
    RBAC block of [search_similar] compiles for an admin who is not a
    super admin the project condition and the four scope conditions, and
    a personal chunk satisfies one of these exactly when its uploader is
    the caller or the shared super-admin identity.  No chunk gets past
    them: with the vector store in use the construction of the filter
    raises, since [min_should] is given an integer, and the search returns
    the error result; in mock mode a personal chunk that is returned is
    the caller's own. *)
Theorem personal_documents_only_for_owner_and_super_admin
    (db : Session) (user : User.t) (document_id : Z) (document : Document.t)
    (action : string) :
  documents db !! document_id = Some document ->
  Document.access_scope document = Enum.scope_value PERSONAL ->
  (check_document_access document_id user db action = true ->
     Document.uploaded_by_id document = User.id user
     \/ get_user_role user = SUPER_ADMIN)
  /\ (get_user_role user = ADMIN ->
      Document.uploaded_by_id document <> User.id user ->
      check_document_access document_id user db action = false)
  /\ (forall project_id user_id ctx,
        ctx_is_super_admin ctx = false ->
        ctx_is_admin ctx = true ->
        rbac_conditions project_id user_id (Some ctx)
        = Some (match project_id with
                | Some p => [FieldCondition "project_id" (MatchValue (IntValue p))]
                | None => []
                end,
                scope_should_conditions user_id (super_admin_user_id ctx))
        /\ forall payload,
             Payload.access_scope payload = Enum.scope_value PERSONAL ->
             (exists c,
                 c ∈ scope_should_conditions user_id (super_admin_user_id ctx)
                 /\ holds c payload = true)
             <-> (exists u, user_id = Some u /\ Payload.user_id payload = Some u)
                 \/ (exists s, super_admin_user_id ctx = Some s
                               /\ Payload.user_id payload = Some s))
  /\ (forall settings generate_embedding _cosine_similarity self query n_results
             project_id user_id min_score ctx document_ids,
        no_explicit_ids document_ids ->
        ctx_is_super_admin ctx = false ->
        ctx_is_admin ctx = true ->
        let r := search_similar settings generate_embedding _cosine_similarity
                   self query n_results project_id user_id min_score (Some ctx)
                   document_ids in
        (VectorService._mock_mode self = false ->
         r = {| SearchResult.query := query;
                SearchResult.results := [];
                SearchResult.total_results := 0;
                SearchResult.rbac_applied := None;
                SearchResult.error := Some min_should_error |})
        /\ forall c,
             c ∈ SearchResult.results r ->
             exists data,
               data ∈ VectorService._mock_storage self
               /\ c = format_hit (Point.payload data)
                        (_cosine_similarity (generate_embedding query)
                           (Point.embedding data))
               /\ (Payload.access_scope (Point.payload data)
                   = Enum.scope_value PERSONAL ->
                   Payload.user_id (Point.payload data) = user_id)).
Proof.
  intros Hd Hs. split; [|split; [|split]].
  - rewrite (check_document_access_personal _ _ _ _ _ Hd Hs).
    intros [H | H]%orb_true_iff.
    + right. by apply bool_decide_eq_true in H.
    + left. by apply Z.eqb_eq.
  - intros Hr Hne. rewrite (check_document_access_personal _ _ _ _ _ Hd Hs).
    unfold is_super_admin. rewrite Hr. simpl. by apply Z.eqb_neq.
  - intros project_id user_id ctx Hsa Ha. split.
    + unfold rbac_conditions. cbn [from_option mbind option_bind]. by rewrite Hsa, Ha.
    + intros payload. apply scope_should_conditions_personal_iff.
  - intros settings generate_embedding _cosine_similarity self query n_results
      project_id user_id min_score ctx document_ids Hn Hsa Ha r.
    assert (VectorService._mock_mode self = false ->
            r = {| SearchResult.query := query;
                   SearchResult.results := [];
                   SearchResult.total_results := 0;
                   SearchResult.rbac_applied := None;
                   SearchResult.error := Some min_should_error |}) as Hreal.
    { intros Hm. subst r. unfold search_similar. rewrite Hm.
      rewrite search_filter_below_super_admin by done.
      cbn [from_option]. by rewrite Ha. }
    split; [exact Hreal|]. intros c Hc.
    destruct (VectorService._mock_mode self) eqn:Hm.
    + subst r. unfold search_similar in Hc. rewrite Hm in Hc.
      apply elem_of_mock_search_results in Hc as (data & Hin & Hv & _ & ->).
      exists data. split; [done|]. split; [done|].
      by apply (mock_visible_personal project_id user_id (Some ctx)).
    + rewrite Hreal in Hc by done. by apply elem_of_nil in Hc.
Qed.

Lemma personal_documents_witness :
  (check_document_access 5 Sample.admin_user Sample.db "view" = false
   /\ check_document_access 5 Sample.admin_user Sample.db "edit" = false
   /\ check_document_access 5 Sample.admin_user Sample.db "delete" = false)
  /\ rbac_conditions None (Some 2) (Some Sample.admin_context)
     = Some ([], scope_should_conditions (Some 2) (Some 1))
  /\ ((exists c,
          c ∈ scope_should_conditions (Some 2) (Some 1)
          /\ holds c Scenario.colleague_payload = true)
      <-> (exists u, Some 2 = Some u
                     /\ Payload.user_id Scenario.colleague_payload = Some u)
          \/ (exists s, Some 1 = Some s
                        /\ Payload.user_id Scenario.colleague_payload = Some s))
  /\ search_similar Settings.defaults Sample.generate_embedding
       Sample._cosine_similarity Scenario.notes_in_store "notes" 5 None (Some 2)
       None (Some Sample.admin_context) None
     = {| SearchResult.query := "notes";
          SearchResult.results := [];
          SearchResult.total_results := 0;
          SearchResult.rbac_applied := None;
          SearchResult.error := Some min_should_error |}
  /\ SearchResult.results
       (search_similar Settings.defaults Sample.generate_embedding
          Sample._cosine_similarity Scenario.notes_in_memory "notes" 5 None (Some 2)
          None (Some Sample.admin_context) None)
     = [format_hit Sample.own_personal_payload 1%Q]
  /\ (forall c,
        c ∈ SearchResult.results
              (search_similar Settings.defaults Sample.generate_embedding
                 Sample._cosine_similarity Scenario.notes_in_memory "notes" 5 None
                 (Some 2) None (Some Sample.admin_context) None) ->
        exists data,
          data ∈ Scenario.notes
          /\ c = format_hit (Point.payload data) 1%Q
          /\ (Payload.access_scope (Point.payload data) = Enum.scope_value PERSONAL ->
              Payload.user_id (Point.payload data) = Some 2)).
Proof.
  assert (forall action,
            check_document_access 5 Sample.admin_user Sample.db action = false) as H.
  { intros action.
    apply (personal_documents_only_for_owner_and_super_admin
             Sample.db Sample.admin_user 5 Sample.personal_document action);
      [reflexivity | reflexivity | reflexivity | simpl; lia]. }
  destruct (personal_documents_only_for_owner_and_super_admin
              Sample.db Sample.admin_user 5 Sample.personal_document "view")
    as (_ & _ & Hconditions & Hsearch); [reflexivity | reflexivity |].
  destruct (Hconditions None (Some 2) Sample.admin_context) as [Hc Hiff];
    [reflexivity | reflexivity |].
  destruct (Hsearch Settings.defaults Sample.generate_embedding
              Sample._cosine_similarity Scenario.notes_in_store "notes" 5 None
              (Some 2) None Sample.admin_context None) as [Hstore _];
    [by left | reflexivity | reflexivity |].
  destruct (Hsearch Settings.defaults Sample.generate_embedding
              Sample._cosine_similarity Scenario.notes_in_memory "notes" 5 None
              (Some 2) None Sample.admin_context None) as [_ Hmemory];
    [by left | reflexivity | reflexivity |].
  split; [by repeat split|]. split; [exact Hc|].
  split; [by apply Hiff|]. split; [by apply Hstore|].
  split; [vm_compute; reflexivity | exact Hmemory].
Defined.

(** ** The vector store below the super admin *)

Section VectorStoreSearch.

Variable settings : Settings.t.
Variable generate_embedding : string -> list Q.
Variable _cosine_similarity : list Q -> list Q -> Q.

(** X14.  With the vector store in use and no explicit document ids, a
    search by a caller who is not a super admin (an admin, a caller below
    the admin tier, also one with no RBAC context) returns the error
    result and no chunk.  Below the admin tier a project outside the
    accessible ones is refused with the access-denied message; in every
    other case the scope conditions are handed to [Filter] with
    [min_should=1], the construction raises, and the message is that of
    the exception. *)
Theorem vector_store_search_fails_below_super_admin
    (self : VectorService.t) (query : string) (n_results : Z)
    (project_id user_id : option Z) (min_score : option Q)
    (rbac_context : option RbacContext) (document_ids : option (list Z)) :
  VectorService._mock_mode self = false ->
  no_explicit_ids document_ids ->
  from_option ctx_is_super_admin false rbac_context = false ->
  let refused :=
    from_option ctx_is_admin false rbac_context = false
    /\ exists p,
         project_id = Some p
         /\ p ∉ from_option accessible_project_ids [] rbac_context in
  exists message,
    search_similar settings generate_embedding _cosine_similarity self query
      n_results project_id user_id min_score rbac_context document_ids
    = {| SearchResult.query := query;
         SearchResult.results := [];
         SearchResult.total_results := 0;
         SearchResult.rbac_applied := None;
         SearchResult.error := Some message |}
    /\ (refused -> message = "Access denied to this project")
    /\ (~ refused -> message = min_should_error).
Proof.
  intros Hm Hd Hs refused. subst refused. unfold search_similar. rewrite Hm.
  rewrite search_filter_below_super_admin by done.
  destruct (from_option ctx_is_admin false rbac_context); cbn [negb andb].
  { eexists. split; [reflexivity|]. split; [by intros [? _] | done]. }
  destruct project_id as [p|].
  - destruct (bool_decide_reflect
                (p ∈ from_option accessible_project_ids [] rbac_context)) as [Hin | Hout];
      cbn [negb]; eexists; (split; [reflexivity|]).
    + split; [|done]. intros (_ & q & [= <-] & Hq). done.
    + split; [done|]. intros Hr. destruct Hr. eauto.
  - eexists. split; [reflexivity|]. split; [|done].
    by intros (_ & q & ? & _).
Qed.

End VectorStoreSearch.

Lemma vector_store_search_witness :
  exists message,
    search_similar Settings.defaults Sample.generate_embedding
      Sample._cosine_similarity Sample.qdrant_service "budget" 5 None (Some 2) None
      (Some Sample.user_context) None
    = {| SearchResult.query := "budget";
         SearchResult.results := [];
         SearchResult.total_results := 0;
         SearchResult.rbac_applied := None;
         SearchResult.error := Some message |}
    /\ message = min_should_error.
Proof.
  destruct (vector_store_search_fails_below_super_admin Settings.defaults
              Sample.generate_embedding Sample._cosine_similarity
              Sample.qdrant_service "budget" 5 None (Some 2) None
              (Some Sample.user_context) None) as (message & Hr & _ & Hm).
  - reflexivity.
  - by left.
  - reflexivity.
  - exists message. split; [exact Hr|]. apply Hm.
    intros (_ & p & Hp & _). discriminate Hp.
Defined.

(** ** The project check of the chat endpoint and the search *)

Section ChatRetrieval.

Variable settings : Settings.t.
Variable generate_embedding : string -> list Q.
Variable _cosine_similarity : list Q -> list Q -> Q.

(** X16.  The project check and the search disagree on a deactivated
    project.  Its creator, a member, or anybody when it is public, passes
    [check_project_access]; the context of [get_rbac_context] lists active
    projects only, so with the vector store in use the search for that
    project, made with this context as the chat endpoint does, returns the
    access-denied result and no chunk. *)
Theorem inactive_project_passes_check_but_search_denies
    (self : VectorService.t) (query : string) (n_results : Z)
    (user : User.t) (db : Session) (pid : Z) (p : Project.t)
    (min_score : option Q) (super_admin : option Z) (document_ids : option (list Z)) :
  VectorService._mock_mode self = false ->
  no_explicit_ids document_ids ->
  is_admin user = false ->
  projects db !! pid = Some p ->
  Project.is_active p = false ->
  Project.created_by_id p = User.id user
  \/ is_member db user pid = true
  \/ Project.is_private p = false ->
  check_project_access pid user db false = true
  /\ search_similar settings generate_embedding _cosine_similarity self query n_results
       (Some pid) (Some (User.id user)) min_score
       (Some (with_super_admin_user_id super_admin
                (get_rbac_context user db (Some pid))))
       document_ids
     = {| SearchResult.query := query;
          SearchResult.results := [];
          SearchResult.total_results := 0;
          SearchResult.rbac_applied := None;
          SearchResult.error := Some "Access denied to this project" |}.
Proof.
  intros Hm Hd Ha Hp Hact Hc. split.
  - unfold check_project_access.
    rewrite (not_admin_not_super_admin _ Ha), Ha, Hp. simpl.
    destruct (Z.eqb_spec (Project.created_by_id p) (User.id user)); [done|].
    destruct (is_member db user pid); [done|].
    destruct Hc as [? | [? | ->]]; done.
  - unfold search_similar. rewrite Hm.
    rewrite search_filter_below_super_admin;
      [|done|simpl; by apply not_admin_not_super_admin].
    cbn [from_option with_super_admin_user_id get_rbac_context
         accessible_project_ids ctx_is_admin].
    rewrite Ha, bool_decide_eq_false_2; [done|].
    intros (p' & Hp' & Hact' & _)%elem_of_accessible_project_ids. congruence.
Qed.

End ChatRetrieval.

Lemma inactive_project_witness :
  check_project_access 3 Scenario.member Scenario.db false = true
  /\ search_similar Settings.defaults Sample.generate_embedding
       Sample._cosine_similarity Sample.qdrant_service "budget" 5
       (Some 3) (Some 5) None
       (Some (with_super_admin_user_id (Some 1)
                (get_rbac_context Scenario.member Scenario.db (Some 3))))
       None
     = {| SearchResult.query := "budget";
          SearchResult.results := [];
          SearchResult.total_results := 0;
          SearchResult.rbac_applied := None;
          SearchResult.error := Some "Access denied to this project" |}.
Proof.
  apply (inactive_project_passes_check_but_search_denies Settings.defaults
           Sample.generate_embedding Sample._cosine_similarity Sample.qdrant_service
           "budget" 5 Scenario.member Scenario.db 3 (Project.mk false true 5) None
           (Some 1) None).
  - reflexivity.
  - by left.
  - reflexivity.
  - reflexivity.
  - reflexivity.
  - left. reflexivity.
Defined.

(** ** Storing and deleting chunks *)

Lemma elem_of_dict_set_new (point : Point.t) (storage : list Point.t) :
  point ∈ dict_set point storage.
Proof.
  induction storage as [|p rest IH]; simpl; [apply list_elem_of_here|].
  destruct (String.eqb _ _); [apply list_elem_of_here|].
  by apply list_elem_of_further.
Qed.

Lemma elem_of_dict_set_old (point q : Point.t) (storage : list Point.t) :
  q ∈ storage -> Point.id q <> Point.id point -> q ∈ dict_set point storage.
Proof.
  intros Hin Hne. induction storage as [|p rest IH]; simpl; [by apply elem_of_nil in Hin|].
  apply elem_of_cons in Hin as [<- | Hin].
  - rewrite (proj2 (String.eqb_neq _ _) Hne). apply list_elem_of_here.
  - destruct (String.eqb _ _) eqn:E.
    + apply list_elem_of_further. done.
    + apply list_elem_of_further. by apply IH.
Qed.

Lemma dict_set_app_fresh (point : Point.t) (storage news : list Point.t) :
  Point.id point ∉ Point.id <$> storage ->
  dict_set point (storage ++ news) = storage ++ dict_set point news.
Proof.
  induction storage as [|p rest IH]; intros Hf; simpl; [done|].
  rewrite fmap_cons, not_elem_of_cons in Hf. destruct Hf as [Hne Hf].
  rewrite (proj2 (String.eqb_neq _ _)) by done. by rewrite IH.
Qed.

Lemma foldl_dict_set_app_fresh (points storage news : list Point.t) :
  Forall (fun point => Point.id point ∉ Point.id <$> storage) points ->
  foldl (fun storage point => dict_set point storage) (storage ++ news) points
  = storage ++ foldl (fun storage point => dict_set point storage) news points.
Proof.
  revert news. induction points as [|point points IH]; intros news Hf; simpl; [done|].
  apply Forall_cons in Hf as [Hp Hf]. rewrite dict_set_app_fresh by done. by apply IH.
Qed.

Lemma Forall_dict_set (P : Point.t -> Prop) (point : Point.t) (storage : list Point.t) :
  P point -> Forall P storage -> Forall P (dict_set point storage).
Proof.
  intros Hp. induction 1 as [|p rest Hq Hrest IH]; simpl; [by repeat constructor|].
  destruct (String.eqb _ _); by constructor.
Qed.

Lemma Forall_foldl_dict_set (P : Point.t -> Prop) (points storage : list Point.t) :
  Forall P points -> Forall P storage ->
  Forall P (foldl (fun storage point => dict_set point storage) storage points).
Proof.
  revert storage. induction points as [|point points IH]; intros storage Hp Hs; simpl;
    [done|].
  apply Forall_cons in Hp as [Hp Hps]. apply IH; [done|]. by apply Forall_dict_set.
Qed.

Lemma foldl_dict_set_keeps (points storage : list Point.t) (q : Point.t) :
  q ∈ storage -> Point.id q ∉ Point.id <$> points ->
  q ∈ foldl (fun storage point => dict_set point storage) storage points.
Proof.
  revert storage. induction points as [|point points IH]; intros storage Hin Hf; simpl;
    [done|].
  rewrite fmap_cons, not_elem_of_cons in Hf. destruct Hf as [Hne Hf].
  apply IH; [|done]. by apply elem_of_dict_set_old.
Qed.

Lemma foldl_dict_set_stores (points storage : list Point.t) (q : Point.t) :
  NoDup (Point.id <$> points) -> q ∈ points ->
  q ∈ foldl (fun storage point => dict_set point storage) storage points.
Proof.
  revert storage. induction points as [|point points IH]; intros storage Hnd Hin; simpl;
    [by apply elem_of_nil in Hin|].
  rewrite fmap_cons in Hnd. apply NoDup_cons in Hnd as [Hfresh Hnd].
  apply elem_of_cons in Hin as [-> | Hin].
  - apply foldl_dict_set_keeps; [apply elem_of_dict_set_new | done].
  - by apply IH.
Qed.

Lemma filter_all_false {A} (f : A -> bool) (l : list A) :
  Forall (fun x => f x = false) l -> List.filter f l = [].
Proof. induction 1 as [|x l Hx _ IH]; simpl; [done|]. by rewrite Hx. Qed.

Lemma admits_document_id (document_id : Z) (p : Payload.t) :
  admits (Filter_must [FieldCondition "document_id" (MatchValue (IntValue document_id))]) p
  = (Payload.document_id p =? document_id).
Proof.
  rewrite admits_must_field. unfold payload_field. simpl.
  destruct (Z.eqb_spec (Payload.document_id p) document_id) as [-> | Hne].
  - by apply bool_decide_eq_true.
  - apply bool_decide_eq_false. by intros [= ?].
Qed.

Lemma admits_project_id (project_id : Z) (p : Payload.t) :
  admits (Filter_must [FieldCondition "project_id" (MatchValue (IntValue project_id))]) p
  = bool_decide (Payload.project_id p = Some project_id).
Proof.
  rewrite admits_must_field. unfold payload_field. simpl.
  destruct (Payload.project_id p) as [q|]; simpl.
  - apply bool_decide_ext. split; [by intros [= ->] | by intros [= ->]].
  - reflexivity.
Qed.

(** What a service holds after a deletion. *)
Lemma held_points_delete_document (self : VectorService.t) (document_id : Z) :
  (delete_document_chunks self document_id).1 = true ->
  held_points (delete_document_chunks self document_id).2
  = List.filter (fun pt => negb (Payload.document_id (Point.payload pt) =? document_id))
      (held_points self).
Proof.
  unfold delete_document_chunks, qdrant_delete, held_points.
  destruct self as [mock storage [collection fault]]. cbn -[admits].
  destruct mock; cbn -[admits]; [done|].
  destruct fault; cbn -[admits]; [done|]. intros _.
  apply List.filter_ext. intros pt. by rewrite admits_document_id.
Qed.

Lemma held_points_delete_project (self : VectorService.t) (project_id : Z) :
  (delete_project_documents self project_id).1 = true ->
  held_points (delete_project_documents self project_id).2
  = List.filter
      (fun pt => negb (bool_decide (Payload.project_id (Point.payload pt) = Some project_id)))
      (held_points self).
Proof.
  unfold delete_project_documents, qdrant_delete, held_points.
  destruct self as [mock storage [collection fault]]. cbn -[admits].
  destruct mock; cbn -[admits]; [done|].
  destruct fault; cbn -[admits]; [done|]. intros _.
  apply List.filter_ext. intros pt. by rewrite admits_project_id.
Qed.

Section StorageProperties.

Variable settings : Settings.t.
Variable generate_embedding : string -> list Q.
Variable _cosine_similarity : list Q -> list Q -> Q.

(** Every chunk a search returns is built from a point the service
    holds. *)
Lemma search_results_are_held_points
    (self : VectorService.t) (query : string) (n_results : Z)
    (project_id user_id : option Z) (min_score : option Q)
    (rbac_context : option RbacContext) (document_ids : option (list Z))
    (c : Chunk.t) :
  c ∈ SearchResult.results
        (search_similar settings generate_embedding _cosine_similarity self query
           n_results project_id user_id min_score rbac_context document_ids) ->
  exists pt,
    pt ∈ held_points self
    /\ c = format_hit (Point.payload pt)
             (_cosine_similarity (generate_embedding query) (Point.embedding pt)).
Proof.
  unfold search_similar, held_points.
  destruct (VectorService._mock_mode self).
  - intros (data & Hin & _ & _ & ->)%elem_of_mock_search_results. eauto.
  - destruct (build_search_filter _ _ _ _) as [|f|message];
      [by intros ?%elem_of_nil| |by intros ?%elem_of_nil].
    unfold query_points.
    destruct (QdrantClient.fault _); [by intros ?%elem_of_nil|].
    cbn [SearchResult.results].
    intros (hit & -> & Hin)%list_elem_of_fmap.
    apply subseteq_take, elem_of_sort_by_score_desc in Hin.
    apply list_elem_of_In, List.filter_In in Hin as [Hin _].
    apply list_elem_of_In, list_elem_of_fmap in Hin as (pt & -> & Hin). eauto.
Qed.

(** X17.  Chunk ids that are new to the store make adding and deleting a
    round trip: deleting the document right after its chunks were added
    gives the result, and leaves the service, as deleting it without the
    addition. *)
Theorem deleting_an_added_document_undoes_the_addition
    (self : VectorService.t) (document_id : Z)
    (chunks : list (string * ChunkDict.t)) (project_id user_id : option Z) :
  Forall (fun entry => entry.1 ∉ Point.id <$> held_points self) chunks ->
  delete_document_chunks
    (add_document_chunks generate_embedding self document_id chunks
       project_id user_id).2
    document_id
  = delete_document_chunks self document_id.
Proof.
  intros Hfresh. unfold add_document_chunks.
  destruct chunks as [|entry chunks']; [done|].
  set (chunks := entry :: chunks') in *.
  set (points :=
         (fun entry : string * ChunkDict.t =>
            Point.mk entry.1
              (generate_embedding (default EmptyString (ChunkDict.content entry.2)))
              (chunk_payload document_id project_id user_id entry.2)) <$> chunks).
  assert (Forall (fun point => Point.id point ∉ Point.id <$> held_points self) points)
    as Hids.
  { subst points. apply Forall_fmap. eapply Forall_impl; [exact Hfresh|]. done. }
  assert (Forall (fun point =>
                    negb (Payload.document_id (Point.payload point) =? document_id)
                    = false) points) as Hdoc.
  { subst points. apply Forall_fmap, Forall_forall. intros e _. simpl.
    by rewrite Z.eqb_refl. }
  assert (forall storage,
            Forall (fun point => Point.id point ∉ Point.id <$> storage) points ->
            List.filter
              (fun pt => negb (Payload.document_id (Point.payload pt) =? document_id))
              (foldl (fun storage point => dict_set point storage) storage points)
            = List.filter
                (fun pt => negb (Payload.document_id (Point.payload pt) =? document_id))
                storage) as Hfilter.
  { intros storage Hs.
    rewrite <- (app_nil_r storage) at 1.
    rewrite foldl_dict_set_app_fresh by done.
    rewrite List.filter_app, (filter_all_false _ (foldl _ [] points)).
    - by rewrite app_nil_r.
    - apply Forall_foldl_dict_set; [done | constructor]. }
  unfold held_points in Hids.
  unfold delete_document_chunks, qdrant_delete.
  destruct self as [mock storage [collection fault]]. cbn -[admits] in *.
  destruct mock; cbn -[admits] in *.
  - by rewrite Hfilter.
  - destruct fault; cbn -[admits]; [done|].
    unfold with_collection. cbn -[admits]. do 3 f_equal.
    rewrite (List.filter_ext _
               (fun pt => negb (Payload.document_id (Point.payload pt) =? document_id)))
      by (intros pt; by rewrite admits_document_id).
    rewrite Hfilter by done.
    apply List.filter_ext. intros pt. by rewrite admits_document_id.
Qed.

(** X18.  When [add_document_chunks] reports success for chunks with
    pairwise distinct ids, the service holds a point for every chunk, with
    the payload built for it (document, project and uploader as given,
    scope [project] unless the chunk says otherwise), and it still holds
    every point it held under another id. *)
Theorem added_chunks_are_stored
    (self : VectorService.t) (document_id : Z)
    (chunks : list (string * ChunkDict.t)) (project_id user_id : option Z) :
  NoDup chunks.*1 ->
  (add_document_chunks generate_embedding self document_id chunks
     project_id user_id).1 = true ->
  let self' :=
    (add_document_chunks generate_embedding self document_id chunks
       project_id user_id).2 in
  (forall chunk_id chunk,
     (chunk_id, chunk) ∈ chunks ->
     exists pt,
       pt ∈ held_points self'
       /\ Point.id pt = chunk_id
       /\ Point.payload pt = chunk_payload document_id project_id user_id chunk
       /\ Payload.document_id (Point.payload pt) = document_id
       /\ Payload.project_id (Point.payload pt) = project_id
       /\ Payload.user_id (Point.payload pt) = user_id
       /\ Payload.access_scope (Point.payload pt)
          = default "project" (ChunkDict.access_scope chunk))
  /\ (forall pt,
        pt ∈ held_points self -> Point.id pt ∉ chunks.*1 -> pt ∈ held_points self').
Proof.
  intros Hnd. unfold add_document_chunks.
  destruct chunks as [|entry chunks']; [intros _; split; [by intros ? ? ?%elem_of_nil | done]|].
  set (chunks := entry :: chunks') in *.
  set (make :=
         fun entry : string * ChunkDict.t =>
           Point.mk entry.1
             (generate_embedding (default EmptyString (ChunkDict.content entry.2)))
             (chunk_payload document_id project_id user_id entry.2)).
  set (points := make <$> chunks).
  assert (Point.id <$> points = chunks.*1) as Hids.
  { subst points. rewrite <- list_fmap_compose. done. }
  assert (forall storage chunk_id chunk,
            (chunk_id, chunk) ∈ chunks ->
            make (chunk_id, chunk)
            ∈ foldl (fun storage point => dict_set point storage) storage points)
    as Hstored.
  { intros storage chunk_id chunk Hin. apply foldl_dict_set_stores.
    - by rewrite Hids.
    - subst points. apply list_elem_of_fmap. eauto. }
  assert (forall storage pt,
            pt ∈ storage -> Point.id pt ∉ chunks.*1 ->
            pt ∈ foldl (fun storage point => dict_set point storage) storage points)
    as Hkept.
  { intros storage pt Hin Hf. apply foldl_dict_set_keeps; [done|]. by rewrite Hids. }
  unfold held_points.
  destruct self as [mock storage [collection fault]]. simpl.
  destruct mock; simpl.
  - intros _. split; [|apply Hkept].
    intros chunk_id chunk Hin. exists (make (chunk_id, chunk)).
    split; [by apply Hstored|]. done.
  - destruct fault; simpl; [done|]. intros _. split; [|apply Hkept].
    intros chunk_id chunk Hin. exists (make (chunk_id, chunk)).
    split; [by apply Hstored|]. done.
Qed.

(** X19.  After a deletion that reported success, no search returns a
    chunk of the deleted document, whoever asks and whatever the filter;
    likewise no search returns a chunk of a project whose documents were
    deleted. *)
Theorem deleted_chunks_are_not_retrieved
    (self : VectorService.t) (query : string) (n_results : Z)
    (project_id user_id : option Z) (min_score : option Q)
    (rbac_context : option RbacContext) (document_ids : option (list Z))
    (c : Chunk.t) :
  ((delete_document_chunks self (Chunk.document_id c)).1 = true ->
   c ∉ SearchResult.results
         (search_similar settings generate_embedding _cosine_similarity
            (delete_document_chunks self (Chunk.document_id c)).2 query
            n_results project_id user_id min_score rbac_context document_ids))
  /\ (forall p,
        Metadata.project_id (Chunk.metadata c) = Some p ->
        (delete_project_documents self p).1 = true ->
        c ∉ SearchResult.results
              (search_similar settings generate_embedding _cosine_similarity
                 (delete_project_documents self p).2 query
                 n_results project_id user_id min_score rbac_context document_ids)).
Proof.
  split.
  - intros Hok (pt & Hin & ->)%search_results_are_held_points.
    rewrite held_points_delete_document in Hin by done.
    apply list_elem_of_In, List.filter_In in Hin as [_ Hne].
    simpl in Hne. by rewrite Z.eqb_refl in Hne.
  - intros p Hp Hok (pt & Hin & ->)%search_results_are_held_points.
    rewrite held_points_delete_project in Hin by done.
    apply list_elem_of_In, List.filter_In in Hin as [_ Hne].
    simpl in Hp. by rewrite bool_decide_eq_true_2 in Hne.
Qed.

End StorageProperties.

(** ** The inference client, continued *)

Lemma find_app_last {A} (f : A -> bool) (l : list A) (y : A) :
  Forall (fun x => f x = false) l ->
  List.find f (l ++ [y]) = if f y then Some y else None.
Proof. induction 1 as [|x l Hx _ IH]; simpl; [done|]. by rewrite Hx. Qed.

(** An item that was stored is found until its time to live is over. *)
Lemma lookup_store (now now' : Z) (key value : string) (c : TTLCache.t) :
  now' < now + TTLCache.ttl c ->
  TTLCache.lookup now' key (TTLCache.store now key value c) = Some value.
Proof.
  intros Hlive. unfold TTLCache.lookup, TTLCache.store. cbn [TTLCache.items].
  rewrite find_app_last.
  - cbn [fst snd]. rewrite String.eqb_refl. unfold TTLCache.alive. cbn [fst snd].
    by rewrite (proj2 (Z.ltb_lt _ _) Hlive).
  - set (live := List.filter _ (TTLCache.items c)).
    assert (Forall (fun item : string * (string * Z) => String.eqb item.1 key = false) live)
      as Hlive'.
    { apply Forall_forall. intros item Hin. subst live.
      apply list_elem_of_In, List.filter_In in Hin as [_ H].
      apply andb_true_iff in H as [_ H]. by apply negb_true_iff in H. }
    assert (Forall (fun item : string * (string * Z) => String.eqb item.1 key = false)
              (if (length live <? TTLCache.maxsize c)%nat then live else drop 1 live))
      as Hroom.
    { destruct (_ <? _)%nat; [done|]. by apply Forall_drop. }
    eapply Forall_impl; [exact Hroom|]. intros item H. simpl in H. by rewrite H.
Qed.

Lemma length_stream_pieces (words : list string) :
  length (stream_pieces words) = length words.
Proof.
  induction words as [|word words IH]; [done|].
  destruct words as [|word' words]; [done|].
  change (S (length (stream_pieces (word' :: words))) = S (length (word' :: words))).
  by rewrite IH.
Qed.

Lemma join_stream_pieces (words : list string) :
  PyStr.join EmptyString (stream_pieces words) = PyStr.join " " words.
Proof.
  destruct words as [|word words]; [done|]. revert word.
  induction words as [|word' words IH]; intros word; [simpl; apply append_empty_r|].
  assert (exists piece pieces, stream_pieces (word' :: words) = piece :: pieces)
    as (piece & pieces & E) by (destruct words; simpl; eauto).
  change (stream_pieces (word :: word' :: words))
    with ((word +:+ " ") :: stream_pieces (word' :: words)).
  rewrite E.
  change (PyStr.join EmptyString ((word +:+ " ") :: piece :: pieces))
    with ((word +:+ " ") +:+ PyStr.join EmptyString (piece :: pieces)).
  rewrite <- E, IH, append_assoc. reflexivity.
Qed.

Section ClientProperties.

Variable settings : Settings.t.
Variable clock : nat -> Z.
Variable chat_completion : nat -> string -> Reply.
Variable md5_hexdigest : string -> string.

(** One call sends at most one request to the provider. *)
Lemma call_hf_api_provider_calls
    (w w' : World) (prompt : string) (o : Outcome string) :
  _call_hf_api settings clock chat_completion md5_hexdigest prompt w = (o, w') ->
  provider_calls w' = provider_calls w \/ provider_calls w' = S (provider_calls w).
Proof.
  destruct w as [s t p]. destruct s as [mn [fc lf st] rc ts mm].
  unfold _call_hf_api, can_execute.
  cbv [mbind M_bind _check_rate_limit utcnow get_service modify_service
       cache_lookup cache_store call_provider record_success record_failure
       mret M_ret raise with_service service ticks provider_calls
       AIService.circuit_breaker CircuitBreaker.state
       CircuitBreaker.last_failure_time CircuitBreaker.failure_count
       AIService.with_circuit_breaker AIService.with_request_timestamps
       AIService.with_response_cache AIService.request_timestamps
       AIService.response_cache AIService.model_name AIService._mock_mode negb].
  destruct st; [| destruct lf |];
    repeat match goal with
           | |- context [match ?x with _ => _ end] =>
               tryif is_var x then fail
               else lazymatch x with
                    | context [match _ with _ => _ end] => fail
                    | _ => destruct x
                    end
           end;
    intros [= <- <-]; cbn; auto.
Qed.

(** [generate_answer] returns an answer whatever happens, after at most
    one request to the provider. *)
Lemma generate_answer_returns (query : string) (docs : list Chunk.t) (w : World) :
  exists a w',
    generate_answer settings clock chat_completion md5_hexdigest query docs w
    = (Return a, w')
    /\ (provider_calls w' = provider_calls w
        \/ provider_calls w' = S (provider_calls w)).
Proof.
  destruct (AIService._mock_mode (service w)) eqn:Hm.
  - exists (_generate_mock_response (service w) query docs None), w.
    split; [|by auto].
    unfold generate_answer.
    unfold mbind at 1. unfold M_bind at 1. unfold get_service at 1. cbn beta iota.
    by rewrite Hm.
  - rewrite generate_answer_run by done.
    destruct (_call_hf_api _ _ _ _ _ w) as [[text | e] w'] eqn:Hcall;
      apply call_hf_api_provider_calls in Hcall.
    + eexists _, w'. split; [reflexivity|]. done.
    + destruct e; [destruct (any_content docs)| |];
        (eexists _, w'; split; [reflexivity|]; done).
Qed.

(** X20.  [generate_answer] always returns an answer: every error of the
    call to the provider ends in one of its handlers.  It sends at most
    one request to the provider, and in mock mode it sends none and leaves
    the service as it is. *)
Theorem generate_answer_always_answers
    (query : string) (docs : list Chunk.t) (w : World) :
  exists a w',
    generate_answer settings clock chat_completion md5_hexdigest query docs w
    = (Return a, w')
    /\ (provider_calls w' = provider_calls w
        \/ provider_calls w' = S (provider_calls w))
    /\ (AIService._mock_mode (service w) = true ->
        w' = w /\ a = _generate_mock_response (service w) query docs None).
Proof.
  destruct (generate_answer_returns query docs w) as (a & w' & Hrun & Hcalls).
  exists a, w'. split; [done|]. split; [done|]. intros Hm.
  revert Hrun. unfold generate_answer.
  unfold mbind at 1. unfold M_bind at 1. unfold get_service at 1. cbn beta iota.
  rewrite Hm. by intros [= <- <-].
Qed.

(** X21.  A request the local rate limiter rejects is answered with the
    high-demand message, no citations and confidence 0; the provider is
    not contacted, and breaker and cache stay as they are. *)
Theorem rate_limited_request_is_answered_without_the_provider
    (query : string) (docs : list Chunk.t) (w : World) :
  AIService._mock_mode (service w) = false ->
  CircuitBreaker.state (breaker w) <> OPEN ->
  0 < Settings.RATE_LIMIT_REQUESTS_PER_MINUTE settings ->
  Settings.RATE_LIMIT_REQUESTS_PER_MINUTE settings
  <= Z.of_nat (length (window clock w)) ->
  exists a w' wait_time,
    generate_answer settings clock chat_completion md5_hexdigest query docs w
    = (Return a, w')
    /\ Answer.answer a
       = "The AI service is currently experiencing high demand. Please try again in a moment."
    /\ Answer.citations a = []
    /\ Answer.confidence_score a = 0%Q
    /\ Answer.error a = Some (StrOf (RateLimitError (TryAgainIn wait_time)))
    /\ provider_calls w' = provider_calls w
    /\ breaker w' = breaker w
    /\ AIService.response_cache (service w') = AIService.response_cache (service w).
Proof.
  intros Hm Hs HK Hfull. rewrite generate_answer_run by done.
  assert (can_execute settings clock w = (Return true, w)) as Hcan.
  { unfold can_execute, breaker in *.
    unfold mbind at 1. unfold M_bind at 1. unfold get_service at 1. cbn beta iota.
    by destruct (CircuitBreaker.state _). }
  destruct (window clock w) as [|oldest rest] eqn:Ew; [simpl in Hfull; lia|].
  assert (_call_hf_api settings clock chat_completion md5_hexdigest
            (build_prompt settings query docs) w
          = (Raise (RateLimitError
                      (TryAgainIn (oldest - (clock (ticks w) - 60 * second)))),
             mkWorld (AIService.with_request_timestamps (oldest :: rest) (service w))
               (S (ticks w)) (provider_calls w))) as ->.
  { unfold _call_hf_api.
    unfold mbind at 1. unfold M_bind at 1. rewrite Hcan. cbn beta iota. cbn [negb].
    unfold mbind at 1. unfold M_bind at 1.
    rewrite check_rate_limit_run, Ew, (proj2 (Z.leb_le _ _) Hfull). reflexivity. }
  eexists _, _, _. split; [reflexivity|]. by destruct w as [[] ? ?].
Qed.

(** X22.  The rate limiter keeps a bounded, recent list of timestamps:
    after any number of calls from an empty list it holds at most the
    configured maximum of them, and after every call each timestamp it
    holds is less than a minute older than that call. *)
Theorem rate_limiter_keeps_a_bounded_recent_window (n : nat) (w0 w : World) :
  AIService.request_timestamps (service w0) = [] ->
  Z.of_nat (length (AIService.request_timestamps
                      (service (rate_limit_calls settings clock n w0))))
  <= Z.max 0 (Settings.RATE_LIMIT_REQUESTS_PER_MINUTE settings)
  /\ Forall (fun ts => clock (ticks w) - 60 * second < ts)
       (AIService.request_timestamps (service (_check_rate_limit settings clock w).2)).
Proof.
  intros H0. split.
  - assert (Z.of_nat (length (AIService.request_timestamps (service w0)))
            <= Z.max 0 (Settings.RATE_LIMIT_REQUESTS_PER_MINUTE settings)) as Hinv
      by (rewrite H0; simpl; lia).
    clear H0. revert w0 Hinv. induction n as [|n IH]; intros w0 Hinv; [done|].
    cbn [rate_limit_calls]. apply IH. rewrite check_rate_limit_run.
    pose proof (filter_length_le (fun ts => clock (ticks w0) - 60 * second <? ts)
                  (AIService.request_timestamps (service w0))) as Hle.
    fold (window clock w0) in Hle.
    destruct (_ <=? _) eqn:E.
    + destruct (window clock w0); destruct w0 as [[] ? ?]; simpl in *; lia.
    + apply Z.leb_gt in E. destruct w0 as [[] ? ?]. simpl in *.
      rewrite length_app. simpl. lia.
  - rewrite check_rate_limit_run.
    assert (Forall (fun ts => clock (ticks w) - 60 * second < ts) (window clock w)) as Hw.
    { apply Forall_forall. intros ts Hin. unfold window in Hin.
      apply list_elem_of_In, List.filter_In in Hin as [_ Hlt]. by apply Z.ltb_lt. }
    destruct (_ <=? _).
    + destruct (window clock w) eqn:Ew; destruct w as [[] ? ?]; simpl in *;
        by rewrite ?Ew.
    + destruct w as [[] ? ?]. simpl in *. apply Forall_app. split; [done|].
      apply Forall_singleton. unfold second. lia.
Qed.

(** What a call that the provider answered leaves behind. *)
Lemma call_hf_api_answered (w w1 : World) (prompt text : string) :
  _call_hf_api settings clock chat_completion md5_hexdigest prompt w
  = (Return text, w1) ->
  provider_calls w1 = S (provider_calls w) ->
  CircuitBreaker.state (breaker w1) = CLOSED
  /\ AIService.response_cache (service w1)
     = TTLCache.store (clock (ticks w1 - 1)) (md5_hexdigest prompt) text
         (AIService.response_cache (service w)).
Proof.
  destruct w as [s t p]. destruct s as [mn [fc lf st] rc ts mm].
  unfold _call_hf_api, can_execute, breaker, _get_cache_key.
  cbv [mbind M_bind _check_rate_limit utcnow get_service modify_service
       cache_lookup cache_store call_provider record_success record_failure
       mret M_ret raise with_service service ticks provider_calls
       AIService.circuit_breaker CircuitBreaker.state
       CircuitBreaker.last_failure_time CircuitBreaker.failure_count
       AIService.with_circuit_breaker AIService.with_request_timestamps
       AIService.with_response_cache AIService.request_timestamps
       AIService.response_cache AIService.model_name AIService._mock_mode negb].
  destruct st; [| destruct lf |];
    repeat match goal with
           | |- context [match ?x with _ => _ end] =>
               tryif is_var x then fail
               else lazymatch x with
                    | context [match _ with _ => _ end] => fail
                    | _ => destruct x
                    end
           end;
    intros [= <- <-]; cbn; try lia; intros _;
    rewrite ?Nat.sub_0_r; split; reflexivity.
Qed.

(** X23.  An answer the provider gave is cached: the next call for the
    same prompt, if the rate limiter lets it through and it comes before
    the cache's time to live is over, returns the same text without
    contacting the provider, and leaves the breaker closed. *)
Theorem provider_answer_is_served_from_the_cache
    (w w1 : World) (prompt text : string) :
  _call_hf_api settings clock chat_completion md5_hexdigest prompt w
  = (Return text, w1) ->
  provider_calls w1 = S (provider_calls w) ->
  Z.of_nat (length (window clock w1))
  < Settings.RATE_LIMIT_REQUESTS_PER_MINUTE settings ->
  clock (S (ticks w1))
  < clock (ticks w1 - 1) + TTLCache.ttl (AIService.response_cache (service w)) ->
  exists w2,
    _call_hf_api settings clock chat_completion md5_hexdigest prompt w1
    = (Return text, w2)
    /\ provider_calls w2 = provider_calls w1
    /\ breaker w2 = breaker w1
    /\ CircuitBreaker.state (breaker w2) = CLOSED.
Proof.
  intros Hcall Hp Hroom Hlive.
  destruct (call_hf_api_answered _ _ _ _ Hcall Hp) as [Hclosed Hcache].
  assert (can_execute settings clock w1 = (Return true, w1)) as Hcan.
  { unfold can_execute, breaker in *.
    unfold mbind at 1. unfold M_bind at 1. unfold get_service at 1. cbn beta iota.
    by rewrite Hclosed. }
  unfold _call_hf_api.
  unfold mbind at 1. unfold M_bind at 1. rewrite Hcan. cbn beta iota. cbn [negb].
  unfold mbind at 1. unfold M_bind at 1.
  rewrite check_rate_limit_run, (proj2 (Z.leb_gt _ _) Hroom).
  cbn beta iota.
  unfold breaker in *. destruct w1 as [s1 t1 p1].
  cbn [service ticks provider_calls] in *.
  unfold mbind at 1. unfold M_bind at 1. unfold cache_lookup.
  cbv [mbind M_bind utcnow get_service mret M_ret service ticks provider_calls].
  assert (AIService.response_cache
            (AIService.with_request_timestamps
               (window clock (mkWorld s1 t1 p1) ++ [clock t1]) s1)
          = AIService.response_cache s1) as -> by done.
  unfold _get_cache_key. rewrite Hcache, lookup_store by done.
  eexists. split; [reflexivity|]. by destruct s1.
Qed.

(** X24.  With a configured maximum of 0 (or less) the rate limiter finds
    its timestamp list empty and fails on [request_timestamps[0]]: the
    request is not a rate-limit error but an [IndexError], which
    [generate_answer] turns into the mock answer that reports the error;
    the provider is never contacted. *)
Theorem zero_rate_limit_answers_with_the_error_note
    (query : string) (docs : list Chunk.t) (w : World) :
  AIService._mock_mode (service w) = false ->
  CircuitBreaker.state (breaker w) <> OPEN ->
  Settings.RATE_LIMIT_REQUESTS_PER_MINUTE settings <= 0 ->
  AIService.request_timestamps (service w) = [] ->
  exists w',
    _check_rate_limit settings clock w
    = (Raise (IndexError "list index out of range"), w')
    /\ generate_answer settings clock chat_completion md5_hexdigest query docs w
       = (Return (_generate_mock_response (service w) query docs
                    (Some "list index out of range")), w')
    /\ service w' = service w
    /\ provider_calls w' = provider_calls w
    /\ PyStr.infix "I encountered an error: list index out of range. "
         (Answer.answer (_generate_mock_response (service w) query docs
                           (Some "list index out of range"))).
Proof.
  intros Hm Hs HK Hts. rewrite generate_answer_run by done.
  assert (can_execute settings clock w = (Return true, w)) as Hcan.
  { unfold can_execute, breaker in *.
    unfold mbind at 1. unfold M_bind at 1. unfold get_service at 1. cbn beta iota.
    by destruct (CircuitBreaker.state _). }
  assert (window clock w = []) as Ew by (unfold window; by rewrite Hts).
  assert (_check_rate_limit settings clock w
          = (Raise (IndexError "list index out of range"),
             mkWorld (service w) (S (ticks w)) (provider_calls w))) as Hrl.
  { rewrite check_rate_limit_run, Ew. simpl length.
    rewrite (proj2 (Z.leb_le _ _)) by (simpl; lia).
    do 2 f_equal. destruct w as [[] ? ?]. simpl in *. by subst. }
  exists (mkWorld (service w) (S (ticks w)) (provider_calls w)).
  split; [done|]. split; [|split; [done|split; [done|]]].
  - unfold _call_hf_api.
    unfold mbind at 1. unfold M_bind at 1. rewrite Hcan. cbn beta iota. cbn [negb].
    unfold mbind at 1. unfold M_bind at 1. rewrite Hrl. reflexivity.
  - unfold _generate_mock_response. cbn [Answer.answer PyStr.truthy].
    repeat match goal with
           | |- context [if ?b then _ else _] => destruct b
           end;
      rewrite !append_assoc; exists EmptyString; eexists; reflexivity.
Qed.

(** X25.  [stream_answer] never raises, and the pieces it yields, put
    together, are the words of the answer of [generate_answer] separated
    by single spaces, one piece per word: line breaks and runs of blanks
    in the answer are not streamed. *)
Theorem streamed_pieces_spell_the_words_of_the_answer
    (query : string) (docs : list Chunk.t) (w : World) :
  exists a w',
    generate_answer settings clock chat_completion md5_hexdigest query docs w
    = (Return a, w')
    /\ stream_answer settings clock chat_completion md5_hexdigest query docs w
       = (Return (stream_pieces (PyStr.split (Answer.answer a))), w')
    /\ length (stream_pieces (PyStr.split (Answer.answer a)))
       = length (PyStr.split (Answer.answer a))
    /\ PyStr.join EmptyString (stream_pieces (PyStr.split (Answer.answer a)))
       = PyStr.join " " (PyStr.split (Answer.answer a)).
Proof.
  destruct (generate_answer_returns query docs w) as (a & w' & Hrun & _).
  exists a, w'. split; [done|]. split; [|split].
  - unfold stream_answer. unfold mbind at 1. unfold M_bind at 1. by rewrite Hrun.
  - apply length_stream_pieces.
  - apply join_stream_pieces.
Qed.

End ClientProperties.

(** ** Instances of the further properties *)

Lemma mock_search_best_first_witness :
  let r := search_similar Settings.defaults Sample.generate_embedding
             Sample._cosine_similarity Sample.mock_service "budget" 5 (Some 7) (Some 2)
             None (Some Sample.user_context) None in
  StronglySorted
    (fun a b => (Chunk.similarity_score b <= Chunk.similarity_score a)%Q)
    (SearchResult.results r)
  /\ Forall
       (fun c => (1 # 2 <= Chunk.similarity_score c)%Q)
       (SearchResult.results r)
  /\ SearchResult.total_results r <= 5.
Proof.
  apply (mock_search_returns_best_first Settings.defaults Sample.generate_embedding
           Sample._cosine_similarity Sample.mock_service "budget" 5 (Some 7) (Some 2)
           None (Some Sample.user_context) None).
  - reflexivity.
  - lia.
Defined.

Lemma mock_search_scope_rules_witness :
  exists data,
    data ∈ VectorService._mock_storage Sample.mock_service
    /\ format_hit Sample.project7_payload 1%Q
       = format_hit (Point.payload data)
           (Sample._cosine_similarity (Sample.generate_embedding "budget")
              (Point.embedding data))
    /\ (Payload.access_scope (Point.payload data) = "personal" ->
        Payload.user_id (Point.payload data) = Some 2)
    /\ (forall p, Some 7 = Some p -> Payload.project_id (Point.payload data) = Some p)
    /\ (from_option ctx_is_admin false (Some Sample.user_context) = false ->
        Payload.access_scope (Point.payload data) = "project" \/ Some 7 = None ->
        exists q, Payload.project_id (Point.payload data) = Some q
                  /\ q ∈ from_option accessible_project_ids [] (Some Sample.user_context)).
Proof.
  apply (mock_search_applies_scope_rules Settings.defaults Sample.generate_embedding
           Sample._cosine_similarity Sample.mock_service "budget" 5 (Some 7) (Some 2)
           None (Some Sample.user_context) None (format_hit Sample.project7_payload 1%Q)).
  - reflexivity.
  - reflexivity.
  - apply list_elem_of_here.
Defined.

Lemma add_delete_round_trip_witness :
  delete_document_chunks
    (add_document_chunks Sample.generate_embedding Sample.mock_service 80
       Scenario.handbook_chunks (Some 1) (Some 5)).2
    80
  = delete_document_chunks Sample.mock_service 80.
Proof.
  apply (deleting_an_added_document_undoes_the_addition Sample.generate_embedding
           Sample.mock_service 80 Scenario.handbook_chunks (Some 1) (Some 5)).
  apply (bool_decide_unpack _). vm_compute. exact I.
Defined.

Lemma added_chunks_witness :
  let self' :=
    (add_document_chunks Sample.generate_embedding Sample.mock_service 80
       Scenario.handbook_chunks (Some 1) (Some 5)).2 in
  (forall chunk_id chunk,
     (chunk_id, chunk) ∈ Scenario.handbook_chunks ->
     exists pt,
       pt ∈ held_points self'
       /\ Point.id pt = chunk_id
       /\ Point.payload pt = chunk_payload 80 (Some 1) (Some 5) chunk
       /\ Payload.document_id (Point.payload pt) = 80
       /\ Payload.project_id (Point.payload pt) = Some 1
       /\ Payload.user_id (Point.payload pt) = Some 5
       /\ Payload.access_scope (Point.payload pt)
          = default "project" (ChunkDict.access_scope chunk))
  /\ (forall pt,
        pt ∈ held_points Sample.mock_service ->
        Point.id pt ∉ Scenario.handbook_chunks.*1 -> pt ∈ held_points self').
Proof.
  apply (added_chunks_are_stored Sample.generate_embedding Sample.mock_service 80
           Scenario.handbook_chunks (Some 1) (Some 5)).
  - apply (bool_decide_unpack _). vm_compute. exact I.
  - reflexivity.
Defined.

Lemma rate_limited_request_witness :
  exists a w' wait_time,
    generate_answer Settings.defaults Sample.steady_clock Sample.answering
      Sample.md5_hexdigest Sample.known Sample.two_chunks
      (rate_limit_calls Settings.defaults Sample.steady_clock 30 Sample.world)
    = (Return a, w')
    /\ Answer.answer a
       = "The AI service is currently experiencing high demand. Please try again in a moment."
    /\ Answer.citations a = []
    /\ Answer.confidence_score a = 0%Q
    /\ Answer.error a = Some (StrOf (RateLimitError (TryAgainIn wait_time)))
    /\ provider_calls w'
       = provider_calls
           (rate_limit_calls Settings.defaults Sample.steady_clock 30 Sample.world)
    /\ breaker w'
       = breaker (rate_limit_calls Settings.defaults Sample.steady_clock 30 Sample.world)
    /\ AIService.response_cache (service w')
       = AIService.response_cache
           (service
              (rate_limit_calls Settings.defaults Sample.steady_clock 30 Sample.world)).
Proof.
  apply (rate_limited_request_is_answered_without_the_provider Settings.defaults
           Sample.steady_clock Sample.answering Sample.md5_hexdigest Sample.known
           Sample.two_chunks
           (rate_limit_calls Settings.defaults Sample.steady_clock 30 Sample.world)).
  - reflexivity.
  - vm_compute. discriminate.
  - reflexivity.
  - vm_compute. discriminate.
Defined.

Lemma rate_limiter_window_witness :
  Z.of_nat (length (AIService.request_timestamps
                      (service (rate_limit_calls Settings.defaults Sample.steady_clock
                                  40 Sample.world))))
  <= Z.max 0 (Settings.RATE_LIMIT_REQUESTS_PER_MINUTE Settings.defaults)
  /\ Forall (fun ts => Sample.steady_clock (ticks Sample.world) - 60 * second < ts)
       (AIService.request_timestamps
          (service (_check_rate_limit Settings.defaults Sample.steady_clock
                      Sample.world).2)).
Proof.
  apply (rate_limiter_keeps_a_bounded_recent_window Settings.defaults
           Sample.steady_clock 40 Sample.world Sample.world).
  reflexivity.
Defined.

Lemma cached_answer_witness :
  exists w2,
    _call_hf_api Settings.defaults Sample.clock Sample.answering Sample.md5_hexdigest
      Sample.known
      (_call_hf_api Settings.defaults Sample.clock Sample.answering
         Sample.md5_hexdigest Sample.known Sample.world).2
    = (Return "Twenty days.", w2)
    /\ provider_calls w2 = 1%nat
    /\ breaker w2
       = breaker (_call_hf_api Settings.defaults Sample.clock Sample.answering
                    Sample.md5_hexdigest Sample.known Sample.world).2
    /\ CircuitBreaker.state (breaker w2) = CLOSED.
Proof.
  apply (provider_answer_is_served_from_the_cache Settings.defaults Sample.clock
           Sample.answering Sample.md5_hexdigest Sample.world
           (_call_hf_api Settings.defaults Sample.clock Sample.answering
              Sample.md5_hexdigest Sample.known Sample.world).2
           Sample.known "Twenty days.").
  - vm_compute. reflexivity.
  - vm_compute. reflexivity.
  - vm_compute. reflexivity.
  - vm_compute. reflexivity.
Defined.

Lemma zero_rate_limit_witness :
  exists w',
    _check_rate_limit Scenario.muted Sample.clock Sample.world
    = (Raise (IndexError "list index out of range"), w')
    /\ generate_answer Scenario.muted Sample.clock Sample.answering
         Sample.md5_hexdigest Sample.known Sample.two_chunks Sample.world
       = (Return (_generate_mock_response (service Sample.world) Sample.known
                    Sample.two_chunks (Some "list index out of range")), w')
    /\ service w' = service Sample.world
    /\ provider_calls w' = provider_calls Sample.world
    /\ PyStr.infix "I encountered an error: list index out of range. "
         (Answer.answer (_generate_mock_response (service Sample.world) Sample.known
                           Sample.two_chunks (Some "list index out of range"))).
Proof.
  apply (zero_rate_limit_answers_with_the_error_note Scenario.muted Sample.clock
           Sample.answering Sample.md5_hexdigest Sample.known Sample.two_chunks
           Sample.world).
  - reflexivity.
  - vm_compute. discriminate.
  - vm_compute. discriminate.
  - reflexivity.
Defined.

Lemma threshold_failures_witness :
  let w' := record_failures Settings.defaults Sample.clock 5 Sample.world in
  CircuitBreaker.state (breaker w') = OPEN
  /\ CircuitBreaker.last_failure_time (breaker w') = Some (Sample.clock 4).
Proof.
  apply (threshold_failures_open Settings.defaults Sample.clock Sample.world).
  - vm_compute. discriminate.
  - vm_compute. discriminate.
Defined.

Lemma open_circuit_witness :
  _call_hf_api Settings.defaults Sample.clock Sample.answering Sample.md5_hexdigest
    Sample.known (Scenario.tripped 5)
  = (Raise (HFInferenceError
              "Circuit breaker is OPEN - service temporarily unavailable"),
     mkWorld (service (Scenario.tripped 5)) 6 5).
Proof.
  apply (open_circuit_rejects Settings.defaults Sample.clock Sample.answering
           Sample.md5_hexdigest (Scenario.tripped 5) Sample.known (4 * second)).
  - reflexivity.
  - reflexivity.
  - vm_compute. discriminate.
Defined.

Lemma cooldown_witness :
  can_execute Settings.defaults Sample.clock (Scenario.tripped 20)
  = (Return true,
     mkWorld
       (AIService.with_circuit_breaker
          (CircuitBreaker.mk 5 (Some (4 * second)) HALF_OPEN)
          (service (Scenario.tripped 20)))
       21 5).
Proof.
  apply (cooldown_half_opens Settings.defaults Sample.clock (Scenario.tripped 20)
           (4 * second)).
  - reflexivity.
  - reflexivity.
  - vm_compute. reflexivity.
Defined.

Lemma half_open_probe_witness :
  let run :=
    _call_hf_api Settings.defaults Sample.clock Sample.unreachable
      Sample.md5_hexdigest Sample.other Scenario.probing in
  provider_calls run.2 = provider_calls Scenario.probing
  /\ breaker run.2 = breaker Scenario.probing
  \/ provider_calls run.2 = S (provider_calls Scenario.probing)
     /\ ((exists text,
            run.1 = Return text
            /\ CircuitBreaker.state (breaker run.2) = CLOSED
            /\ CircuitBreaker.failure_count (breaker run.2) = 0)
         \/ (exists e,
               run.1 = Raise e
               /\ CircuitBreaker.state (breaker run.2) = OPEN
               /\ CircuitBreaker.last_failure_time (breaker run.2)
                  = Some (Sample.clock (ticks Scenario.probing + 2)))).
Proof.
  apply (half_open_probe Settings.defaults Sample.clock Sample.unreachable
           Sample.md5_hexdigest Scenario.probing
           (_call_hf_api Settings.defaults Sample.clock Sample.unreachable
              Sample.md5_hexdigest Sample.other Scenario.probing).2
           Sample.other
           (_call_hf_api Settings.defaults Sample.clock Sample.unreachable
              Sample.md5_hexdigest Sample.other Scenario.probing).1).
  - reflexivity.
  - vm_compute. discriminate.
  - apply surjective_pairing.
Defined.

Lemma breaker_consistent_witness :
  breaker_consistent Settings.defaults
    (_call_hf_api Settings.defaults Sample.clock Sample.unreachable
       Sample.md5_hexdigest Sample.other Scenario.probing).2.
Proof.
  apply (call_hf_api_keeps_consistent Settings.defaults Sample.clock Sample.unreachable
           Sample.md5_hexdigest Scenario.probing
           (_call_hf_api Settings.defaults Sample.clock Sample.unreachable
              Sample.md5_hexdigest Sample.other Scenario.probing).2
           Sample.other
           (_call_hf_api Settings.defaults Sample.clock Sample.unreachable
              Sample.md5_hexdigest Sample.other Scenario.probing).1).
  - intros _. vm_compute. discriminate.
  - apply surjective_pairing.
Defined.
